(** * BMC banking support: classification, routing, ticket store, evaluation

    A shallow embedding of [agents/multi_agent_system.py],
    [database/bmc_database.py] and [evaluation/model_evaluator.py], with the
    properties of the classifier, the two handlers and the evaluator that
    the specification relies on. *)

From Stdlib Require Import ZArith NArith QArith Qround String Ascii List Lia.
From Stdlib Require Import Qabs Qminmax DecimalString DecimalFacts DecimalPos.
From stdpp Require Import base option list gmap strings.

#[local] Open Scope N_scope.
#[local] Open Scope list_scope.

(** ** Python strings

    A Python [str] is a sequence of Unicode code points. *)

Abbreviation str := (list N).

(** A source literal, written as an ASCII Rocq string. *)
Definition py (s : string) : str :=
  map N_of_ascii (list_ascii_of_string s).

Arguments py : simpl never.

(** The line break inside the triple-quoted literals of the source. *)
Definition NL : str := [10].

(** What an f-string field prints for a value that is [None] or a [str]. *)
Definition fmt (v : option str) : str :=
  match v with
  | Some s => s
  | None => py "None"
  end.

(** Decimal rendering of an [int] inside an f-string. *)
Definition str_of_int (z : Z) : str :=
  py (NilZero.string_of_int (Z.to_int z)).

(** *** The interpreter's Unicode tables

    [str.upper], [str.lower], [str.strip], [str.split] and the regex class
    [\d] consult the Unicode character database of the interpreter for code
    points outside ASCII.  The database is not part of the repository, so it
    is a parameter; inside ASCII everything is fixed below.  The one fact
    about the tables that is used: a decimal digit (category Nd) has no case
    mapping. *)

Record UnicodeData := {
  uc_upper : N -> list N;
  uc_lower : list N -> N -> list N -> list N;
  uc_decimal : N -> bool;
  uc_space : N -> bool;
  uc_decimal_uncased : forall c, uc_decimal c = true -> uc_upper c = [c]
}.

Section Strings.
Context (U : UnicodeData).

Definition is_ascii (c : N) : bool := c <? 128.

(** [str.upper()] maps every code point on its own. *)
Definition upper_cp (c : N) : list N :=
  if is_ascii c
  then [if (97 <=? c) && (c <=? 122) then c - 32 else c]
  else uc_upper U c.

Definition upper (s : str) : str := flat_map upper_cp s.

(** [str.lower()]: outside ASCII the mapping may look at the neighbours
    (final sigma), so the table receives them. *)
Definition lower_cp (before : list N) (c : N) (after : list N) : list N :=
  if is_ascii c
  then [if (65 <=? c) && (c <=? 90) then c + 32 else c]
  else uc_lower U before c after.

Fixpoint lower_from (before : list N) (s : str) : str :=
  match s with
  | [] => []
  | c :: rest => lower_cp before c rest ++ lower_from (c :: before) rest
  end.

Definition lower (s : str) : str := lower_from [] s.

(** [str.isspace] on one code point: TAB..CR, FS..US and SPACE in ASCII. *)
Definition is_space (c : N) : bool :=
  if is_ascii c
  then ((9 <=? c) && (c <=? 13)) || ((28 <=? c) && (c <=? 32))
  else uc_space U c.

Fixpoint lstrip (s : str) : str :=
  match s with
  | c :: rest => if is_space c then lstrip rest else s
  | [] => []
  end.

Definition rstrip (s : str) : str := rev (lstrip (rev s)).

(** [str.strip()] with no argument. *)
Definition strip (s : str) : str := rstrip (lstrip s).

(** [str.split()] with no argument: the maximal runs of non-space. *)
Fixpoint split_from (cur : str) (s : str) : list str :=
  match s with
  | [] => match cur with [] => [] | _ => [rev cur] end
  | c :: rest =>
      if is_space c
      then match cur with
           | [] => split_from [] rest
           | _ => rev cur :: split_from [] rest
           end
      else split_from (c :: cur) rest
  end.

Definition split (s : str) : list str := split_from [] s.

(** The regex class [\d] of a [str] pattern. *)
Definition is_decimal (c : N) : bool :=
  if is_ascii c then (48 <=? c) && (c <=? 57) else uc_decimal U c.

(** [p] is a prefix of [s]: gives what follows it. *)
Fixpoint strip_prefix (p s : str) : option str :=
  match p, s with
  | [], _ => Some s
  | a :: p', b :: s' => if bool_decide (a = b) then strip_prefix p' s' else None
  | _ :: _, [] => None
  end.

(** [needle in haystack] on two [str]. *)
Fixpoint str_contains (needle hay : str) : bool :=
  match strip_prefix needle hay with
  | Some _ => true
  | None => match hay with
            | [] => false
            | _ :: hay' => str_contains needle hay'
            end
  end.

(** *** The ticket regex

    Both agents search with a pattern of the shape
    [(P1|P2|...)\d{n}]: an alternation of literals followed by [n]
    digits.  [re.search] reports the leftmost match; at one position the
    alternatives are tried in order. *)

Record Pattern := {
  alternatives : list str;
  digit_count : nat
}.

(** The match object: where the match starts and [group(0)]. *)
Record Match := {
  m_start : nat;
  group0 : str
}.

(** [\d{n}] at the head of [s]. *)
Fixpoint take_digits (n : nat) (s : str) : option str :=
  match n with
  | O => Some []
  | S n' =>
      match s with
      | c :: rest =>
          if is_decimal c
          then match take_digits n' rest with
               | Some ds => Some (c :: ds)
               | None => None
               end
          else None
      | [] => None
      end
  end.

Fixpoint match_alternatives (alts : list str) (n : nat) (s : str)
  : option str :=
  match alts with
  | [] => None
  | p :: alts' =>
      match strip_prefix p s with
      | Some rest =>
          match take_digits n rest with
          | Some ds => Some (p ++ ds)
          | None => match_alternatives alts' n s
          end
      | None => match_alternatives alts' n s
      end
  end.

Definition match_here (pat : Pattern) (s : str) : option str :=
  match_alternatives (alternatives pat) (digit_count pat) s.

Fixpoint search_from (pat : Pattern) (i : nat) (s : str) : option Match :=
  match match_here pat s with
  | Some g => Some {| m_start := i; group0 := g |}
  | None =>
      match s with
      | [] => None
      | _ :: rest => search_from pat (S i) rest
      end
  end.

Definition re_search (pat : Pattern) (s : str) : option Match :=
  search_from pat 0 s.

End Strings.

(** ** The world around the code

    Exceptions carry their class name and the text [str(e)] yields. *)

Inductive exn := Exception (cls : string) (msg : str).

Definition exn_str (e : exn) : str :=
  match e with Exception _ msg => msg end.

(** One request to [client.chat.completions.create]. *)
Record ChatMessage := {
  role : str;
  content : str
}.

Record ChatRequest := {
  model : str;
  messages : list ChatMessage;
  temperature : Q;
  max_tokens : Z
}.

(** What the call does: it returns a response whose first choice has the
    given [message.content] (which the API may leave [None]), or it raises. *)
Inductive Completion :=
| Completed (message_content : option str)
| Failed (e : exn).

(** Everything the code consults but does not own.  Each oracle is indexed by
    the number of earlier uses, so that two calls need not agree. *)
Record Env := {
  unicode : UnicodeData;
  random_source : nat -> Z;
  sqlite_fault : nat -> option exn;
  completions_create : nat -> ChatRequest -> Completion;
  time_time : nat -> Q;
  CURRENT_TIMESTAMP : nat -> str
}.

(** A row of table [tickets]; the primary key [ticket_number] is the key of
    the map that holds the rows.  The text columns hold TEXT or NULL. *)
Record TicketRow := {
  ticket_type : option str;
  title : option str;
  description : option str;
  status : option str;
  priority : option str;
  customer_name : option str;
  created_date : option str;
  resolution : option str
}.

(** A row of table [ai_logs]. *)
Record LogRow := {
  log_id : Z;
  log_user_message : option str;
  log_classification : option str;
  log_agent_used : option str;
  log_response : option str;
  log_ticket_number : option str;
  log_success : option Z;
  log_timestamp : option str
}.

(** The database file, the requests sent to the completion service so far,
    and how often each oracle has been used. *)
Record World := {
  tickets : gmap str TicketRow;
  ai_logs : list LogRow;
  ai_logs_seq : Z;
  llm_requests : list ChatRequest;
  random_calls : nat;
  sqlite_calls : nat;
  clock_reads : nat
}.

(** *** Computations: state, exceptions, and a loop that may not finish *)

Inductive outcome (A : Type) :=
| Returned (a : A) (w : World)
| Raised (e : exn) (w : World)
| Unfinished.
Arguments Returned {A} a w.
Arguments Raised {A} e w.
Arguments Unfinished {A}.

Definition M (A : Type) := World -> outcome A.

Definition ret {A} (a : A) : M A := fun w => Returned a w.

Definition bind {A B} (m : M A) (k : A -> M B) : M B :=
  fun w =>
    match m w with
    | Returned a w' => k a w'
    | Raised e w' => Raised e w'
    | Unfinished => Unfinished
    end.

Definition raise {A} (e : exn) : M A := fun w => Raised e w.

(** [try: body / except Exception as e: handler e]. *)
Definition try_except {A} (body : M A) (handler : exn -> M A) : M A :=
  fun w =>
    match body w with
    | Returned a w' => Returned a w'
    | Raised e w' => handler e w'
    | Unfinished => Unfinished
    end.

Definition get_world : M World := fun w => Returned w w.
Definition put_world (w : World) : M unit := fun _ => Returned tt w.

Notation "x <- m ;; k" := (bind m (fun x => k))
  (at level 100, m at next level, right associativity).
Notation "m ;; k" := (bind m (fun _ => k))
  (at level 100, right associativity).

(** [int(x)] on a non-integral number truncates toward zero.  Python floats
    are idealised as rationals. *)
Definition int_of (q : Q) : Z := Z.quot (Qnum q) (Z.pos (Qden q)).

(** Truthiness of an optional string: [None] and [''] are false. *)
Definition truthy (v : option str) : bool :=
  match v with
  | Some (_ :: _) => true
  | _ => false
  end.

(** The counters and the request log advance as follows. *)
Definition tick_clock (w : World) : World :=
  {| tickets := tickets w; ai_logs := ai_logs w;
     ai_logs_seq := ai_logs_seq w; llm_requests := llm_requests w;
     random_calls := random_calls w; sqlite_calls := sqlite_calls w;
     clock_reads := S (clock_reads w) |}.

Definition tick_random (w : World) : World :=
  {| tickets := tickets w; ai_logs := ai_logs w;
     ai_logs_seq := ai_logs_seq w; llm_requests := llm_requests w;
     random_calls := S (random_calls w); sqlite_calls := sqlite_calls w;
     clock_reads := clock_reads w |}.

Definition tick_sqlite (w : World) : World :=
  {| tickets := tickets w; ai_logs := ai_logs w;
     ai_logs_seq := ai_logs_seq w; llm_requests := llm_requests w;
     random_calls := random_calls w; sqlite_calls := S (sqlite_calls w);
     clock_reads := clock_reads w |}.

Definition sent (req : ChatRequest) (w : World) : World :=
  {| tickets := tickets w; ai_logs := ai_logs w;
     ai_logs_seq := ai_logs_seq w; llm_requests := llm_requests w ++ [req];
     random_calls := random_calls w; sqlite_calls := sqlite_calls w;
     clock_reads := clock_reads w |}.

Definition with_tickets (t : gmap str TicketRow) (w : World) : World :=
  {| tickets := t; ai_logs := ai_logs w; ai_logs_seq := ai_logs_seq w;
     llm_requests := llm_requests w; random_calls := random_calls w;
     sqlite_calls := sqlite_calls w; clock_reads := clock_reads w |}.

Definition with_log (r : LogRow) (w : World) : World :=
  {| tickets := tickets w; ai_logs := ai_logs w ++ [r];
     ai_logs_seq := log_id r;
     llm_requests := llm_requests w; random_calls := random_calls w;
     sqlite_calls := sqlite_calls w; clock_reads := clock_reads w |}.

Section Effects.
Context (E : Env).

(** [time.time()] *)
Definition time : M Q :=
  fun w => Returned (time_time E (clock_reads w)) (tick_clock w).

(** [random.randint(a, b)]: some integer of [a..b]. *)
Definition randint (a b : Z) : M Z :=
  fun w =>
    Returned (a + random_source E (random_calls w) `mod` (b - a + 1))%Z
      (tick_random w).

(** [self.client.chat.completions.create(...)]: the request is sent and
    the service answers or the call raises. *)
Definition chat_completions_create (req : ChatRequest) : M (option str) :=
  fun w =>
    match completions_create E (length (llm_requests w)) req with
    | Completed c => Returned c (sent req w)
    | Failed e => Raised e (sent req w)
    end.

(** One round trip to the database file (connect, execute, commit, close).
    It either raises before anything is written, or goes through; the
    result is the index of the round trip. *)
Definition sqlite_connect : M nat :=
  fun w =>
    match sqlite_fault E (sqlite_calls w) with
    | Some e => Raised e (tick_sqlite w)
    | None => Returned (sqlite_calls w) (tick_sqlite w)
    end.

End Effects.

(** ** [database/bmc_database.py] *)

Module BMCDatabase.
Section BMCDatabase.
Context (E : Env).

(** [SELECT 1 FROM tickets WHERE ticket_number = ?], outside any [try]. *)
Definition ticket_exists (ticket_number : str) : M bool :=
  _ <- sqlite_connect E ;;
  w <- get_world ;;
  ret (bool_decide (is_Some (tickets w !! ticket_number))).

(** The [while True] loop draws until the number is free; [fuel] bounds
    the number of draws that are followed. *)
Fixpoint generate_ticket_number (fuel : nat) (ticket_type : str) : M str :=
  match fuel with
  | O => fun _ => Unfinished
  | S fuel' =>
      n <- randint E 1000000000 9999999999 ;;
      let number := ticket_type ++ str_of_int n in
      taken <- ticket_exists number ;;
      if taken then generate_ticket_number fuel' ticket_type
      else ret number
  end.

(** The row an [INSERT INTO tickets (ticket_number, ticket_type, title,
    description, priority, customer_name)] stores: the columns left out
    take their defaults. *)
Definition new_ticket_row (now ticket_type title description
                           priority customer_name : str) : TicketRow :=
  {| ticket_type := Some ticket_type;
     title := Some title;
     description := Some description;
     status := Some (py "New");
     priority := Some priority;
     customer_name := Some customer_name;
     created_date := Some now;
     resolution := None |}.

(** The insertion itself: the key must be new. *)
Definition insert_ticket (ticket_number ticket_type title description
                          priority customer_name : str) : M unit :=
  k <- sqlite_connect E ;;
  w <- get_world ;;
  match tickets w !! ticket_number with
  | Some _ =>
      raise (Exception "IntegrityError"
               (py "UNIQUE constraint failed: tickets.ticket_number"))
  | None =>
      put_world
        (with_tickets
           (<[ticket_number :=
                new_ticket_row (CURRENT_TIMESTAMP E k) ticket_type title
                  description priority customer_name]> (tickets w)) w)
  end.

Definition create_ticket (fuel : nat)
    (ticket_type title description customer_name priority : str)
  : M (option str) :=
  ticket_number <- generate_ticket_number fuel ticket_type ;;
  try_except
    (insert_ticket ticket_number ticket_type title description
       priority customer_name ;;
     ret (Some ticket_number))
    (fun _ => ret None).

(** The dict [get_ticket] builds from a row: a value, possibly [None],
    under each of nine keys. *)
Definition row_dict (ticket_number : str) (result : TicketRow)
  : gmap string (option str) :=
  <["number" := Some ticket_number]>
 (<["type" := ticket_type result]>
 (<["title" := title result]>
 (<["description" := description result]>
 (<["status" := status result]>
 (<["priority" := priority result]>
 (<["customer" := customer_name result]>
 (<["created" := created_date result]>
 (<["resolution" := resolution result]> ∅)))))))).

Definition get_ticket (ticket_number : str)
  : M (option (gmap string (option str))) :=
  try_except
    (_ <- sqlite_connect E ;;
     w <- get_world ;;
     match tickets w !! ticket_number with
     | Some result => ret (Some (row_dict ticket_number result))
     | None => ret None
     end)
    (fun _ => ret None).

Definition update_status (ticket_number status' : str)
    (resolution' : option str) : M bool :=
  try_except
    (_ <- sqlite_connect E ;;
     w <- get_world ;;
     match tickets w !! ticket_number with
     | Some r =>
         put_world
           (with_tickets
              (<[ticket_number :=
                   {| ticket_type := ticket_type r; title := title r;
                      description := description r;
                      status := Some status';
                      priority := priority r;
                      customer_name := customer_name r;
                      created_date := created_date r;
                      resolution := resolution' |}]> (tickets w)) w) ;;
         ret true
     | None => ret false
     end)
    (fun _ => ret false).

(** The row an [INSERT INTO ai_logs (user_message, classification,
    agent_used, response, ticket_number, success)] stores. *)
Definition new_log_row (id : Z) (now user_msg classification agent
                        response : str) (ticket_num : option str)
    (success : bool) : LogRow :=
  {| log_id := id;
     log_user_message := Some user_msg;
     log_classification := Some classification;
     log_agent_used := Some agent;
     log_response := Some response;
     log_ticket_number := ticket_num;
     log_success := Some (if success then 1 else 0)%Z;
     log_timestamp := Some now |}.

(** [log_interaction]: the row is appended, or the error is printed and
    nothing else happens. *)
Definition log_interaction (user_msg classification agent response : str)
    (ticket_num : option str) (success : bool) : M unit :=
  try_except
    (k <- sqlite_connect E ;;
     w <- get_world ;;
     put_world
       (with_log
          (new_log_row (ai_logs_seq w + 1)%Z (CURRENT_TIMESTAMP E k)
             user_msg classification agent response ticket_num success)
          w))
    (fun _ => ret tt).

End BMCDatabase.
End BMCDatabase.

(** ** [agents/multi_agent_system.py] *)

Module BaseAgent.
Section BaseAgent.
Context (E : Env).
Let U := unicode E.

(** [int((time.time() - start) * 1000)] *)
Definition elapsed_ms (start now : Q) : Z :=
  int_of ((now - start) * 1000)%Q.

Definition call_llm (prompt : str) (system_msg : option str)
  : M (str * Z) :=
  start <- time E ;;
  try_except
    (let messages :=
       (if truthy system_msg
        then [ {| role := py "system"; content := fmt system_msg |} ]
        else [])
       ++ [ {| role := py "user"; content := prompt |} ] in
     response <-
       chat_completions_create E
         {| model := py "gpt-3.5-turbo"; messages := messages;
            temperature := 0.7%Q; max_tokens := 300%Z |} ;;
     now <- time E ;;
     let processing_time := elapsed_ms start now in
     match response with
     | Some text => ret (strip U text, processing_time)
     | None =>
         raise (Exception "AttributeError"
                  (py "'NoneType' object has no attribute 'strip'"))
     end)
    (fun e =>
       now <- time E ;;
       ret (py "Error: " ++ exn_str e, elapsed_ms start now)).

End BaseAgent.
End BaseAgent.

(** The result dict of the classifier. *)
Record ClassificationResult := {
  c_success : bool;
  c_classification : str;
  c_confidence : Q;
  c_method : str;
  c_processing_time_ms : Z
}.

Module ClassifierAgent.
Section ClassifierAgent.
Context (E : Env).
Let U := unicode E.

(** [r'(INC|REQ|CRQ|PBI|RLM)\d{10}'] as written in [process]. *)
Definition ticket_pattern : Pattern :=
  {| alternatives := [py "INC"; py "REQ"; py "CRQ"; py "PBI"; py "RLM"];
     digit_count := 10 |}.

Definition system_msg : str :=
  py "Classify as: positive_feedback, negative_feedback, or query"
  ++ NL ++ py "        Respond with only the classification.".

Definition labels : list str :=
  [py "positive_feedback"; py "negative_feedback"; py "query"].

Definition process (user_input : str) : M ClassificationResult :=
  match re_search U ticket_pattern (upper U user_input) with
  | Some _ =>
      ret {| c_success := true;
             c_classification := py "query";
             c_confidence := 0.95%Q;
             c_method := py "rule_based";
             c_processing_time_ms := 5 |}
  | None =>
      let prompt := py "Message: '" ++ user_input ++ py "'" in
      r <- BaseAgent.call_llm E prompt (Some system_msg) ;;
      let '(llm_response, time_ms) := r in
      let classification := strip U (lower U llm_response) in
      let classification :=
        if bool_decide (classification ∈ labels) then classification
        else py "unknown" in
      ret {| c_success := negb (bool_decide (classification = py "unknown"));
             c_classification := classification;
             c_confidence := 0.8%Q;
             c_method := py "llm_based";
             c_processing_time_ms := time_ms |}
  end.

End ClassifierAgent.
End ClassifierAgent.

(** The result dict of a handler.  A field is [None] when the dict has no
    such key; [h_ticket_number] is [Some None] when the key holds [None]. *)
Record HandlerResult := {
  h_success : bool;
  h_response : str;
  h_action : option str;
  h_ticket_number : option (option str);
  h_ticket_details : option (gmap string (option str));
  h_processing_time_ms : option Z
}.

Module FeedbackHandlerAgent.
Section FeedbackHandlerAgent.
Context (E : Env).

Definition _handle_positive (user_input customer_name : str)
  : M HandlerResult :=
  let system_msg :=
    py "Create a warm thank you response for positive banking feedback."
    ++ NL ++ py "        Customer name: " ++ customer_name
    ++ NL ++ py "        Keep under 80 words." in
  r <- BaseAgent.call_llm E (py "Feedback: '" ++ user_input ++ py "'")
         (Some system_msg) ;;
  let '(response, time_ms) := r in
  BMCDatabase.log_interaction E user_input (py "positive_feedback")
    (py "FeedbackHandler") response None true ;;
  ret {| h_success := true;
         h_response := response;
         h_action := Some (py "thanked_customer");
         h_ticket_number := None;
         h_ticket_details := None;
         h_processing_time_ms := Some time_ms |}.

Definition _handle_negative (fuel : nat) (user_input customer_name : str)
  : M HandlerResult :=
  ticket_number <-
    BMCDatabase.create_ticket E fuel (py "INC") (py "Customer Complaint")
      user_input customer_name (py "High") ;;
  let response :=
    py "We sincerely apologize for the inconvenience, " ++ customer_name
    ++ py ". " ++ py "A new incident " ++ fmt ticket_number
    ++ py " has been created and our team "
    ++ py "will address this issue promptly." in
  BMCDatabase.log_interaction E user_input (py "negative_feedback")
    (py "FeedbackHandler") response ticket_number true ;;
  ret {| h_success := true;
         h_response := response;
         h_action := Some (py "incident_created");
         h_ticket_number := Some ticket_number;
         h_ticket_details := None;
         h_processing_time_ms := Some 100%Z |}.

Definition process (fuel : nat) (user_input classification customer_name : str)
  : M HandlerResult :=
  if bool_decide (classification = py "positive_feedback")
  then _handle_positive user_input customer_name
  else if bool_decide (classification = py "negative_feedback")
  then _handle_negative fuel user_input customer_name
  else ret {| h_success := false;
              h_response := py "Invalid classification";
              h_action := None;
              h_ticket_number := None;
              h_ticket_details := None;
              h_processing_time_ms := None |}.

End FeedbackHandlerAgent.
End FeedbackHandlerAgent.

(** A subscript [d[key]] raises [KeyError] when the key is missing. *)
Definition subscript (d : gmap string (option str)) (key : string)
  : M (option str) :=
  match d !! key with
  | Some v => ret v
  | None => raise (Exception "KeyError" (py "'" ++ py key ++ py "'"))
  end.

Module QueryHandlerAgent.
Section QueryHandlerAgent.
Context (E : Env).
Let U := unicode E.

(** [r'(INC|REQ|CRQ|PBI|RLM)\d{10}'] as written in [process]. *)
Definition ticket_pattern : Pattern :=
  {| alternatives := [py "INC"; py "REQ"; py "CRQ"; py "PBI"; py "RLM"];
     digit_count := 10 |}.

Definition type_names : gmap str str :=
  <[py "INC" := py "Incident"]>
 (<[py "REQ" := py "Service Request"]>
 (<[py "CRQ" := py "Change Request"]>
 (<[py "PBI" := py "Problem"]>
 (<[py "RLM" := py "Release"]> ∅)))).

(** [type_names.get(ticket_type, 'Ticket')]; [None] is not a key. *)
Definition type_name_of (ticket_type : option str) : str :=
  match ticket_type with
  | Some t => default (py "Ticket") (type_names !! t)
  | None => py "Ticket"
  end.

Definition _generate_status_response (ticket : gmap string (option str))
  : M str :=
  ticket_type <- subscript ticket "type" ;;
  number <- subscript ticket "number" ;;
  status <- subscript ticket "status" ;;
  title <- subscript ticket "title" ;;
  let type_name := type_name_of ticket_type in
  let head :=
    py "Your " ++ type_name ++ py " " ++ fmt number in
  let titled := head ++ py " '" ++ fmt title ++ py "'" in
  if bool_decide (status = Some (py "New"))
  then ret (titled ++ py " has been logged and is awaiting assignment.")
  else if bool_decide (status = Some (py "In Progress"))
  then ret (titled ++ py " is currently being worked on by our team.")
  else if bool_decide (status = Some (py "Resolved"))
  then
    let resolution :=
      default (Some (py "Issue resolved.")) (ticket !! "resolution") in
    ret (titled ++ py " has been resolved. " ++ fmt resolution)
  else if bool_decide (status = Some (py "Closed"))
  then ret (titled ++ py " has been closed.")
  else ret (head ++ py " is currently '" ++ fmt status ++ py "'.").

Definition process (user_input : str) : M HandlerResult :=
  match re_search U ticket_pattern (upper U user_input) with
  | None =>
      ret {| h_success := false;
             h_response :=
               py "Please provide a valid ticket number (INC/REQ/CRQ/PBI/RLM + 10 digits)";
             h_action := None;
             h_ticket_number := None;
             h_ticket_details := None;
             h_processing_time_ms := Some 5%Z |}
  | Some ticket_match =>
      let ticket_number := group0 ticket_match in
      ticket_details <- BMCDatabase.get_ticket E ticket_number ;;
      match ticket_details with
      | None =>
          let response :=
            py "Ticket " ++ ticket_number
            ++ py " not found. Please verify the number." in
          BMCDatabase.log_interaction E user_input (py "query")
            (py "QueryHandler") response (Some ticket_number) false ;;
          ret {| h_success := false;
                 h_response := response;
                 h_action := None;
                 h_ticket_number := Some (Some ticket_number);
                 h_ticket_details := None;
                 h_processing_time_ms := Some 50%Z |}
      | Some details =>
          response <- _generate_status_response details ;;
          BMCDatabase.log_interaction E user_input (py "query")
            (py "QueryHandler") response (Some ticket_number) true ;;
          ret {| h_success := true;
                 h_response := response;
                 h_action := None;
                 h_ticket_number := Some (Some ticket_number);
                 h_ticket_details := Some details;
                 h_processing_time_ms := Some 75%Z |}
      end
  end.

End QueryHandlerAgent.
End QueryHandlerAgent.

(** The dict [process_message] returns: the handler's dict updated with
    four keys, or, when the message is turned away, a dict with [success],
    [response] and the total time only (the fields of the other keys are
    then [None]). *)
Record OrchestrationResult := {
  o_result : HandlerResult;
  o_classification : option str;
  o_classification_confidence : option Q;
  o_agent_path : option str;
  o_total_processing_time_ms : Z
}.

Module MultiAgentOrchestrator.
Section MultiAgentOrchestrator.
Context (E : Env).

(** The arrow of the [agent_path] strings is U+2192. *)
Definition arrow : str := [8594].

(** The dict of the two early returns. *)
Definition turned_away (response : str) (total : Z) : OrchestrationResult :=
  {| o_result := {| h_success := false;
                    h_response := response;
                    h_action := None;
                    h_ticket_number := None;
                    h_ticket_details := None;
                    h_processing_time_ms := None |};
     o_classification := None;
     o_classification_confidence := None;
     o_agent_path := None;
     o_total_processing_time_ms := total |}.

Definition process_message (fuel : nat) (user_input customer_name : str)
  : M OrchestrationResult :=
  start_time <- time E ;;
  classification_result <- ClassifierAgent.process E user_input ;;
  if negb (c_success classification_result)
  then
    now <- time E ;;
    ret (turned_away
           (py "Unable to understand your message. Please try again.")
           (BaseAgent.elapsed_ms start_time now))
  else
    let classification := c_classification classification_result in
    if bool_decide (classification ∈
                      [py "positive_feedback"; py "negative_feedback"])
    then
      result <- FeedbackHandlerAgent.process E fuel user_input classification
                  customer_name ;;
      now <- time E ;;
      ret {| o_result := result;
             o_classification := Some classification;
             o_classification_confidence :=
               Some (c_confidence classification_result);
             o_agent_path :=
               Some (py "Classifier " ++ arrow ++ py " FeedbackHandler");
             o_total_processing_time_ms :=
               BaseAgent.elapsed_ms start_time now |}
    else if bool_decide (classification = py "query")
    then
      result <- QueryHandlerAgent.process E user_input ;;
      now <- time E ;;
      ret {| o_result := result;
             o_classification := Some classification;
             o_classification_confidence :=
               Some (c_confidence classification_result);
             o_agent_path :=
               Some (py "Classifier " ++ arrow ++ py " QueryHandler");
             o_total_processing_time_ms :=
               BaseAgent.elapsed_ms start_time now |}
    else
      now <- time E ;;
      ret (turned_away (py "Unable to process your request.")
             (BaseAgent.elapsed_ms start_time now)).

End MultiAgentOrchestrator.
End MultiAgentOrchestrator.

(** ** [evaluation/model_evaluator.py] *)

(** A value read back from SQLite: NULL, an integer or a text. *)
Inductive sqlval :=
| SqlNull
| SqlInt (z : Z)
| SqlText (s : str).

#[global] Instance sqlval_eq_dec : EqDecision sqlval.
Proof. solve_decision. Defined.

#[global] Instance sqlval_inhabited : Inhabited sqlval := populate SqlNull.

(** Truthiness of such a value in Python. *)
Definition sql_truthy (v : sqlval) : bool :=
  match v with
  | SqlNull => false
  | SqlInt z => negb (z =? 0)%Z
  | SqlText s => truthy (Some s)
  end.

Definition sql_of_text (v : option str) : sqlval :=
  match v with Some s => SqlText s | None => SqlNull end.

Definition sql_of_int (v : option Z) : sqlval :=
  match v with Some z => SqlInt z | None => SqlNull end.

(** The columns of [ai_logs] as [init_database] creates the table; a name
    that is not a column has no value. *)
Definition log_column (name : string) (r : LogRow) : option sqlval :=
  if bool_decide (name = "id"%string) then Some (SqlInt (log_id r))
  else if bool_decide (name = "user_message"%string)
  then Some (sql_of_text (log_user_message r))
  else if bool_decide (name = "classification"%string)
  then Some (sql_of_text (log_classification r))
  else if bool_decide (name = "agent_used"%string)
  then Some (sql_of_text (log_agent_used r))
  else if bool_decide (name = "response"%string)
  then Some (sql_of_text (log_response r))
  else if bool_decide (name = "ticket_number"%string)
  then Some (sql_of_text (log_ticket_number r))
  else if bool_decide (name = "success"%string)
  then Some (sql_of_int (log_success r))
  else if bool_decide (name = "timestamp"%string)
  then Some (sql_of_text (log_timestamp r))
  else None.

Definition ai_logs_columns : list string :=
  ["id"; "user_message"; "classification"; "agent_used"; "response";
   "ticket_number"; "success"; "timestamp"]%string.

(** A [SELECT c1, ..., cn FROM ai_logs] is compiled before any row is read:
    an unknown column raises whatever the table holds. *)
Definition select_columns (cols : list string) (rows : list LogRow)
  : M (list (list sqlval)) :=
  match filter (fun c => c ∉ ai_logs_columns) cols with
  | c :: _ =>
      raise (Exception "OperationalError" (py "no such column: " ++ py c))
  | [] =>
      ret (map (fun r => omap (fun c => log_column c r) cols) rows)
  end.

(** Binary collation on texts: code point by code point. *)
Fixpoint str_ltb (a b : str) : bool :=
  match a, b with
  | _, [] => false
  | [], _ :: _ => true
  | x :: a', y :: b' => (x <? y) || ((x =? y) && str_ltb a' b')
  end.

(** NULL sorts before every text. *)
Definition timestamp_ltb (a b : option str) : bool :=
  match a, b with
  | _, None => false
  | None, Some _ => true
  | Some x, Some y => str_ltb x y
  end.

(** [ORDER BY timestamp DESC]; rows with equal timestamps keep their order
    of insertion. *)
Fixpoint insert_desc (r : LogRow) (sorted : list LogRow) : list LogRow :=
  match sorted with
  | [] => [r]
  | r' :: rest =>
      if timestamp_ltb (log_timestamp r') (log_timestamp r)
      then r :: sorted
      else r' :: insert_desc r rest
  end.

Definition order_by_timestamp_desc (rows : list LogRow) : list LogRow :=
  fold_left (fun acc r => insert_desc r acc) rows [].

(** ** Floats

    A Python [float] is a binary64 number, modelled by the rational it
    denotes.  Where the code computes with floats the exact result is
    rounded to the nearest binary64 number, ties going to the even
    significand; a literal that is only handed on (0.95, 0.8, 0.7) is kept
    as it is written. *)

(** The integer nearest to [x], the even one of two that are equally near. *)
Definition round_half_even (x : Q) : Z :=
  let f := Qfloor x in
  match (x - inject_Z f ?= 1 # 2)%Q with
  | Lt => f
  | Gt => (f + 1)%Z
  | Eq => if Z.even f then f else (f + 1)%Z
  end.

(** For [0 < a], the [l] with [2 ^ l <= a < 2 ^ (l + 1)]. *)
Definition floor_log2 (a : Q) : Z :=
  let l := (Z.log2 (Qnum a) - Z.log2 (Zpos (Qden a)))%Z in
  if Qle_bool (2 ^ l) a then l else (l - 1)%Z.

(** The binary64 number nearest to [x]: a significand of 53 bits, and of
    fewer bits below [2 ^ -1022], where the numbers are [2 ^ -1074] apart.
    The result is in lowest terms. *)
Definition binary64 (x : Q) : Q :=
  let x := Qred x in
  if Qeq_bool x 0 then 0%Q
  else
    let a := Qabs x in
    let e := Z.max (floor_log2 a - 52) (-1074) in
    let m := round_half_even (a / 2 ^ e) in
    let r := Qred (inject_Z m * 2 ^ e) in
    if Qle_bool 0 x then r else Qred (- r).

(** [a * b], [a + b] and [a / b] of two floats, for results within the
    range of the finite floats (the evaluator's are between 0 and 100). *)
Definition float_mul (a b : Q) : Q := binary64 (a * b).
Definition float_add (a b : Q) : Q := binary64 (a + b).
Definition float_div (a b : Q) : Q := binary64 (a / b).

(** True division [a / b] of two integers: the quotient, rounded once.  A
    quotient that rounds beyond the largest float is an [OverflowError]. *)
Definition true_div (a b : Q) : M Q :=
  if Qeq_bool b 0
  then raise (Exception "ZeroDivisionError" (py "division by zero"))
  else if Qle_bool (2 ^ 1024 - 2 ^ 970) (Qabs (a / b))
  then raise (Exception "OverflowError"
                (py "integer division result too large for a float"))
  else ret (binary64 (a / b)).

(** A [for] loop that threads the variables it assigns. *)
Fixpoint for_each {A S : Type} (xs : list A) (body : S -> A -> M S) (s : S)
  : M S :=
  match xs with
  | [] => ret s
  | x :: rest => s' <- body s x ;; for_each rest body s'
  end.

(** A dict in order of first insertion: [if k not in d: d[k] = init],
    then [d[k] = f(d[k])]. *)
Fixpoint dict_upsert {K V : Type} `{EqDecision K} (k : K) (init : V)
    (f : V -> V) (d : list (K * V)) : list (K * V) :=
  match d with
  | [] => [(k, f init)]
  | (k', v) :: rest =>
      if bool_decide (k' = k) then (k', f v) :: rest
      else (k', v) :: dict_upsert k init f rest
  end.

Record TestCase := {
  tc_message : str;
  tc_expected : str;
  tc_category : str
}.

Record DetailedResult := {
  d_message : str;
  d_expected : str;
  d_actual : str;
  d_correct : bool;
  d_category : str;
  d_confidence : Q
}.

Record ClassificationReport := {
  total_tests : Z;
  correct_classifications : Z;
  accuracy_percentage : Q;
  detailed_results : list DetailedResult;
  category_performance : list (str * (Q * Z * Z))
}.

Inductive QualityReport :=
| QualityNoData (message : str)
| QualityResults (total_interactions : Z) (success_rate : Q)
    (empathy_score clarity_score completeness_score : Q)
    (agent_performance : list (sqlval * (Q * Z)))
    (classification_distribution : list (sqlval * Z)).

Inductive RoutingReport :=
| RoutingNoData (message : str)
| RoutingResults (total_routings correct_routings : Z) (routing_accuracy : Q)
    (routing_matrix : list (sqlval * list (sqlval * (Z * Z)))).

Module ModelEvaluator.
Section ModelEvaluator.
Context (E : Env).
Let U := unicode E.

(** The corpus [__init__] stores in [self.test_cases]. *)
Definition initial_test_cases : list TestCase :=
  [ {| tc_message := py "Thank you for solving my issue!";
       tc_expected := py "positive_feedback"; tc_category := py "gratitude" |};
    {| tc_message := py "Great service from your team!";
       tc_expected := py "positive_feedback"; tc_category := py "praise" |};
    {| tc_message := py "My card is still not working";
       tc_expected := py "negative_feedback"; tc_category := py "complaint" |};
    {| tc_message := py "Very disappointed with the delay";
       tc_expected := py "negative_feedback";
       tc_category := py "dissatisfaction" |};
    {| tc_message := py "What's the status of INC1234567890?";
       tc_expected := py "query"; tc_category := py "status_inquiry" |};
    {| tc_message := py "Can you check ticket REQ0987654321?";
       tc_expected := py "query"; tc_category := py "ticket_lookup" |};
    {| tc_message := py "Please help me with my account";
       tc_expected := py "query"; tc_category := py "help_request" |};
    {| tc_message := py "Thanks for the quick resolution!";
       tc_expected := py "positive_feedback";
       tc_category := py "appreciation" |};
    {| tc_message := py "This is taking too long";
       tc_expected := py "negative_feedback"; tc_category := py "frustration" |};
    {| tc_message := py "Status of PBI5555555555?";
       tc_expected := py "query"; tc_category := py "problem_inquiry" |} ].

Definition count (b : bool) : Z := if b then 1 else 0.

(** [self.test_cases] is the argument [test_cases]. *)
Definition evaluate_classification_accuracy (test_cases : list TestCase)
  : M ClassificationReport :=
  let total := Z.of_nat (length test_cases) in
  st <- for_each test_cases
          (fun (st : Z * list DetailedResult * list (str * (Z * Z))) tc =>
             let '(correct, detailed, category_stats) := st in
             classification_result <-
               ClassifierAgent.process E (tc_message tc) ;;
             let actual := c_classification classification_result in
             let is_correct := bool_decide (actual = tc_expected tc) in
             ret (correct + count is_correct,
                  detailed ++
                    [ {| d_message := tc_message tc;
                         d_expected := tc_expected tc;
                         d_actual := actual;
                         d_correct := is_correct;
                         d_category := tc_category tc;
                         d_confidence :=
                           c_confidence classification_result |} ],
                  dict_upsert (tc_category tc) (0, 0)
                    (fun '(t, c) => (t + 1, c + count is_correct))
                    category_stats)%Z)
          (0%Z, [], []) ;;
  let '(correct, detailed, category_stats) := st in
  ratio <- true_div (inject_Z correct) (inject_Z total) ;;
  performance <-
    for_each category_stats
      (fun acc '(category, (t, c)) =>
         r <- true_div (inject_Z c) (inject_Z t) ;;
         ret (acc ++ [(category, (float_mul r 100, c, t))]))
      [] ;;
  ret {| total_tests := total;
         correct_classifications := correct;
         accuracy_percentage := float_mul ratio 100;
         detailed_results := detailed;
         category_performance := performance |}.

Definition empathy_keywords : list str :=
  [py "apologize"; py "sorry"; py "thank"; py "appreciate";
   py "understand"; py "delighted"].

Definition clarity_indicators : list str :=
  [py "ticket"; py "status"; py "resolved"; py "created"; py "team"].

(** The three heuristic scores of one reply. *)
Definition quality_scores (response : str) : Q * Q * Q :=
  let response_length := Z.of_nat (length (split U response)) in
  let lowered := lower U response in
  let empathy_score :=
    Z.of_nat (length (filter (fun word => str_contains word lowered = true)
                        empathy_keywords)) in
  let clarity_score := Qmin (float_div (inject_Z response_length) 20) 1 in
  let completeness_score :=
    if existsb (fun indicator => str_contains indicator lowered)
         clarity_indicators
    then 1%Q else 0.5%Q in
  (inject_Z empathy_score, clarity_score, completeness_score).

Definition evaluate_response_quality : M QualityReport :=
  _ <- sqlite_connect E ;;
  w <- get_world ;;
  interactions <-
    select_columns
      ["user_message"; "classification"; "response_generated"; "success";
       "agent_used"]%string
      (take 50 (order_by_timestamp_desc (ai_logs w))) ;;
  match interactions with
  | [] => ret (QualityNoData (py "No interactions found for evaluation"))
  | _ :: _ =>
      let total := Z.of_nat (length interactions) in
      let successful_interactions :=
        Z.of_nat (length (filter (fun i => sql_truthy (i !!! 3%nat) = true)
                            interactions)) in
      ratio <- true_div (inject_Z successful_interactions) (inject_Z total) ;;
      st <- for_each interactions
              (fun (st : list (sqlval * (Z * Z)) * list (sqlval * Z)
                         * (Q * Q * Q)) interaction =>
                 let '(agent_stats, classification_stats, (em, cl, co)) := st in
                 match interaction with
                 | [user_msg; classification; response; success; agent] =>
                     let agent_stats :=
                       dict_upsert agent (0, 0)%Z
                         (fun '(t, s) =>
                            (t + 1, s + count (sql_truthy success))%Z)
                         agent_stats in
                     let classification_stats :=
                       dict_upsert classification 0%Z (fun n => n + 1)%Z
                         classification_stats in
                     if sql_truthy success && sql_truthy response
                     then
                       match response with
                       | SqlText text =>
                           let '(e, c, k) := quality_scores text in
                           ret (agent_stats, classification_stats,
                                (float_add em e, float_add cl c,
                                 float_add co k))
                       | _ =>
                           raise (Exception "AttributeError"
                                    (py "'int' object has no attribute 'split'"))
                       end
                     else ret (agent_stats, classification_stats, (em, cl, co))
                 | _ =>
                     raise (Exception "ValueError"
                              (py "not enough values to unpack"))
                 end)
              ([], [], (0, 0, 0)%Q) ;;
      let '(agent_stats, classification_stats, (em, cl, co)) := st in
      let average (x : Q) : Q :=
        if (0 <? successful_interactions)%Z
        then float_div x (inject_Z successful_interactions) else x in
      agent_performance <-
        for_each agent_stats
          (fun acc '(agent, (t, s)) =>
             r <- true_div (inject_Z s) (inject_Z t) ;;
             ret (acc ++ [(agent, (float_mul r 100, t))]))
          [] ;;
      ret (QualityResults total (float_mul ratio 100)
             (average em) (average cl) (average co)
             agent_performance classification_stats)
  end.

Definition expected_routing (classification : sqlval) : option str :=
  if bool_decide (classification = SqlText (py "positive_feedback"))
  then Some (py "FeedbackHandler")
  else if bool_decide (classification = SqlText (py "negative_feedback"))
  then Some (py "FeedbackHandler")
  else if bool_decide (classification = SqlText (py "query"))
  then Some (py "QueryHandler")
  else None.

Definition evaluate_agent_routing_success : M RoutingReport :=
  _ <- sqlite_connect E ;;
  w <- get_world ;;
  routing_data <-
    select_columns ["classification"; "agent_used"; "success"]%string
      (filter (fun r => is_Some (log_classification r)
                        ∧ is_Some (log_agent_used r)) (ai_logs w)) ;;
  match routing_data with
  | [] => ret (RoutingNoData (py "No routing data available"))
  | _ :: _ =>
      let total := Z.of_nat (length routing_data) in
      st <- for_each routing_data
              (fun (st : list (sqlval * list (sqlval * (Z * Z))) * Z) row =>
                 let '(routing_matrix, correct) := st in
                 match row with
                 | [classification; agent; success] =>
                     let routing_matrix :=
                       dict_upsert classification []
                         (dict_upsert agent (0, 0)%Z
                            (fun '(c, s) =>
                               (c + 1, s + count (sql_truthy success))%Z))
                         routing_matrix in
                     match expected_routing classification with
                     | Some expected_agent =>
                         match agent with
                         | SqlText a =>
                             ret (routing_matrix,
                                  (correct
                                   + count (str_contains expected_agent a))%Z)
                         | _ =>
                             raise (Exception "TypeError"
                                      (py "argument of type 'int' is not iterable"))
                         end
                     | None => ret (routing_matrix, correct)
                     end
                 | _ =>
                     raise (Exception "ValueError"
                              (py "not enough values to unpack"))
                 end)
              ([], 0%Z) ;;
      let '(routing_matrix, correct) := st in
      ratio <- true_div (inject_Z correct) (inject_Z total) ;;
      ret (RoutingResults total correct (float_mul ratio 100) routing_matrix)
  end.

End ModelEvaluator.
End ModelEvaluator.

(** ** Fixtures for concrete runs *)

(** Tables with no case pairs, digits or spaces beyond ASCII; concrete runs
    below only use ASCII text, where the tables are not consulted. *)
Definition ascii_tables : UnicodeData :=
  {| uc_upper := fun c => [c];
     uc_lower := fun _ c _ => [c];
     uc_decimal := fun _ => false;
     uc_space := fun _ => false;
     uc_decimal_uncased := fun c _ => eq_refl |}.

Definition empty_world : World :=
  {| tickets := ∅; ai_logs := []; ai_logs_seq := 0; llm_requests := [];
     random_calls := 0; sqlite_calls := 0; clock_reads := 0 |}.

(** An environment in which nothing fails: the generator draws 1234567890,
    the service answers with the given text, the clock ticks every quarter
    of a second. *)
Definition calm_env (answer : str) : Env :=
  {| unicode := ascii_tables;
     random_source := fun _ => 234567890%Z;
     sqlite_fault := fun _ => None;
     completions_create := fun _ _ => Completed (Some answer);
     time_time := fun k => (inject_Z (Z.of_nat k) / 4)%Q;
     CURRENT_TIMESTAMP := fun _ => py "2024-05-01 10:00:00" |}.

(** The same, but the completion service is unreachable. *)
Definition offline_env : Env :=
  {| unicode := ascii_tables;
     random_source := fun _ => 234567890%Z;
     sqlite_fault := fun _ => None;
     completions_create :=
       fun _ _ => Failed (Exception "APIConnectionError" (py "Connection error."));
     time_time := fun k => (inject_Z (Z.of_nat k) / 4)%Q;
     CURRENT_TIMESTAMP := fun _ => py "2024-05-01 10:00:00" |}.

(** The same as [calm_env], but the database round trip number [k] raises. *)
Definition faulty_env (k : nat) : Env :=
  {| unicode := ascii_tables;
     random_source := fun _ => 234567890%Z;
     sqlite_fault :=
       fun i => if bool_decide (i = k)
                then Some (Exception "OperationalError" (py "database is locked"))
                else None;
     completions_create := fun _ _ => Completed (Some (py "query"));
     time_time := fun k => (inject_Z (Z.of_nat k) / 4)%Q;
     CURRENT_TIMESTAMP := fun _ => py "2024-05-01 10:00:00" |}.

(** As [calm_env], but every draw of the generator differs from the one
    before. *)
Definition counting_env : Env :=
  {| unicode := ascii_tables;
     random_source := fun k => (234567890 + Z.of_nat k)%Z;
     sqlite_fault := fun _ => None;
     completions_create := fun _ _ => Completed (Some (py "query"));
     time_time := fun k => (inject_Z (Z.of_nat k) / 4)%Q;
     CURRENT_TIMESTAMP := fun _ => py "2024-05-01 10:00:00" |}.

(** The service recognises a complaint, and the first database round trip
    raises. *)
Definition complaint_down_env : Env :=
  {| unicode := ascii_tables;
     random_source := fun _ => 234567890%Z;
     sqlite_fault :=
       fun i => if bool_decide (i = 0%nat)
                then Some (Exception "OperationalError" (py "database is locked"))
                else None;
     completions_create := fun _ _ => Completed (Some (py "negative_feedback"));
     time_time := fun k => (inject_Z (Z.of_nat k) / 4)%Q;
     CURRENT_TIMESTAMP := fun _ => py "2024-05-01 10:00:00" |}.

(** A store whose log holds one row of the query handler and one row
    without a handler. *)
Definition logged_world : World :=
  with_log
    {| log_id := 2; log_user_message := Some (py "hello");
       log_classification := Some (py "query"); log_agent_used := None;
       log_response := None; log_ticket_number := None;
       log_success := Some 0%Z;
       log_timestamp := Some (py "2024-05-01 10:00:01") |}
    (with_log
       (BMCDatabase.new_log_row 1 (py "2024-05-01 10:00:00")
          (py "Status of PBI5555555555?") (py "query") (py "QueryHandler")
          (py "Ticket PBI5555555555 not found. Please verify the number.")
          (Some (py "PBI5555555555")) false)
       empty_world).

(** A store whose log holds three rows, of which only the first went to
    the handler of its label. *)
Definition misrouted_world : World :=
  with_log
    (BMCDatabase.new_log_row 3 (py "2024-05-01 10:00:02")
       (py "Thanks!") (py "positive_feedback") (py "QueryHandler")
       (py "Please provide a valid ticket number (INC/REQ/CRQ/PBI/RLM + 10 digits)")
       None false)
    (with_log
       (BMCDatabase.new_log_row 2 (py "2024-05-01 10:00:01")
          (py "Status of PBI5555555555?") (py "query") (py "FeedbackHandler")
          (py "Invalid classification") None false)
       (with_log
          (BMCDatabase.new_log_row 1 (py "2024-05-01 10:00:00")
             (py "Status of PBI5555555555?") (py "query") (py "QueryHandler")
             (py "Ticket PBI5555555555 not found. Please verify the number.")
             (Some (py "PBI5555555555")) false)
          empty_world)).

(** The store of Scenario C: the one ticket INC1234567890, resolved. *)
Definition scenario_C_row : TicketRow :=
  {| ticket_type := Some (py "INC");
     title := Some (py "Credit Card Blocked");
     description := Some (py "Card blocked after suspicious activity");
     status := Some (py "Resolved");
     priority := Some (py "High");
     customer_name := Some (py "John Smith");
     created_date := Some (py "2024-05-01 09:00:00");
     resolution := Some (py "Card unblocked after verification") |}.

Definition scenario_C_world : World :=
  with_tickets {[ py "INC1234567890" := scenario_C_row ]} empty_world.

(** ** Specification-side notions *)

Section TicketReferences.
Context (U : UnicodeData).

(** [g] is one of the alternatives followed by exactly the required
    number of digits. *)
Definition ticket_shaped (pat : Pattern) (g : str) : Prop :=
  ∃ p ds, g = p ++ ds ∧ p ∈ alternatives pat
          ∧ length ds = digit_count pat
          ∧ Forall (fun c => is_decimal U c = true) ds.

(** [g] occurs in [s] at offset [i]. *)
Definition occurs_at (g s : str) (i : nat) : Prop :=
  ∃ pre post, s = pre ++ g ++ post ∧ length pre = i.

(** [s] contains a ticket reference; nothing is asked of what follows
    it. *)
Definition has_ticket (pat : Pattern) (s : str) : Prop :=
  ∃ g i, ticket_shaped pat g ∧ occurs_at g s i.

End TicketReferences.

Section Requests.
Context (E : Env).

(** The request [call_llm] sends. *)
Definition llm_request (prompt : str) (system_msg : option str) : ChatRequest :=
  {| model := py "gpt-3.5-turbo";
     messages :=
       (if truthy system_msg
        then [ {| role := py "system"; content := fmt system_msg |} ]
        else [])
       ++ [ {| role := py "user"; content := prompt |} ];
     temperature := 0.7%Q;
     max_tokens := 300%Z |}.

(** The world after [call_llm]: two clock readings and one request. *)
Definition after_llm (prompt : str) (system_msg : option str) (w : World)
  : World :=
  tick_clock (sent (llm_request prompt system_msg) (tick_clock w)).

(** The time [call_llm] reports when entered in world [w]. *)
Definition llm_elapsed (w : World) : Z :=
  BaseAgent.elapsed_ms (time_time E (clock_reads w))
    (time_time E (S (clock_reads w))).

End Requests.

(** The display name the specification gives each ticket type. *)
Definition display_name (ticket_type : option str) : str :=
  if bool_decide (ticket_type = Some (py "INC")) then py "Incident"
  else if bool_decide (ticket_type = Some (py "REQ")) then py "Service Request"
  else if bool_decide (ticket_type = Some (py "CRQ")) then py "Change Request"
  else if bool_decide (ticket_type = Some (py "PBI")) then py "Problem"
  else if bool_decide (ticket_type = Some (py "RLM")) then py "Release"
  else py "Ticket".

(** How every reply starts: the display name and the number, then the
    title in quotes. *)
Definition reply_head (number : str) (row : TicketRow) : str :=
  py "Your " ++ display_name (ticket_type row) ++ py " " ++ number.

Definition reply_titled (number : str) (row : TicketRow) : str :=
  reply_head number row ++ py " '" ++ fmt (title row) ++ py "'".

(** The status-to-phrasing table of the specification, for the ticket
    stored as [row] under [number]; a resolved ticket without resolution
    text gets the default phrase. *)
Definition status_reply (number : str) (row : TicketRow) : str :=
  let head := reply_head number row in
  let titled := reply_titled number row in
  if bool_decide (status row = Some (py "New"))
  then titled ++ py " has been logged and is awaiting assignment."
  else if bool_decide (status row = Some (py "In Progress"))
  then titled ++ py " is currently being worked on by our team."
  else if bool_decide (status row = Some (py "Resolved"))
  then titled ++ py " has been resolved. "
       ++ default (py "Issue resolved.") (resolution row)
  else if bool_decide (status row = Some (py "Closed"))
  then titled ++ py " has been closed."
  else head ++ py " is currently '" ++ fmt (status row) ++ py "'.".

(** The apology of the negative-feedback path, for a customer and the
    number of the new incident. *)
Definition apology (customer_name number : str) : str :=
  py "We sincerely apologize for the inconvenience, " ++ customer_name
  ++ py ". A new incident " ++ number
  ++ py " has been created and our team will address this issue promptly.".

(** Two worlds with the same database and the same requests sent. *)
Definition same_data (w w' : World) : Prop :=
  tickets w' = tickets w ∧ ai_logs w' = ai_logs w
  ∧ ai_logs_seq w' = ai_logs_seq w ∧ llm_requests w' = llm_requests w.

(** The digits 0 to 9 of ASCII. *)
Definition ascii_digit (c : N) : Prop := 48 ≤ c ∧ c ≤ 57.

(** A log row whose label and handler are one of the three pairs that the
    handlers of the repository write. *)
Definition handler_pair (r : LogRow) : Prop :=
  (log_classification r = Some (py "positive_feedback")
   ∧ log_agent_used r = Some (py "FeedbackHandler"))
  ∨ (log_classification r = Some (py "negative_feedback")
     ∧ log_agent_used r = Some (py "FeedbackHandler"))
  ∨ (log_classification r = Some (py "query")
     ∧ log_agent_used r = Some (py "QueryHandler")).

(** The rows the routing measurement reads: label and handler not NULL. *)
Definition routed_rows (logs : list LogRow) : list LogRow :=
  filter (fun r => is_Some (log_classification r)
                   ∧ is_Some (log_agent_used r)) logs.

(** The system message of the positive path. *)
Definition thanks_system_msg (customer_name : str) : str :=
  py "Create a warm thank you response for positive banking feedback."
  ++ NL ++ py "        Customer name: " ++ customer_name
  ++ NL ++ py "        Keep under 80 words.".

(** The log grew by at most one row, written by a handler. *)
Definition appends_pair (w w' : World) : Prop :=
  ai_logs w' = ai_logs w
  ∨ ∃ entry, ai_logs w' = ai_logs w ++ [entry] ∧ handler_pair entry.

(** The path strings of the orchestrator. *)
Definition feedback_path : str :=
  py "Classifier " ++ MultiAgentOrchestrator.arrow ++ py " FeedbackHandler".
Definition query_path : str :=
  py "Classifier " ++ MultiAgentOrchestrator.arrow ++ py " QueryHandler".

(** Whether the routing measurement counts a row as routed correctly. *)
Definition routed_correctly (r : LogRow) : bool :=
  match log_classification r, log_agent_used r with
  | Some c, Some a =>
      match ModelEvaluator.expected_routing (SqlText c) with
      | Some expected_agent => str_contains expected_agent a
      | None => false
      end
  | _, _ => false
  end.

(** The three columns of a row that has a label and a handler. *)
Definition routing_tuple (r : LogRow) : list sqlval :=
  [sql_of_text (log_classification r); sql_of_text (log_agent_used r);
   sql_of_int (log_success r)].

(** The body of the loop of the routing measurement. *)
Definition routing_body
    (st : list (sqlval * list (sqlval * (Z * Z))) * Z) (row : list sqlval)
  : M (list (sqlval * list (sqlval * (Z * Z))) * Z) :=
  let '(routing_matrix, correct) := st in
  match row with
  | [classification; agent; success] =>
      let routing_matrix :=
        dict_upsert classification []
          (dict_upsert agent (0, 0)%Z
             (fun '(c, s) =>
                (c + 1, s + ModelEvaluator.count (sql_truthy success))%Z))
          routing_matrix in
      match ModelEvaluator.expected_routing classification with
      | Some expected_agent =>
          match agent with
          | SqlText a =>
              ret (routing_matrix,
                   (correct
                    + ModelEvaluator.count (str_contains expected_agent a))%Z)
          | _ =>
              raise (Exception "TypeError"
                       (py "argument of type 'int' is not iterable"))
          end
      | None => ret (routing_matrix, correct)
      end
  | _ =>
      raise (Exception "ValueError" (py "not enough values to unpack"))
  end.

(** Every category has been seen at least once, and was right at most as
    often as it was seen. *)
Definition stats_ok (stats : list (str * (Z * Z))) : Prop :=
  Forall (fun '(_, (t, c)) => (1 ≤ t ∧ 0 ≤ c ≤ t)%Z) stats.

(** How many of the detailed results are marked correct. *)
Definition marked_correct (detailed : list DetailedResult) : Z :=
  Z.of_nat (length (filter (fun d => d_correct d = true) detailed)).

Section LoopBodies.
Context (E : Env).

(** The body of the loop over the corpus. *)
Definition accuracy_body
    (st : Z * list DetailedResult * list (str * (Z * Z))) (tc : TestCase)
  : M (Z * list DetailedResult * list (str * (Z * Z))) :=
  let '(correct, detailed, category_stats) := st in
  classification_result <- ClassifierAgent.process E (tc_message tc) ;;
  let actual := c_classification classification_result in
  let is_correct := bool_decide (actual = tc_expected tc) in
  ret (correct + ModelEvaluator.count is_correct,
       detailed ++
         [ {| d_message := tc_message tc;
              d_expected := tc_expected tc;
              d_actual := actual;
              d_correct := is_correct;
              d_category := tc_category tc;
              d_confidence := c_confidence classification_result |} ],
       dict_upsert (tc_category tc) (0, 0)
         (fun '(t, c) => (t + 1, c + ModelEvaluator.count is_correct))
         category_stats)%Z.

(** The body of the loop over the categories. *)
Definition performance_body (acc : list (str * (Q * Z * Z)))
    (entry : str * (Z * Z)) : M (list (str * (Q * Z * Z))) :=
  let '(category, (t, c)) := entry in
  r <- true_div (inject_Z c) (inject_Z t) ;;
  ret (acc ++ [(category, (float_mul r 100, c, t))]).

End LoopBodies.

(** Concrete runs are evaluated once, and the outcome is then read off. *)
Ltac evaluate_run :=
  match goal with
  | |- ex (fun r => ex (fun w' => ?run = Returned r w' ∧ _)) =>
      let o := fresh "o" in
      let Ho := fresh "Ho" in
      remember run as o eqn:Ho; vm_compute in Ho; subst o;
      eexists _, _; split; [reflexivity|]
  end.

(** ** Properties of the string functions *)

Section StringFacts.
Context (U : UnicodeData).

Lemma strip_prefix_Some (p s r : str) :
  strip_prefix p s = Some r ↔ s = p ++ r.
Proof.
  revert s; induction p as [|a p IH]; intros s; simpl.
  - split; [intros [= ->]; reflexivity | intros ->; reflexivity].
  - destruct s as [|b s]; [split; intros; discriminate|].
    case_bool_decide as Hab.
    + subst b. rewrite IH. split; [intros ->; reflexivity | intros [= ->]; reflexivity].
    + split; [discriminate | intros [= -> _]; contradiction].
Qed.

Lemma strip_prefix_app (p r : str) : strip_prefix p (p ++ r) = Some r.
Proof. apply strip_prefix_Some; reflexivity. Qed.

Lemma take_digits_Some (n : nat) (s ds : str) :
  take_digits U n s = Some ds ↔
  length ds = n ∧ Forall (fun c => is_decimal U c = true) ds
  ∧ ∃ r, s = ds ++ r.
Proof.
  revert s ds; induction n as [|n IH]; intros s ds; simpl.
  - split.
    + intros [= <-]. split; [reflexivity|]. split; [constructor|]. exists s; reflexivity.
    + intros (Hl & _ & _). destruct ds; [reflexivity | discriminate].
  - destruct s as [|c s].
    + split; [discriminate|]. intros (Hl & _ & r & Hr).
      destruct ds; [discriminate Hl | discriminate Hr].
    + destruct (is_decimal U c) eqn:Hc.
      * destruct (take_digits U n s) as [ds'|] eqn:Ht.
        -- apply IH in Ht as (Hl & Hall & r & ->). split.
           ++ intros [= <-]. simpl. split; [congruence|].
              split; [constructor; assumption|]. exists r; reflexivity.
           ++ intros (Hl' & Hall' & r' & Hr').
              destruct ds as [|d ds]; [discriminate Hl'|].
              simpl in Hr'. injection Hr' as -> Hr'.
              assert (Hd : take_digits U n (ds' ++ r) = Some ds).
              { apply IH. split; [simpl in Hl'; congruence|].
                split; [inversion Hall'; assumption|]. exists r'; assumption. }
              assert (Hd' : take_digits U n (ds' ++ r) = Some ds').
              { apply IH. split; [assumption|]. split; [assumption|].
                exists r; reflexivity. }
              congruence.
        -- split; [discriminate|]. intros (Hl' & Hall' & r' & Hr').
           destruct ds as [|d ds]; [discriminate Hl'|].
           simpl in Hr'. injection Hr' as -> Hr'.
           assert (Hd : take_digits U n s = Some ds).
           { apply IH. split; [simpl in Hl'; congruence|].
             split; [inversion Hall'; assumption|]. exists r'; assumption. }
           congruence.
      * split; [discriminate|]. intros (Hl' & Hall' & r' & Hr').
        destruct ds as [|d ds]; [discriminate Hl'|].
        simpl in Hr'. injection Hr' as -> Hr'.
        inversion Hall'; congruence.
Qed.

Lemma match_alternatives_sound (alts : list str) (n : nat) (s g : str) :
  match_alternatives U alts n s = Some g →
  ∃ p ds r, g = p ++ ds ∧ p ∈ alts ∧ length ds = n
            ∧ Forall (fun c => is_decimal U c = true) ds ∧ s = g ++ r.
Proof.
  induction alts as [|p alts IH]; simpl; [discriminate|].
  intros H.
  assert (Hrec : match_alternatives U alts n s = Some g →
                 ∃ p0 ds r, g = p0 ++ ds ∧ p0 ∈ p :: alts ∧ length ds = n
                   ∧ Forall (fun c => is_decimal U c = true) ds ∧ s = g ++ r).
  { intros H'. destruct (IH H') as (p0 & ds & r & ? & ? & ? & ? & ?).
    exists p0, ds, r. repeat split; try assumption. by right. }
  destruct (strip_prefix p s) as [rest|] eqn:Hp; [|auto].
  destruct (take_digits U n rest) as [ds|] eqn:Hd; [|auto].
  injection H as <-.
  apply strip_prefix_Some in Hp as ->.
  apply take_digits_Some in Hd as (Hl & Hall & r & ->).
  exists p, ds, r. repeat split; try assumption; [by left|].
  by rewrite <- app_assoc.
Qed.

Lemma match_alternatives_complete (alts : list str) (n : nat) (p ds r : str) :
  p ∈ alts → length ds = n →
  Forall (fun c => is_decimal U c = true) ds →
  is_Some (match_alternatives U alts n (p ++ ds ++ r)).
Proof.
  intros Hin Hl Hall.
  induction alts as [|q alts IH]; [by apply elem_of_nil in Hin|].
  simpl.
  destruct (strip_prefix q (p ++ ds ++ r)) as [rest|] eqn:Hq.
  - destruct (take_digits U n rest) as [ds'|] eqn:Hd; [by eexists|].
    apply elem_of_cons in Hin as [->|Hin]; [|by apply IH].
    rewrite strip_prefix_app in Hq. injection Hq as <-.
    assert (take_digits U n (ds ++ r) = Some ds) as Hd'.
    { apply take_digits_Some. repeat split; try assumption. by exists r. }
    congruence.
  - apply elem_of_cons in Hin as [->|Hin]; [|by apply IH].
    rewrite strip_prefix_app in Hq. discriminate.
Qed.

End StringFacts.

Section SearchFacts.
Context (U : UnicodeData).

Lemma search_from_sound (pat : Pattern) (i : nat) (s : str) (m : Match) :
  search_from U pat i s = Some m →
  ticket_shaped U pat (group0 m) ∧
  ∃ pre post, s = pre ++ group0 m ++ post ∧ m_start m = (i + length pre)%nat.
Proof.
  revert i; induction s as [|c s IH]; intros i; simpl.
  - destruct (match_here U pat []) as [g|] eqn:Hg; [|discriminate].
    intros [= <-]. simpl.
    apply match_alternatives_sound in Hg as (p & ds & r & -> & Hp & Hl & Hall & Hs).
    split; [by exists p, ds|].
    exists [], r. split; [exact Hs | simpl; lia].
  - destruct (match_here U pat (c :: s)) as [g|] eqn:Hg.
    + intros [= <-]. simpl.
      apply match_alternatives_sound in Hg as (p & ds & r & -> & Hp & Hl & Hall & Hs).
      split; [by exists p, ds|].
      exists [], r. split; [exact Hs | simpl; lia].
    + intros H. apply IH in H as (Hshape & pre & post & -> & Hst).
      split; [assumption|].
      exists (c :: pre), post. split; [reflexivity | simpl; lia].
Qed.

Lemma search_from_complete (pat : Pattern) (i : nat) (s : str) :
  has_ticket U pat s → is_Some (search_from U pat i s).
Proof.
  intros (g & j & (p & ds & -> & Hp & Hl & Hall) & pre & post & -> & _).
  revert i; induction pre as [|c pre IH]; intros i.
  - assert (is_Some (match_here U pat ([] ++ (p ++ ds) ++ post))) as [g Hg].
    { simpl. rewrite <- app_assoc. by apply match_alternatives_complete. }
    destruct post as [|x post'], p as [|y p'], ds as [|z ds'];
      simpl in *; rewrite Hg; by eexists.
  - simpl. destruct (match_here U pat _); [by eexists|]. apply IH.
Qed.

Lemma re_search_sound (pat : Pattern) (s : str) (m : Match) :
  re_search U pat s = Some m →
  ticket_shaped U pat (group0 m) ∧ occurs_at (group0 m) s (m_start m).
Proof.
  intros H. apply search_from_sound in H as (Hshape & pre & post & -> & Hst).
  split; [assumption|]. exists pre, post. split; [reflexivity | lia].
Qed.

Lemma re_search_complete (pat : Pattern) (s : str) :
  has_ticket U pat s → is_Some (re_search U pat s).
Proof. apply search_from_complete. Qed.

Lemma re_search_None (pat : Pattern) (s : str) :
  re_search U pat s = None → ¬ has_ticket U pat s.
Proof.
  intros H Hex. apply (re_search_complete pat) in Hex as [m Hm]. congruence.
Qed.

(** [str.upper()] distributes over concatenation. *)
Lemma upper_app (a b : str) : upper U (a ++ b) = upper U a ++ upper U b.
Proof. unfold upper. apply flat_map_app. Qed.

Lemma upper_cp_decimal (c : N) :
  is_decimal U c = true → upper_cp U c = [c].
Proof.
  unfold is_decimal, upper_cp. destruct (is_ascii c).
  - intros H. apply andb_true_iff in H as [H1 H2].
    apply N.leb_le in H1, H2.
    destruct (97 <=? c) eqn:H3; [apply N.leb_le in H3; lia | reflexivity].
  - apply uc_decimal_uncased.
Qed.

Lemma upper_decimals (ds : str) :
  Forall (fun c => is_decimal U c = true) ds → upper U ds = ds.
Proof.
  induction 1 as [|c ds Hc _ IH]; [reflexivity|].
  change (upper U (c :: ds)) with (upper_cp U c ++ upper U ds).
  by rewrite upper_cp_decimal, IH.
Qed.

(** Both agents use alternatives that are already in upper case. *)
Lemma upper_ticket_shaped (g : str) :
  ticket_shaped U ClassifierAgent.ticket_pattern g → upper U g = g.
Proof.
  intros (p & ds & -> & Hp & _ & Hall).
  rewrite upper_app, (upper_decimals ds Hall). f_equal.
  simpl in Hp. repeat (apply elem_of_cons in Hp as [->|Hp]; [reflexivity|]).
  by apply elem_of_nil in Hp.
Qed.

(** A reference typed in any case shows in the upper-cased text. *)
Lemma has_ticket_any_case (pat : Pattern) (pre ref post : str) :
  ticket_shaped U pat (upper U ref) →
  has_ticket U pat (upper U (pre ++ ref ++ post)).
Proof.
  intros Hshape. exists (upper U ref), (length (upper U pre)).
  split; [assumption|].
  exists (upper U pre), (upper U post). by rewrite !upper_app.
Qed.

(** In particular a reference that is already in upper case. *)
Lemma has_ticket_upper (text : str) :
  has_ticket U ClassifierAgent.ticket_pattern text →
  has_ticket U ClassifierAgent.ticket_pattern (upper U text).
Proof.
  intros (g & i & Hshape & pre & post & -> & _).
  apply has_ticket_any_case. by rewrite (upper_ticket_shaped g Hshape).
Qed.

End SearchFacts.


(** ** How the effects run *)

Section EffectFacts.
Context (E : Env).

Lemma call_llm_failed (prompt : str) (system_msg : option str) (w : World)
    (e : exn) :
  completions_create E (length (llm_requests w)) (llm_request prompt system_msg)
    = Failed e →
  BaseAgent.call_llm E prompt system_msg w =
  Returned (py "Error: " ++ exn_str e, llm_elapsed E w)
    (after_llm prompt system_msg w).
Proof.
  intros H. unfold BaseAgent.call_llm, bind, try_except, time.
  unfold chat_completions_create. simpl.
  fold (llm_request prompt system_msg). rewrite H. reflexivity.
Qed.

(** [call_llm] never raises: whatever the service does, a text and a time
    come back. *)
Lemma call_llm_returns (prompt : str) (system_msg : option str) (w : World) :
  ∃ text ms w',
    BaseAgent.call_llm E prompt system_msg w = Returned (text, ms) w'
    ∧ tickets w' = tickets w ∧ ai_logs w' = ai_logs w
    ∧ llm_requests w' = llm_requests w ++ [llm_request prompt system_msg].
Proof.
  unfold BaseAgent.call_llm, bind, try_except, time.
  unfold chat_completions_create. simpl.
  fold (llm_request prompt system_msg).
  destruct (completions_create E _ _) as [[text|]|e]; simpl;
    eexists _, _, _; (split; [reflexivity|]); repeat split.
Qed.

Lemma log_interaction_run (user_msg classification agent response : str)
    (ticket_num : option str) (success : bool) (w : World) :
  BMCDatabase.log_interaction E user_msg classification agent response
    ticket_num success w =
  Returned tt
    match sqlite_fault E (sqlite_calls w) with
    | None =>
        with_log
          (BMCDatabase.new_log_row (ai_logs_seq w + 1)
             (CURRENT_TIMESTAMP E (sqlite_calls w)) user_msg classification
             agent response ticket_num success)
          (tick_sqlite w)
    | Some _ => tick_sqlite w
    end.
Proof.
  unfold BMCDatabase.log_interaction, bind, try_except, sqlite_connect.
  destruct (sqlite_fault E (sqlite_calls w)); reflexivity.
Qed.

Lemma get_ticket_run (ticket_number : str) (w : World) :
  BMCDatabase.get_ticket E ticket_number w =
  Returned
    match sqlite_fault E (sqlite_calls w) with
    | None => BMCDatabase.row_dict ticket_number <$> tickets w !! ticket_number
    | Some _ => None
    end
    (tick_sqlite w).
Proof.
  unfold BMCDatabase.get_ticket, bind, try_except, sqlite_connect.
  destruct (sqlite_fault E (sqlite_calls w)); [reflexivity|].
  simpl. destruct (tickets w !! ticket_number); reflexivity.
Qed.

Lemma unknown_not_label : py "unknown" ∉ ClassifierAgent.labels.
Proof.
  intros H. apply (bool_decide_pack _) in H. vm_compute in H. exact H.
Qed.

End EffectFacts.

(** ** The classifier *)

Section Classifier.
Context (E : Env).

(** The rule fires whenever the search finds a match. *)
Lemma classifier_rule_run (w : World) (text : str) (m : Match) :
  re_search (unicode E) ClassifierAgent.ticket_pattern
    (upper (unicode E) text) = Some m →
  ClassifierAgent.process E text w =
  Returned {| c_success := true;
              c_classification := py "query";
              c_confidence := 0.95%Q;
              c_method := py "rule_based";
              c_processing_time_ms := 5 |} w.
Proof.
  intros Hm. unfold ClassifierAgent.process. rewrite Hm. reflexivity.
Qed.


(** C8.  Whatever the text and whatever the completion service does,
    [process] returns a result whose label is one of the four labels, and
    whose success flag is set exactly when the label is not [unknown]. *)
Theorem classifier_label_and_success (w : World) (text : str) :
  ∃ r w',
    ClassifierAgent.process E text w = Returned r w'
    ∧ c_classification r ∈
        [py "positive_feedback"; py "negative_feedback"; py "query";
         py "unknown"]
    ∧ (c_success r = true ↔ c_classification r ≠ py "unknown").
Proof.
  unfold ClassifierAgent.process.
  destruct (re_search (unicode E) ClassifierAgent.ticket_pattern
              (upper (unicode E) text)).
  - eexists _, _. split; [reflexivity|]. simpl. split.
    + do 2 right. left.
    + split; [intros _; discriminate | reflexivity].
  - destruct (call_llm_returns E
                (py "Message: '" ++ text ++ py "'")
                (Some ClassifierAgent.system_msg) w)
      as (answer & ms & w' & Hrun & _).
    unfold bind. rewrite Hrun. simpl.
    eexists _, _. split; [reflexivity|]. simpl.
    case_bool_decide as Hlab.
    + split.
      * unfold ClassifierAgent.labels in Hlab.
        rewrite !elem_of_cons in Hlab. rewrite !elem_of_cons. tauto.
      * rewrite bool_decide_eq_false_2.
        -- split; [intros _ | reflexivity].
           intros Heq. rewrite Heq in Hlab. by apply unknown_not_label in Hlab.
        -- intros Heq. rewrite Heq in Hlab. by apply unknown_not_label in Hlab.
    + split; [do 3 right; left|].
      rewrite bool_decide_eq_true_2 by reflexivity. simpl.
      split; [discriminate | intros Hne; by destruct Hne].
Qed.

(** A word that starts with a non-space keeps its first code point under
    [strip]. *)
Lemma lstrip_last_kept (U : UnicodeData) (l : str) (c : N) :
  is_space U c = false → ∃ t, lstrip U (l ++ [c]) = t ++ [c].
Proof.
  intros Hc. induction l as [|x l IH]; simpl.
  - rewrite Hc. by exists [].
  - destruct (is_space U x); [exact IH|]. by exists (x :: l).
Qed.

Lemma strip_head_kept (U : UnicodeData) (c : N) (s : str) :
  is_space U c = false → ∃ t, strip U (c :: s) = c :: t.
Proof.
  intros Hc. unfold strip, rstrip. simpl lstrip. rewrite Hc.
  simpl rev. destruct (lstrip_last_kept U (rev s) c Hc) as [t ->].
  rewrite rev_app_distr. simpl. by eexists.
Qed.

(** The text [call_llm] hands back after a failure is never a label. *)
Lemma error_text_unknown (U : UnicodeData) (msg : str) :
  strip U (lower U (py "Error: " ++ msg)) ∉ ClassifierAgent.labels.
Proof.
  change (lower U (py "Error: " ++ msg))
    with (101 :: lower_from U [69] (tl (py "Error: ") ++ msg)).
  destruct (strip_head_kept U 101 (lower_from U [69] (tl (py "Error: ") ++ msg)))
    as [t ->]; [reflexivity|].
  unfold ClassifierAgent.labels. rewrite !elem_of_cons, elem_of_nil.
  intros [H|[H|[H|[]]]]; discriminate H.
Qed.

(** C2 (amended).  When the text has no ticket reference and the completion
    call raises, [process] still returns: the label is [unknown], success is
    false, confidence and method are those of the model path, and the time
    is the one measured from the start of [call_llm] to the failure.  The
    failure description is what [call_llm] hands back as its text; it is
    not part of the classifier's result. *)
Theorem classifier_completion_failure (w : World) (text : str) (e : exn) :
  re_search (unicode E) ClassifierAgent.ticket_pattern
    (upper (unicode E) text) = None →
  completions_create E (length (llm_requests w))
    (llm_request (py "Message: '" ++ text ++ py "'")
       (Some ClassifierAgent.system_msg)) = Failed e →
  BaseAgent.call_llm E (py "Message: '" ++ text ++ py "'")
    (Some ClassifierAgent.system_msg) w =
  Returned (py "Error: " ++ exn_str e, llm_elapsed E w)
    (after_llm (py "Message: '" ++ text ++ py "'")
       (Some ClassifierAgent.system_msg) w)
  ∧ ClassifierAgent.process E text w =
    Returned {| c_success := false;
                c_classification := py "unknown";
                c_confidence := 0.8%Q;
                c_method := py "llm_based";
                c_processing_time_ms := llm_elapsed E w |}
      (after_llm (py "Message: '" ++ text ++ py "'")
         (Some ClassifierAgent.system_msg) w).
Proof.
  intros Hnone Hfail.
  pose proof (call_llm_failed E _ _ w e Hfail) as Hrun.
  split; [exact Hrun|].
  unfold ClassifierAgent.process. rewrite Hnone.
  unfold bind. rewrite Hrun. simpl.
  rewrite (bool_decide_eq_false_2 _ (error_text_unknown (unicode E) (exn_str e))).
  reflexivity.
Qed.

End Classifier.



(** C2, witness: an unreachable service and a greeting. *)
Lemma classifier_completion_failure_witness :
  ClassifierAgent.process offline_env (py "hello") empty_world =
  Returned {| c_success := false;
              c_classification := py "unknown";
              c_confidence := 0.8%Q;
              c_method := py "llm_based";
              c_processing_time_ms := 250 |}
    (after_llm (py "Message: 'hello'") (Some ClassifierAgent.system_msg)
       empty_world).
Proof.
  exact (proj2 (classifier_completion_failure offline_env empty_world
                  (py "hello")
                  (Exception "APIConnectionError" (py "Connection error."))
                  eq_refl eq_refl)).
Defined.

(** C2, as stated, fails: the description of the failure is nowhere in the
    result, whose classification text is just [unknown]. *)
Lemma failure_description_not_in_result :
  ∃ r w',
    ClassifierAgent.process offline_env (py "hello") empty_world
      = Returned r w'
    ∧ c_classification r = py "unknown"
    ∧ str_contains (py "Connection error.") (c_classification r) = false
    ∧ str_contains (py "Connection error.") (c_method r) = false.
Proof.
  evaluate_run. repeat split.
Qed.

(** ** The query handler *)

Section QueryHandler.
Context (E : Env).

Lemma type_name_display (ticket_type : option str) :
  QueryHandlerAgent.type_name_of ticket_type = display_name ticket_type.
Proof.
  unfold QueryHandlerAgent.type_name_of, display_name.
  destruct ticket_type as [t|]; [|reflexivity].
  unfold QueryHandlerAgent.type_names.
  rewrite !lookup_insert, lookup_empty.
  repeat case_bool_decide; simplify_eq; repeat case_decide;
    simplify_eq; reflexivity.
Qed.

Lemma row_dict_lookup (number : str) (row : TicketRow) :
  BMCDatabase.row_dict number row !! "type"%string = Some (ticket_type row)
  ∧ BMCDatabase.row_dict number row !! "number"%string = Some (Some number)
  ∧ BMCDatabase.row_dict number row !! "status"%string = Some (status row)
  ∧ BMCDatabase.row_dict number row !! "title"%string = Some (title row)
  ∧ BMCDatabase.row_dict number row !! "resolution"%string
    = Some (resolution row).
Proof. repeat split; reflexivity. Qed.

(** What [_generate_status_response] says about a dict that [get_ticket]
    built: the table of the specification, except that a resolved ticket
    whose resolution is NULL gets the text [None] appended. *)
Lemma generate_status_response_run (number : str) (row : TicketRow)
    (w : World) :
  QueryHandlerAgent._generate_status_response
    (BMCDatabase.row_dict number row) w =
  Returned
    (if bool_decide (status row = Some (py "Resolved"))
        && bool_decide (resolution row = None)
     then reply_titled number row ++ py " has been resolved. " ++ py "None"
     else status_reply number row) w.
Proof.
  unfold QueryHandlerAgent._generate_status_response, subscript, bind.
  destruct (row_dict_lookup number row) as (-> & -> & -> & -> & ->).
  unfold ret. cbv zeta. rewrite type_name_display.
  unfold status_reply, reply_titled, reply_head. cbn [fmt default].
  repeat case_bool_decide; simplify_eq; cbn [andb];
    try reflexivity; try congruence.
  - match goal with H : resolution row = None |- _ => by rewrite H end.
  - destruct (resolution row); [reflexivity | congruence].
Qed.

(** Every run of [process] on a text with a reference: it returns, the
    number it reports is the matched text, the store is read under that
    number, and whatever is logged carries it. *)
Lemma query_process_found (w : World) (text : str) (m : Match) :
  re_search (unicode E) QueryHandlerAgent.ticket_pattern
    (upper (unicode E) text) = Some m →
  ∃ r w',
    QueryHandlerAgent.process E text w = Returned r w'
    ∧ h_ticket_number r = Some (Some (group0 m))
    ∧ tickets w' = tickets w
    ∧ llm_requests w' = llm_requests w
    ∧ (h_ticket_details r = None
       ∨ ∃ row, tickets w !! group0 m = Some row
                ∧ h_ticket_details r
                  = Some (BMCDatabase.row_dict (group0 m) row))
    ∧ (ai_logs w' = ai_logs w
       ∨ ∃ entry, ai_logs w' = ai_logs w ++ [entry]
                  ∧ log_ticket_number entry = Some (group0 m)).
Proof.
  intros Hm. unfold QueryHandlerAgent.process. rewrite Hm.
  unfold bind at 1. rewrite get_ticket_run.
  destruct (sqlite_fault E (sqlite_calls w)) as [e|] eqn:Hfault;
    [|destruct (tickets w !! group0 m) as [row|] eqn:Hrow]; cbn [fmap option_fmap option_map].
  - unfold bind. rewrite log_interaction_run.
    eexists _, _. split; [reflexivity|]. split; [reflexivity|].
    destruct (sqlite_fault E (sqlite_calls (tick_sqlite w)));
      (split; [reflexivity|]); (split; [reflexivity|]);
      (split; [by left|]); [by left | right; by eexists].
  - unfold bind. rewrite generate_status_response_run, log_interaction_run.
    eexists _, _. split; [reflexivity|]. split; [reflexivity|].
    destruct (sqlite_fault E (sqlite_calls (tick_sqlite w)));
      (split; [reflexivity|]); (split; [reflexivity|]);
      (split; [right; by exists row|]); [by left | right; by eexists].
  - unfold bind. rewrite log_interaction_run.
    eexists _, _. split; [reflexivity|]. split; [reflexivity|].
    destruct (sqlite_fault E (sqlite_calls (tick_sqlite w)));
      (split; [reflexivity|]); (split; [reflexivity|]);
      (split; [by left|]); [by left | right; by eexists].
Qed.

(** The run of [process] on a text with a reference, in full: the store is
    read once, under the matched text, and the log is written once, with the
    matched text, the reply and the outcome. *)
Lemma query_process_lookup (w : World) (text : str) (m : Match) :
  re_search (unicode E) QueryHandlerAgent.ticket_pattern
    (upper (unicode E) text) = Some m →
  ∃ r w',
    QueryHandlerAgent.process E text w = Returned r w'
    ∧ h_ticket_number r = Some (Some (group0 m))
    ∧ h_ticket_details r =
      match sqlite_fault E (sqlite_calls w) with
      | None => BMCDatabase.row_dict (group0 m) <$> tickets w !! group0 m
      | Some _ => None
      end
    ∧ h_success r = bool_decide (is_Some (h_ticket_details r))
    ∧ tickets w' = tickets w
    ∧ sqlite_calls w' = S (S (sqlite_calls w))
    ∧ ai_logs w' =
      match sqlite_fault E (S (sqlite_calls w)) with
      | None =>
          ai_logs w ++
          [BMCDatabase.new_log_row (ai_logs_seq w + 1)
             (CURRENT_TIMESTAMP E (S (sqlite_calls w))) text (py "query")
             (py "QueryHandler") (h_response r) (Some (group0 m))
             (h_success r)]
      | Some _ => ai_logs w
      end.
Proof.
  intros Hm. unfold QueryHandlerAgent.process. rewrite Hm.
  unfold bind at 1. rewrite get_ticket_run.
  destruct (sqlite_fault E (sqlite_calls w)) as [e|] eqn:Hfault;
    [|destruct (tickets w !! group0 m) as [row|] eqn:Hrow];
    cbn [fmap option_fmap option_map].
  - unfold bind. rewrite log_interaction_run.
    eexists _, _. split; [reflexivity|]. cbn [h_ticket_number h_ticket_details
      h_success h_response sqlite_calls tick_sqlite].
    destruct (sqlite_fault E (S (sqlite_calls w))); repeat split.
  - unfold bind. rewrite generate_status_response_run, log_interaction_run.
    eexists _, _. split; [reflexivity|]. cbn [h_ticket_number h_ticket_details
      h_success h_response sqlite_calls tick_sqlite].
    destruct (sqlite_fault E (S (sqlite_calls w))); repeat split.
  - unfold bind. rewrite log_interaction_run.
    eexists _, _. split; [reflexivity|]. cbn [h_ticket_number h_ticket_details
      h_success h_response sqlite_calls tick_sqlite].
    destruct (sqlite_fault E (S (sqlite_calls w))); repeat split.
Qed.

(** C5 (amended).  For a ticket the store returns, the reply follows the
    status table with the type expanded to its display name; for a resolved
    ticket that has a resolution text, the text is appended.  In Scenario C
    (type INC, title, status and resolution as given) the reply is the
    sentence of the specification without a final full stop, and success is
    true. *)
Theorem query_status_reply (w : World) :
  (∀ (text : str) (m : Match) (row : TicketRow),
     re_search (unicode E) QueryHandlerAgent.ticket_pattern
       (upper (unicode E) text) = Some m →
     sqlite_fault E (sqlite_calls w) = None →
     tickets w !! group0 m = Some row →
     (status row = Some (py "Resolved") → is_Some (resolution row)) →
     ∃ w',
       QueryHandlerAgent.process E text w =
       Returned {| h_success := true;
                   h_response := status_reply (group0 m) row;
                   h_action := None;
                   h_ticket_number := Some (Some (group0 m));
                   h_ticket_details :=
                     Some (BMCDatabase.row_dict (group0 m) row);
                   h_processing_time_ms := Some 75%Z |} w')
  ∧ (∀ row : TicketRow,
       sqlite_fault E (sqlite_calls w) = None →
       tickets w !! py "INC1234567890" = Some row →
       ticket_type row = Some (py "INC") →
       title row = Some (py "Credit Card Blocked") →
       status row = Some (py "Resolved") →
       resolution row = Some (py "Card unblocked after verification") →
       ∃ r w',
         QueryHandlerAgent.process E
           (py "What's the status of INC1234567890?") w = Returned r w'
         ∧ h_success r = true
         ∧ h_response r =
           py "Your Incident INC1234567890 'Credit Card Blocked' has been resolved. Card unblocked after verification").
Proof.
  assert (Hgen : ∀ (text : str) (m : Match) (row : TicketRow),
     re_search (unicode E) QueryHandlerAgent.ticket_pattern
       (upper (unicode E) text) = Some m →
     sqlite_fault E (sqlite_calls w) = None →
     tickets w !! group0 m = Some row →
     (status row = Some (py "Resolved") → is_Some (resolution row)) →
     ∃ w',
       QueryHandlerAgent.process E text w =
       Returned {| h_success := true;
                   h_response := status_reply (group0 m) row;
                   h_action := None;
                   h_ticket_number := Some (Some (group0 m));
                   h_ticket_details :=
                     Some (BMCDatabase.row_dict (group0 m) row);
                   h_processing_time_ms := Some 75%Z |} w').
  { intros text m row Hm Hfault Hrow Hres.
    unfold QueryHandlerAgent.process. rewrite Hm.
    unfold bind. rewrite get_ticket_run, Hfault, Hrow.
    cbn [fmap option_fmap option_map].
    rewrite generate_status_response_run, log_interaction_run.
    assert (bool_decide (status row = Some (py "Resolved"))
            && bool_decide (resolution row = None) = false) as ->.
    { apply andb_false_iff.
      destruct (decide (status row = Some (py "Resolved"))) as [Hs|Hs].
      - right. apply bool_decide_eq_false_2. intros Hn.
        destruct (Hres Hs) as [x Hx]. congruence.
      - left. by apply bool_decide_eq_false_2. }
    by eexists. }
  split; [exact Hgen|].
  intros row Hfault Hrow Hty Hti Hst Hre.
  destruct (Hgen (py "What's the status of INC1234567890?")
              {| m_start := 21; group0 := py "INC1234567890" |} row)
    as [w' Hrun]; try assumption.
  - reflexivity.
  - intros _. rewrite Hre. by eexists.
  - eexists _, w'. split; [exact Hrun|]. split; [reflexivity|].
    cbn [h_response group0].
    unfold status_reply, reply_titled, reply_head, display_name.
    rewrite Hty, Hti, Hst, Hre. reflexivity.
Qed.

End QueryHandler.

(** C5, witness: Scenario C. *)
Lemma query_status_reply_witness :
  ∃ w',
    QueryHandlerAgent.process (calm_env (py "query"))
      (py "What's the status of INC1234567890?") scenario_C_world =
    Returned {| h_success := true;
                h_response := status_reply (py "INC1234567890") scenario_C_row;
                h_action := None;
                h_ticket_number := Some (Some (py "INC1234567890"));
                h_ticket_details :=
                  Some (BMCDatabase.row_dict (py "INC1234567890")
                          scenario_C_row);
                h_processing_time_ms := Some 75%Z |} w'.
Proof.
  apply (proj1 (query_status_reply (calm_env (py "query")) scenario_C_world)
           (py "What's the status of INC1234567890?")
           {| m_start := 21; group0 := py "INC1234567890" |} scenario_C_row).
  - reflexivity.
  - reflexivity.
  - reflexivity.
  - intros _. by eexists.
Defined.

(** C5, as stated, fails on Scenario C: the reply ends with the resolution
    text, and no full stop follows it. *)
Lemma scenario_C_reply_without_full_stop :
  ∃ r w',
    QueryHandlerAgent.process (calm_env (py "query"))
      (py "What's the status of INC1234567890?") scenario_C_world
      = Returned r w'
    ∧ h_success r = true
    ∧ h_response r =
      py "Your Incident INC1234567890 'Credit Card Blocked' has been resolved. Card unblocked after verification"
    ∧ h_response r ≠
      py "Your Incident INC1234567890 'Credit Card Blocked' has been resolved. Card unblocked after verification.".
Proof.
  evaluate_run.
  split; [reflexivity|]. split; [reflexivity|].
  intros H. apply (f_equal length) in H. vm_compute in H. discriminate H.
Qed.

(** The slip behind the default phrase: [get_ticket] always stores the key
    [resolution], so for a resolved ticket whose resolution is NULL the
    reply ends in the text [None]. *)
Lemma resolved_without_resolution_says_None :
  ∃ r w',
    QueryHandlerAgent.process (calm_env (py "query"))
      (py "What's the status of INC1234567890?")
      (with_tickets
         {[ py "INC1234567890" :=
              {| ticket_type := Some (py "INC");
                 title := Some (py "Credit Card Blocked");
                 description := Some (py "Card blocked");
                 status := Some (py "Resolved");
                 priority := Some (py "High");
                 customer_name := Some (py "John Smith");
                 created_date := Some (py "2024-05-01 09:00:00");
                 resolution := None |} ]} empty_world)
      = Returned r w'
    ∧ h_response r =
      py "Your Incident INC1234567890 'Credit Card Blocked' has been resolved. None".
Proof.
  evaluate_run. reflexivity.
Qed.

(** ** Classifier and query handler read the same reference *)

Section Agreement.
Context (E : Env).

(** C6.  On a text that contains a ticket reference, the classifier's
    pattern and the query handler's pattern find the same match; the
    classifier answers by rule and the query handler reports the matched
    text; and when the text holds exactly one reference, that reference is
    what both found. *)
Theorem extraction_agrees (w : World) (text : str) :
  has_ticket (unicode E) ClassifierAgent.ticket_pattern
    (upper (unicode E) text) →
  ∃ m,
    re_search (unicode E) ClassifierAgent.ticket_pattern
      (upper (unicode E) text) = Some m
    ∧ re_search (unicode E) QueryHandlerAgent.ticket_pattern
        (upper (unicode E) text) = Some m
    ∧ ticket_shaped (unicode E) ClassifierAgent.ticket_pattern (group0 m)
    ∧ occurs_at (group0 m) (upper (unicode E) text) (m_start m)
    ∧ ClassifierAgent.process E text w =
      Returned {| c_success := true;
                  c_classification := py "query";
                  c_confidence := 0.95%Q;
                  c_method := py "rule_based";
                  c_processing_time_ms := 5 |} w
    ∧ (∃ r w',
         QueryHandlerAgent.process E text w = Returned r w'
         ∧ h_ticket_number r = Some (Some (group0 m)))
    ∧ ∀ (g : str) (i : nat),
        ticket_shaped (unicode E) ClassifierAgent.ticket_pattern g →
        occurs_at g (upper (unicode E) text) i →
        (∀ g' i',
           ticket_shaped (unicode E) ClassifierAgent.ticket_pattern g' →
           occurs_at g' (upper (unicode E) text) i' → g' = g ∧ i' = i) →
        group0 m = g ∧ m_start m = i.
Proof.
  intros Hhas.
  destruct (re_search_complete (unicode E) _ _ Hhas) as [m Hm].
  destruct (re_search_sound (unicode E) _ _ _ Hm) as [Hshape Hocc].
  exists m. split; [exact Hm|]. split; [exact Hm|].
  split; [exact Hshape|]. split; [exact Hocc|]. split; [|split].
  - exact (classifier_rule_run E w text m Hm).
  - destruct (query_process_found E w text m Hm) as (r & w' & Hrun & Hnum & _).
    by exists r, w'.
  - intros g i _ _ Huniq. exact (Huniq _ _ Hshape Hocc).
Qed.

(** C10.  On a text with a ticket reference, [process] reports, looks up
    and logs the reference as it reads in the upper-cased text.  The number
    is left unchanged by [upper]; the store is read under that number, so
    the details returned are those of the ticket stored under it, and none
    when there is no such ticket or the lookup fails; success is reported
    exactly when details are returned; and the row written to the log, which
    is missing only when the write fails, carries that number with the text,
    the reply and the outcome.  So a reference typed in lower case is looked
    up in upper case, and a ticket whose stored number is not in upper case
    is never what the handler finds. *)
Theorem query_lookup_upper_case (w : World) (text : str) :
  has_ticket (unicode E) QueryHandlerAgent.ticket_pattern
    (upper (unicode E) text) →
  ∃ tn r w',
    QueryHandlerAgent.process E text w = Returned r w'
    ∧ ticket_shaped (unicode E) QueryHandlerAgent.ticket_pattern tn
    ∧ (∃ i, occurs_at tn (upper (unicode E) text) i)
    ∧ upper (unicode E) tn = tn
    ∧ h_ticket_number r = Some (Some tn)
    ∧ h_ticket_details r =
      match sqlite_fault E (sqlite_calls w) with
      | None => BMCDatabase.row_dict tn <$> tickets w !! tn
      | Some _ => None
      end
    ∧ h_success r = bool_decide (is_Some (h_ticket_details r))
    ∧ ai_logs w' =
      match sqlite_fault E (S (sqlite_calls w)) with
      | None =>
          ai_logs w ++
          [BMCDatabase.new_log_row (ai_logs_seq w + 1)
             (CURRENT_TIMESTAMP E (S (sqlite_calls w))) text (py "query")
             (py "QueryHandler") (h_response r) (Some tn) (h_success r)]
      | Some _ => ai_logs w
      end
    ∧ ∀ (k : str) (d : gmap string (option str)),
        upper (unicode E) k ≠ k →
        h_ticket_details r = Some d →
        d !! "number"%string ≠ Some (Some k).
Proof.
  intros Hhas.
  destruct (re_search_complete (unicode E) _ _ Hhas) as [m Hm].
  destruct (re_search_sound (unicode E) _ _ _ Hm) as [Hshape Hocc].
  destruct (query_process_lookup E w text m Hm)
    as (r & w' & Hrun & Hnum & Hdet & Hsucc & _ & _ & Hlog).
  pose proof (upper_ticket_shaped (unicode E) (group0 m) Hshape) as Hup.
  exists (group0 m), r, w'.
  split; [exact Hrun|]. split; [exact Hshape|].
  split; [by exists (m_start m)|]. split; [exact Hup|].
  split; [exact Hnum|]. split; [exact Hdet|]. split; [exact Hsucc|].
  split; [exact Hlog|].
  intros k d Hk Hd Hnumber. rewrite Hdet in Hd.
  destruct (sqlite_fault E (sqlite_calls w)); [discriminate Hd|].
  destruct (tickets w !! group0 m) as [row|]; [|discriminate Hd].
  injection Hd as <-.
  destruct (row_dict_lookup (group0 m) row) as (_ & Hn & _).
  rewrite Hn in Hnumber. congruence.
Qed.

End Agreement.

(** C6, witness: a request reference inside a question. *)
Lemma extraction_agrees_witness :
  ∃ m,
    re_search (unicode offline_env) ClassifierAgent.ticket_pattern
      (upper (unicode offline_env) (py "Can you check req9876543210?"))
      = Some m
    ∧ re_search (unicode offline_env) QueryHandlerAgent.ticket_pattern
        (upper (unicode offline_env) (py "Can you check req9876543210?"))
        = Some m
    ∧ ticket_shaped (unicode offline_env) ClassifierAgent.ticket_pattern
        (group0 m).
Proof.
  assert (H : has_ticket (unicode offline_env) ClassifierAgent.ticket_pattern
                (upper (unicode offline_env)
                   (py "Can you check req9876543210?"))).
  { exists (py "REQ9876543210"), 14%nat. split.
    - exists (py "REQ"), (py "9876543210").
      split; [reflexivity|]. split; [right; left|].
      split; [reflexivity|]. repeat (constructor; [reflexivity|]). constructor.
    - exists (py "CAN YOU CHECK "), (py "?"). split; reflexivity. }
  destruct (extraction_agrees offline_env scenario_C_world _ H)
    as (m & H1 & H2 & H3 & _).
  exists m. auto.
Defined.

(** C10, witness: the reference of Scenario C typed in lower case. *)
Lemma query_lookup_upper_case_witness :
  ∃ tn r w',
    QueryHandlerAgent.process (calm_env (py "query"))
      (py "status of inc1234567890 please") scenario_C_world = Returned r w'
    ∧ upper (unicode (calm_env (py "query"))) tn = tn
    ∧ h_ticket_number r = Some (Some tn)
    ∧ h_ticket_details r
      = BMCDatabase.row_dict tn <$> tickets scenario_C_world !! tn
    ∧ ∃ entry, ai_logs w' = ai_logs scenario_C_world ++ [entry]
               ∧ log_ticket_number entry = Some tn.
Proof.
  assert (H : has_ticket (unicode (calm_env (py "query")))
                QueryHandlerAgent.ticket_pattern
                (upper (unicode (calm_env (py "query")))
                   (py "status of inc1234567890 please"))).
  { exists (py "INC1234567890"), 10%nat. split.
    - exists (py "INC"), (py "1234567890").
      split; [reflexivity|]. split; [left|].
      split; [reflexivity|]. repeat (constructor; [reflexivity|]). constructor.
    - exists (py "STATUS OF "), (py " PLEASE"). split; reflexivity. }
  destruct (query_lookup_upper_case (calm_env (py "query")) scenario_C_world
              _ H) as (tn & r & w' & H1 & _ & _ & H2 & H3 & H4 & _ & H5 & _).
  exists tn, r, w'. split; [exact H1|]. split; [exact H2|].
  split; [exact H3|]. split; [exact H4|].
  eexists. split; [exact H5 | reflexivity].
Defined.

(** The lower-case reference finds the ticket stored in upper case, and a
    ticket stored under the lower-case number is not found. *)
Lemma lower_case_reference_runs :
  (∃ r w',
     QueryHandlerAgent.process (calm_env (py "query"))
       (py "status of inc1234567890 please") scenario_C_world = Returned r w'
     ∧ h_success r = true
     ∧ h_ticket_number r = Some (Some (py "INC1234567890")))
  ∧ (∃ r w',
       QueryHandlerAgent.process (calm_env (py "query"))
         (py "status of inc1234567890 please")
         (with_tickets {[ py "inc1234567890" := scenario_C_row ]} empty_world)
       = Returned r w'
       ∧ h_success r = false
       ∧ h_response r
         = py "Ticket INC1234567890 not found. Please verify the number.").
Proof.
  split; evaluate_run; split; reflexivity.
Qed.

(** ** The feedback handler *)

Section FeedbackHandler.
Context (E : Env).

Lemma generate_ticket_number_returned (fuel : nat) (ticket_type number : str)
    (w w1 : World) :
  BMCDatabase.generate_ticket_number E fuel ticket_type w
    = Returned number w1 →
  same_data w w1 ∧ tickets w !! number = None
  ∧ (sqlite_calls w < sqlite_calls w1)%nat
  ∧ ∃ z, (1000000000 ≤ z ≤ 9999999999)%Z
         ∧ number = ticket_type ++ str_of_int z.
Proof.
  revert w; induction fuel as [|fuel IH]; intros w; [discriminate|].
  cbn [BMCDatabase.generate_ticket_number].
  unfold bind at 1. unfold randint.
  set (z := (1000000000 + random_source E (random_calls w)
               `mod` (9999999999 - 1000000000 + 1))%Z).
  unfold bind at 1. unfold BMCDatabase.ticket_exists, bind, sqlite_connect.
  cbn [sqlite_calls tick_random].
  destruct (sqlite_fault E (sqlite_calls w)); [discriminate|].
  cbn [get_world ret tickets tick_sqlite tick_random].
  case_bool_decide as Hex.
  - intros H. apply IH in H as (Hsame & Hnone & Hlt & Hz).
    cbn in Hsame, Hnone, Hlt. repeat split; try apply Hsame; try assumption.
    lia.
  - intros [= <- <-]. split; [repeat split|]. split.
    + by apply eq_None_not_Some.
    + split; [cbn; lia|]. exists z. split; [|reflexivity].
      subst z. pose proof (Z.mod_pos_bound (random_source E (random_calls w))
                             (9999999999 - 1000000000 + 1)%Z). lia.
Qed.

Lemma create_ticket_Some (fuel : nat)
    (ticket_type title description customer_name priority number : str)
    (w w1 : World) :
  BMCDatabase.create_ticket E fuel ticket_type title description
    customer_name priority w = Returned (Some number) w1 →
  tickets w !! number = None
  ∧ ∃ now,
      tickets w1 =
        <[number := BMCDatabase.new_ticket_row now ticket_type title
                      description priority customer_name]> (tickets w)
      ∧ ai_logs w1 = ai_logs w ∧ ai_logs_seq w1 = ai_logs_seq w
      ∧ llm_requests w1 = llm_requests w.
Proof.
  unfold BMCDatabase.create_ticket. unfold bind at 1.
  destruct (BMCDatabase.generate_ticket_number E fuel ticket_type w)
    as [n w0|e w0|] eqn:Hgen; try discriminate.
  apply generate_ticket_number_returned in Hgen
    as ((Ht & Hl & Hs & Hr) & Hfree & _ & _).
  unfold try_except, bind, BMCDatabase.insert_ticket, bind, sqlite_connect.
  destruct (sqlite_fault E (sqlite_calls w0)); [discriminate|].
  unfold get_world, put_world, ret. simpl. rewrite Ht, Hfree.
  intros [= <- <-]. split; [assumption|].
  eexists. cbn. repeat split; assumption.
Qed.

Lemma create_ticket_None (fuel : nat)
    (ticket_type title description customer_name priority : str)
    (w w1 : World) :
  BMCDatabase.create_ticket E fuel ticket_type title description
    customer_name priority w = Returned None w1 →
  same_data w w1.
Proof.
  unfold BMCDatabase.create_ticket. unfold bind at 1.
  destruct (BMCDatabase.generate_ticket_number E fuel ticket_type w)
    as [n w0|e w0|] eqn:Hgen; try discriminate.
  apply generate_ticket_number_returned in Hgen
    as ((Ht & Hl & Hs & Hr) & Hfree & _ & _).
  unfold try_except, bind, BMCDatabase.insert_ticket, bind, sqlite_connect.
  destruct (sqlite_fault E (sqlite_calls w0)).
  - intros [= <-]. repeat split; assumption.
  - unfold get_world, put_world, ret. simpl. rewrite Ht, Hfree.
    discriminate.
Qed.

(** The reply [_handle_negative] composes is the apology. *)
Lemma handle_negative_reply (customer_name : str) (ticket_number : option str) :
  py "We sincerely apologize for the inconvenience, " ++ customer_name
  ++ py ". " ++ py "A new incident " ++ fmt ticket_number
  ++ py " has been created and our team "
  ++ py "will address this issue promptly."
  = apology customer_name (fmt ticket_number).
Proof.
  unfold apology. repeat f_equal.
Qed.

(** C7 (amended).  When ticket creation succeeds, the negative-feedback
    path has added exactly one ticket -- type INC, title Customer Complaint,
    the text as description, the customer, priority High -- under a number
    that was free; the reply is the apology with the customer's name and
    that number; no request goes to the completion service; the result has
    action [incident_created] and success true; and a log entry naming the
    new ticket is appended unless the log write itself fails, in which case
    the log stays as it was and the result is the same. *)
Theorem negative_feedback_creates_incident (fuel : nat) (w w1 : World)
    (text customer number : str) :
  BMCDatabase.create_ticket E fuel (py "INC") (py "Customer Complaint")
    text customer (py "High") w = Returned (Some number) w1 →
  ∃ now w2,
    tickets w !! number = None
    ∧ tickets w1 =
      <[number := BMCDatabase.new_ticket_row now (py "INC")
                    (py "Customer Complaint") text (py "High") customer]>
        (tickets w)
    ∧ FeedbackHandlerAgent.process E fuel text (py "negative_feedback")
        customer w =
      Returned {| h_success := true;
                  h_response := apology customer number;
                  h_action := Some (py "incident_created");
                  h_ticket_number := Some (Some number);
                  h_ticket_details := None;
                  h_processing_time_ms := Some 100%Z |} w2
    ∧ tickets w2 = tickets w1
    ∧ llm_requests w2 = llm_requests w
    ∧ ai_logs w2 =
      match sqlite_fault E (sqlite_calls w1) with
      | None =>
          ai_logs w ++
          [BMCDatabase.new_log_row (ai_logs_seq w + 1)
             (CURRENT_TIMESTAMP E (sqlite_calls w1)) text
             (py "negative_feedback") (py "FeedbackHandler")
             (apology customer number) (Some number) true]
      | Some _ => ai_logs w
      end.
Proof.
  intros Hcreate.
  destruct (create_ticket_Some _ _ _ _ _ _ _ _ _ Hcreate)
    as (Hfree & now & Ht & Hl & Hs & Hr).
  exists now. eexists. split; [exact Hfree|]. split; [exact Ht|].
  unfold FeedbackHandlerAgent.process.
  change (bool_decide (py "negative_feedback" = py "positive_feedback"))
    with false.
  change (bool_decide (py "negative_feedback" = py "negative_feedback"))
    with true.
  cbv iota. unfold FeedbackHandlerAgent._handle_negative.
  unfold bind. rewrite Hcreate, log_interaction_run.
  rewrite (handle_negative_reply customer (Some number)). cbn [fmt].
  split; [reflexivity|].
  destruct (sqlite_fault E (sqlite_calls w1)); cbn;
    rewrite ?Hl, ?Hs; repeat split; assumption.
Qed.

(** C9.  For a label other than the two feedback labels, [process] returns
    the fixed invalid-input result with success false and leaves the world
    exactly as it was: no ticket, no log entry, no request to the
    completion service, no oracle consulted. *)
Theorem invalid_label_no_side_effects (fuel : nat) (w : World)
    (text classification customer : str) :
  classification ≠ py "positive_feedback" →
  classification ≠ py "negative_feedback" →
  FeedbackHandlerAgent.process E fuel text classification customer w =
  Returned {| h_success := false;
              h_response := py "Invalid classification";
              h_action := None;
              h_ticket_number := None;
              h_ticket_details := None;
              h_processing_time_ms := None |} w.
Proof.
  intros Hpos Hneg. unfold FeedbackHandlerAgent.process.
  by rewrite !bool_decide_eq_false_2.
Qed.

End FeedbackHandler.

(** C7, witness: Scenario B on an empty store. *)
Lemma negative_feedback_creates_incident_witness :
  ∃ number w1 now w2,
    BMCDatabase.create_ticket (calm_env (py "query")) 5 (py "INC")
      (py "Customer Complaint") (py "My credit card is still not working")
      (py "Jane Doe") (py "High") empty_world = Returned (Some number) w1
    ∧ tickets w1 =
      <[number := BMCDatabase.new_ticket_row now (py "INC")
                    (py "Customer Complaint")
                    (py "My credit card is still not working") (py "High")
                    (py "Jane Doe")]> (tickets empty_world)
    ∧ FeedbackHandlerAgent.process (calm_env (py "query")) 5
        (py "My credit card is still not working") (py "negative_feedback")
        (py "Jane Doe") empty_world =
      Returned {| h_success := true;
                  h_response := apology (py "Jane Doe") number;
                  h_action := Some (py "incident_created");
                  h_ticket_number := Some (Some number);
                  h_ticket_details := None;
                  h_processing_time_ms := Some 100%Z |} w2.
Proof.
  destruct (BMCDatabase.create_ticket (calm_env (py "query")) 5 (py "INC")
              (py "Customer Complaint")
              (py "My credit card is still not working")
              (py "Jane Doe") (py "High") empty_world)
    as [[number|] w1|e w1|] eqn:Hc.
  - destruct (negative_feedback_creates_incident (calm_env (py "query")) 5
                empty_world w1 _ _ number Hc)
      as (now & w2 & _ & Ht & Hrun & _).
    exists number, w1, now, w2. auto.
  - vm_compute in Hc. discriminate Hc.
  - vm_compute in Hc. discriminate Hc.
  - vm_compute in Hc. discriminate Hc.
Defined.

(** C7, as stated, fails when the log write raises: the ticket is created
    and reported, yet no log entry is appended. *)
Lemma incident_created_without_log_entry :
  ∃ r w',
    FeedbackHandlerAgent.process (faulty_env 2) 5
      (py "My credit card is still not working") (py "negative_feedback")
      (py "Jane Doe") empty_world = Returned r w'
    ∧ h_success r = true
    ∧ h_action r = Some (py "incident_created")
    ∧ h_ticket_number r = Some (Some (py "INC1234567890"))
    ∧ is_Some (tickets w' !! py "INC1234567890")
    ∧ ai_logs w' = ai_logs empty_world.
Proof.
  evaluate_run. repeat split. by eexists.
Qed.

(** C9, witness: the label [query] handed to the feedback handler. *)
Lemma invalid_label_no_side_effects_witness :
  FeedbackHandlerAgent.process offline_env 5 (py "Where is my card?")
    (py "query") (py "Jane Doe") scenario_C_world =
  Returned {| h_success := false;
              h_response := py "Invalid classification";
              h_action := None;
              h_ticket_number := None;
              h_ticket_details := None;
              h_processing_time_ms := None |} scenario_C_world.
Proof.
  apply invalid_label_no_side_effects; intros H; vm_compute in H;
    discriminate H.
Defined.

(** C4: when the insertion of the ticket fails, [create_ticket] returns
    [None], and the negative-feedback path still answers with success true
    and an apology that announces the incident [None]. *)
Lemma negative_feedback_announces_None :
  ∃ r w',
    FeedbackHandlerAgent.process (faulty_env 1) 5
      (py "My credit card is still not working") (py "negative_feedback")
      (py "Jane Doe") empty_world = Returned r w'
    ∧ h_success r = true
    ∧ h_action r = Some (py "incident_created")
    ∧ h_ticket_number r = Some None
    ∧ h_response r =
      py "We sincerely apologize for the inconvenience, Jane Doe. A new incident None has been created and our team will address this issue promptly."
    ∧ tickets w' = tickets empty_world
    ∧ log_ticket_number <$> ai_logs w' = [None].
Proof.
  evaluate_run. repeat split.
Qed.

(** The same in general: whenever [create_ticket] returns [None], the store
    has no new ticket and the reply names the incident [None]. *)
Lemma negative_feedback_after_failed_creation (E : Env) (fuel : nat)
    (w w1 : World) (text customer : str) :
  BMCDatabase.create_ticket E fuel (py "INC") (py "Customer Complaint")
    text customer (py "High") w = Returned None w1 →
  ∃ r w2,
    FeedbackHandlerAgent.process E fuel text (py "negative_feedback")
      customer w = Returned r w2
    ∧ h_success r = true
    ∧ h_ticket_number r = Some None
    ∧ h_response r = apology customer (py "None")
    ∧ tickets w2 = tickets w.
Proof.
  intros Hcreate.
  destruct (create_ticket_None E _ _ _ _ _ _ _ _ Hcreate) as (Ht & _).
  unfold FeedbackHandlerAgent.process.
  change (bool_decide (py "negative_feedback" = py "positive_feedback"))
    with false.
  change (bool_decide (py "negative_feedback" = py "negative_feedback"))
    with true.
  cbv iota. unfold FeedbackHandlerAgent._handle_negative.
  unfold bind. rewrite Hcreate, log_interaction_run.
  rewrite (handle_negative_reply customer None).
  eexists _, _. split; [reflexivity|]. repeat split.
  destruct (sqlite_fault E (sqlite_calls w1)); exact Ht.
Qed.

(** ** The evaluator *)

Section Evaluator.
Context (E : Env).

(** C3: on an empty log, with a working database, only the routing
    measurement returns its no-data indicator.  The classification
    measurement divides by the size of an empty corpus, and the query of the
    response-quality measurement names a column that [ai_logs] does not
    have, so it raises before its guard is reached. *)
Theorem evaluator_on_empty_data (w : World) :
  sqlite_fault E (sqlite_calls w) = None →
  ai_logs w = [] →
  ModelEvaluator.evaluate_classification_accuracy E [] w =
    Raised (Exception "ZeroDivisionError" (py "division by zero")) w
  ∧ ModelEvaluator.evaluate_response_quality E w =
    Raised (Exception "OperationalError"
              (py "no such column: response_generated")) (tick_sqlite w)
  ∧ ModelEvaluator.evaluate_agent_routing_success E w =
    Returned (RoutingNoData (py "No routing data available")) (tick_sqlite w).
Proof.
  intros Hfault Hlogs. split; [reflexivity|]. split.
  - unfold ModelEvaluator.evaluate_response_quality, bind, sqlite_connect.
    rewrite Hfault. reflexivity.
  - unfold ModelEvaluator.evaluate_agent_routing_success, bind, sqlite_connect.
    rewrite Hfault. cbn [get_world ai_logs tick_sqlite]. rewrite Hlogs.
    reflexivity.
Qed.

End Evaluator.

(** C3, witness: a fresh database. *)
Lemma evaluator_on_empty_data_witness :
  ModelEvaluator.evaluate_classification_accuracy (calm_env (py "query")) []
    empty_world =
    Raised (Exception "ZeroDivisionError" (py "division by zero")) empty_world
  ∧ ModelEvaluator.evaluate_response_quality (calm_env (py "query"))
      empty_world =
    Raised (Exception "OperationalError"
              (py "no such column: response_generated"))
      (tick_sqlite empty_world)
  ∧ ModelEvaluator.evaluate_agent_routing_success (calm_env (py "query"))
      empty_world =
    Returned (RoutingNoData (py "No routing data available"))
      (tick_sqlite empty_world).
Proof.
  apply evaluator_on_empty_data; reflexivity.
Defined.

(** ** Further properties of the code

    *** Decimal rendering of the drawn number *)

Lemma usize_nb_digits (d : Decimal.uint) :
  DecimalPos.Unsigned.usize d = N.of_nat (Decimal.nb_digits d).
Proof.
  induction d; cbn [DecimalPos.Unsigned.usize Decimal.nb_digits];
    rewrite ?IHd, ?Nat2N.inj_succ; reflexivity.
Qed.

Lemma usize_revapp (d d' : Decimal.uint) :
  DecimalPos.Unsigned.usize (Decimal.revapp d d') = DecimalPos.Unsigned.usize d + DecimalPos.Unsigned.usize d'.
Proof.
  revert d'; induction d; intros d'; cbn [Decimal.revapp DecimalPos.Unsigned.usize];
    rewrite ?IHd; cbn [DecimalPos.Unsigned.usize]; lia.
Qed.

Lemma of_lu_lt (d : Decimal.uint) :
  DecimalPos.Unsigned.of_lu d < 10 ^ DecimalPos.Unsigned.usize d.
Proof.
  induction d; cbn [DecimalPos.Unsigned.of_lu DecimalPos.Unsigned.usize];
    rewrite ?N.pow_succ_r'; [cbn; lia | lia ..].
Qed.



Lemma pos_value_bounds (p : positive) :
  10 ^ (N.of_nat (Decimal.nb_digits (Pos.to_uint p)) - 1) ≤ N.pos p
  ∧ N.pos p < 10 ^ N.of_nat (Decimal.nb_digits (Pos.to_uint p)).
Proof.
  pose proof (DecimalPos.Unsigned.of_to p) as Hof.
  pose proof (DecimalPos.Unsigned.to_of (Pos.to_uint p)) as Hnorm.
  rewrite Hof in Hnorm. cbn [N.to_uint] in Hnorm.
  rewrite <- usize_nb_digits.
  rewrite DecimalPos.Unsigned.of_uint_alt in Hof. unfold Decimal.rev in Hof.
  destruct (Pos.to_uint p) as [|d|d|d|d|d|d|d|d|d|d] eqn:Hd;
    [discriminate Hof
    | exfalso; unfold Decimal.unorm in Hnorm; cbn [Decimal.nzhead] in Hnorm;
      destruct (Decimal.nzhead d) eqn:Hz; try discriminate Hnorm;
      [injection Hnorm as Hn; subst d; discriminate Hof
      | by apply nzhead_nonzero in Hz]
    | ..];
    cbn [Decimal.revapp] in Hof; rewrite DecimalPos.Unsigned.of_lu_revapp in Hof;
    pose proof (of_lu_lt (Decimal.rev d)) as Hlt;
    unfold Decimal.rev in Hlt, Hof; rewrite usize_revapp in Hlt;
    cbn [DecimalPos.Unsigned.usize DecimalPos.Unsigned.of_lu] in *;
    rewrite N.add_0_r in Hlt;
    replace (N.succ (DecimalPos.Unsigned.usize d) - 1) with (DecimalPos.Unsigned.usize d) by lia;
    rewrite N.pow_succ_r'; lia.
Qed.

Lemma nb_digits_ten (p : positive) :
  10 ^ 9 ≤ N.pos p → N.pos p < 10 ^ 10 →
  Decimal.nb_digits (Pos.to_uint p) = 10%nat.
Proof.
  intros Hlo Hhi. destruct (pos_value_bounds p) as [Hl Hu].
  set (n := Decimal.nb_digits (Pos.to_uint p)) in *.
  destruct (Nat.lt_trichotomy n 10) as [Hn|[Hn|Hn]]; [|assumption|]; exfalso.
  - assert (10 ^ N.of_nat n ≤ 10 ^ 9) by (apply N.pow_le_mono_r; lia). lia.
  - assert (10 ^ 10 ≤ 10 ^ (N.of_nat n - 1)) by (apply N.pow_le_mono_r; lia).
    lia.
Qed.

Lemma digits_of_uint (d : Decimal.uint) :
  length (py (NilEmpty.string_of_uint d)) = Decimal.nb_digits d
  ∧ Forall ascii_digit (py (NilEmpty.string_of_uint d)).
Proof.
  induction d as [|d [IH1 IH2]|d [IH1 IH2]|d [IH1 IH2]|d [IH1 IH2]
                  |d [IH1 IH2]|d [IH1 IH2]|d [IH1 IH2]|d [IH1 IH2]
                  |d [IH1 IH2]|d [IH1 IH2]];
    [split; [reflexivity | exact (Forall_nil_2 _)] | ..];
    cbn [NilEmpty.string_of_uint Decimal.nb_digits];
    match goal with
    | |- context [py (String ?c ?s)] =>
        change (py (String c s)) with (N_of_ascii c :: py s)
    end;
    (split; [cbn [length]; by rewrite IH1
            | apply Forall_cons; split;
              [unfold ascii_digit; cbn; lia | exact IH2]]).
Qed.

(** A number of ten digits prints as ten ASCII digits. *)
Lemma str_of_int_ten_digits (z : Z) :
  (1000000000 ≤ z ≤ 9999999999)%Z →
  length (str_of_int z) = 10%nat ∧ Forall ascii_digit (str_of_int z).
Proof.
  intros Hz. destruct z as [|p|p]; try lia.
  unfold str_of_int. cbn [Z.to_int NilZero.string_of_int].
  unfold NilZero.string_of_uint.
  destruct (digits_of_uint (Pos.to_uint p)) as [Hlen Hall].
  assert (Hten : Decimal.nb_digits (Pos.to_uint p) = 10%nat).
  { apply nb_digits_ten; cbn; lia. }
  destruct (Pos.to_uint p) eqn:Hd; [discriminate Hten | ..];
    rewrite Hlen; auto.
Qed.

(** *** The ticket store *)

Section StoreFacts.
Context (E : Env).

Lemma ascii_digit_decimal (U : UnicodeData) (c : N) :
  ascii_digit c → is_decimal U c = true.
Proof.
  intros [Hlo Hhi]. unfold is_decimal, is_ascii.
  replace (c <? 128) with true by (symmetry; apply N.ltb_lt; lia).
  apply andb_true_iff. split; apply N.leb_le; assumption.
Qed.

(** X1.  When [generate_ticket_number] returns, the number is the ticket type
    followed by exactly ten ASCII digits, no ticket of the store has that
    number, and the tickets and the log are as they were. *)
Theorem generated_number_shape (fuel : nat) (ticket_type number : str)
    (w w1 : World) :
  BMCDatabase.generate_ticket_number E fuel ticket_type w
    = Returned number w1 →
  ∃ ds, number = ticket_type ++ ds
        ∧ length ds = 10%nat ∧ Forall ascii_digit ds
        ∧ tickets w !! number = None
        ∧ tickets w1 = tickets w ∧ ai_logs w1 = ai_logs w.
Proof.
  intros H. apply generate_ticket_number_returned in H
    as ((Ht & Hl & _) & Hfree & _ & z & Hz & ->).
  destruct (str_of_int_ten_digits z Hz) as [Hlen Hall].
  exists (str_of_int z). auto 10.
Qed.

(** X2.  A ticket that [create_ticket] reports as created can be read back:
    when the next database round trip does not fail, [get_ticket] on the
    returned number yields the dict with the given type, title, description,
    customer and priority, the status New of the column default, and no
    resolution. *)
Theorem create_then_get (fuel : nat)
    (kind heading body customer urgency number : str)
    (w w1 : World) :
  BMCDatabase.create_ticket E fuel kind heading body
    customer urgency w = Returned (Some number) w1 →
  sqlite_fault E (sqlite_calls w1) = None →
  ∃ now,
    BMCDatabase.get_ticket E number w1 =
    Returned
      (Some (BMCDatabase.row_dict number
               {| ticket_type := Some kind;
                  title := Some heading;
                  description := Some body;
                  status := Some (py "New");
                  priority := Some urgency;
                  customer_name := Some customer;
                  created_date := Some now;
                  resolution := None |}))
      (tick_sqlite w1).
Proof.
  intros Hcreate Hfault.
  destruct (create_ticket_Some E _ _ _ _ _ _ _ _ _ Hcreate)
    as (_ & now & Ht & _).
  exists now. rewrite get_ticket_run, Hfault, Ht, lookup_insert_eq.
  reflexivity.
Qed.

(** X3.  [create_ticket] never overwrites or removes a ticket: every ticket of
    the store is there unchanged afterwards.  On success the returned number
    was free before and is the only key that changed; when it returns None
    the tickets are the same as before. *)
Theorem create_keeps_other_tickets (fuel : nat)
    (ticket_type title description customer_name priority : str)
    (result : option str) (w w1 : World) :
  BMCDatabase.create_ticket E fuel ticket_type title description
    customer_name priority w = Returned result w1 →
  (∀ k row, tickets w !! k = Some row → tickets w1 !! k = Some row)
  ∧ match result with
    | Some number =>
        tickets w !! number = None ∧ is_Some (tickets w1 !! number)
        ∧ ∀ k, k ≠ number → tickets w1 !! k = tickets w !! k
    | None => tickets w1 = tickets w
    end.
Proof.
  intros Hcreate. destruct result as [number|].
  - destruct (create_ticket_Some E _ _ _ _ _ _ _ _ _ Hcreate)
      as (Hfree & now & Ht & _).
    rewrite Ht. split; [|split; [assumption|split]].
    + intros k row Hk. rewrite lookup_insert_ne; [assumption|].
      intros ->. congruence.
    + rewrite lookup_insert_eq. by eexists.
    + intros k Hk. by rewrite lookup_insert_ne.
  - destruct (create_ticket_None E _ _ _ _ _ _ _ _ Hcreate) as (Ht & _).
    rewrite Ht. auto.
Qed.

(** X4.  For a ticket of the store and no database fault, [update_status]
    returns True and [get_ticket] then shows the new status and the new
    resolution -- None when none was given, which erases an earlier one --
    while type, title, description, priority, customer and creation date are
    those of the ticket before; the other tickets and the log are
    untouched. *)
Theorem update_status_then_get (number status' : str)
    (resolution' : option str) (row : TicketRow) (w : World) :
  tickets w !! number = Some row →
  sqlite_fault E (sqlite_calls w) = None →
  sqlite_fault E (S (sqlite_calls w)) = None →
  ∃ w1 d,
    BMCDatabase.update_status E number status' resolution' w
      = Returned true w1
    ∧ BMCDatabase.get_ticket E number w1 = Returned (Some d) (tick_sqlite w1)
    ∧ d !! "status"%string = Some (Some status')
    ∧ d !! "resolution"%string = Some resolution'
    ∧ d !! "type"%string = Some (ticket_type row)
    ∧ d !! "title"%string = Some (title row)
    ∧ d !! "description"%string = Some (description row)
    ∧ d !! "priority"%string = Some (priority row)
    ∧ d !! "customer"%string = Some (customer_name row)
    ∧ d !! "created"%string = Some (created_date row)
    ∧ (∀ k, k ≠ number → tickets w1 !! k = tickets w !! k)
    ∧ ai_logs w1 = ai_logs w.
Proof.
  intros Hrow Hf1 Hf2.
  unfold BMCDatabase.update_status, try_except, bind, sqlite_connect.
  rewrite Hf1. unfold get_world. cbn [tickets tick_sqlite]. rewrite Hrow.
  unfold put_world, ret. eexists _, _. split; [reflexivity|].
  rewrite get_ticket_run. cbn [sqlite_calls with_tickets tick_sqlite].
  rewrite Hf2. cbn [tickets with_tickets]. rewrite lookup_insert_eq.
  cbn [fmap option_fmap option_map]. split; [reflexivity|].
  repeat (split; [reflexivity|]). split; [|reflexivity].
  intros k Hk. by rewrite lookup_insert_ne.
Qed.

(** X5.  [update_status] on a number that is not in the store, or when its
    database round trip fails, returns False instead of raising, and changes
    nothing but the count of round trips. *)
Theorem update_status_refused (number status' : str)
    (resolution' : option str) (w : World) :
  tickets w !! number = None ∨ is_Some (sqlite_fault E (sqlite_calls w)) →
  BMCDatabase.update_status E number status' resolution' w
    = Returned false (tick_sqlite w).
Proof.
  intros H.
  unfold BMCDatabase.update_status, try_except, bind, sqlite_connect.
  destruct (sqlite_fault E (sqlite_calls w)) as [e|]; [reflexivity|].
  destruct H as [H|[e He]]; [|discriminate He].
  unfold get_world. cbn [tickets tick_sqlite]. by rewrite H.
Qed.


End StoreFacts.

(** *** The completion call and the classifier *)

Section AgentFacts.
Context (E : Env).

(** X7.  [call_llm] always returns a pair of a text and a time and never
    raises; it touches neither tickets nor log nor database and sends exactly
    one request.  The text is the stripped answer of the service; when the
    service raises it is Error: followed by the text of the exception; and
    when the answer has no content it is the text of the AttributeError that
    strip raises on None, with the time read once more after the failure. *)
Theorem call_llm_reports_failure_as_text (prompt : str)
    (system_msg : option str) (w : World) :
  ∃ text ms w',
    BaseAgent.call_llm E prompt system_msg w = Returned (text, ms) w'
    ∧ tickets w' = tickets w ∧ ai_logs w' = ai_logs w
    ∧ sqlite_calls w' = sqlite_calls w
    ∧ llm_requests w' = llm_requests w ++ [llm_request prompt system_msg]
    ∧ match completions_create E (length (llm_requests w))
              (llm_request prompt system_msg) with
      | Completed (Some answer) =>
          text = strip (unicode E) answer ∧ ms = llm_elapsed E w
      | Completed None =>
          text = py "Error: 'NoneType' object has no attribute 'strip'"
          ∧ ms = BaseAgent.elapsed_ms (time_time E (clock_reads w))
                   (time_time E (S (S (clock_reads w))))
      | Failed e =>
          text = py "Error: " ++ exn_str e ∧ ms = llm_elapsed E w
      end.
Proof.
  unfold BaseAgent.call_llm, bind, try_except, time.
  unfold chat_completions_create. simpl.
  fold (llm_request prompt system_msg).
  destruct (completions_create E _ _) as [[answer|]|e]; simpl;
    eexists _, _, _; (split; [reflexivity|]); repeat split.
Qed.

(** The classifier always returns, and a successful result carries one of
    the three labels. *)
Lemma classifier_returns (w : World) (text : str) :
  ∃ r w',
    ClassifierAgent.process E text w = Returned r w'
    ∧ tickets w' = tickets w ∧ ai_logs w' = ai_logs w
    ∧ ai_logs_seq w' = ai_logs_seq w
    ∧ sqlite_calls w' = sqlite_calls w
    ∧ random_calls w' = random_calls w
    ∧ (c_success r = true → c_classification r ∈ ClassifierAgent.labels)
    ∧ match re_search (unicode E) ClassifierAgent.ticket_pattern
              (upper (unicode E) text) with
      | Some _ =>
          w' = w ∧ c_classification r = py "query"
          ∧ c_method r = py "rule_based" ∧ c_confidence r = 0.95%Q
          ∧ c_success r = true
      | None =>
          llm_requests w' =
            llm_requests w ++
            [llm_request (py "Message: '" ++ text ++ py "'")
               (Some ClassifierAgent.system_msg)]
          ∧ c_method r = py "llm_based" ∧ c_confidence r = 0.8%Q
      end.
Proof.
  unfold ClassifierAgent.process.
  destruct (re_search (unicode E) ClassifierAgent.ticket_pattern
              (upper (unicode E) text)).
  - eexists _, _. split; [reflexivity|]. repeat split.
    intros _. cbn. do 2 right. left.
  - destruct (call_llm_returns E (py "Message: '" ++ text ++ py "'")
                (Some ClassifierAgent.system_msg) w)
      as (answer & ms & w' & Hrun & Ht & Hl & Hr).
    unfold bind. rewrite Hrun. cbn beta iota zeta.
    eexists _, _. split; [reflexivity|].
    split; [assumption|]. split; [assumption|].
    assert (Hsame : ai_logs_seq w' = ai_logs_seq w
                    ∧ sqlite_calls w' = sqlite_calls w
                    ∧ random_calls w' = random_calls w).
    { revert Hrun. unfold BaseAgent.call_llm, bind, try_except, time.
      unfold chat_completions_create. simpl.
      destruct (completions_create E _ _) as [[a|]|e]; simpl;
        intros [= _ _ <-]; repeat split. }
    destruct Hsame as (Hs1 & Hs2 & Hs3).
    repeat (split; [assumption|]). split; [|repeat split; assumption].
    cbn [c_success c_classification].
    match goal with
    | |- context [bool_decide (?x ∈ ClassifierAgent.labels)] =>
        destruct (bool_decide (x ∈ ClassifierAgent.labels)) eqn:Hlab
    end.
    + intros _. by apply bool_decide_eq_true_1 in Hlab.
    + rewrite bool_decide_eq_true_2 by reflexivity. discriminate.
Qed.

(** X8.  [ClassifierAgent.process] always returns and never touches the
    tickets, the log or the database.  On a text with a ticket reference it
    sends nothing to the completion service and the method is rule_based;
    otherwise it sends exactly one request, whose prompt is Message: followed
    by the text in single quotes and whose system message is the fixed
    instruction, and the method is llm_based with confidence 0.8. *)
Theorem classifier_effects (w : World) (text : str) :
  ∃ r w',
    ClassifierAgent.process E text w = Returned r w'
    ∧ tickets w' = tickets w ∧ ai_logs w' = ai_logs w
    ∧ sqlite_calls w' = sqlite_calls w
    ∧ (has_ticket (unicode E) ClassifierAgent.ticket_pattern
         (upper (unicode E) text) →
       llm_requests w' = llm_requests w ∧ c_method r = py "rule_based")
    ∧ (¬ has_ticket (unicode E) ClassifierAgent.ticket_pattern
           (upper (unicode E) text) →
       llm_requests w' =
         llm_requests w ++
         [llm_request (py "Message: '" ++ text ++ py "'")
            (Some ClassifierAgent.system_msg)]
       ∧ c_method r = py "llm_based" ∧ c_confidence r = 0.8%Q).
Proof.
  destruct (classifier_returns w text)
    as (r & w' & Hrun & Ht & Hl & _ & Hs & _ & _ & Hcase).
  exists r, w'. repeat (split; [assumption|]).
  destruct (re_search (unicode E) ClassifierAgent.ticket_pattern
              (upper (unicode E) text)) as [m|] eqn:Hm.
  - destruct Hcase as (-> & _ & Hmeth & _). split; [auto|].
    intros Hno. exfalso. apply Hno.
    apply re_search_sound in Hm as [Hshape Hocc]. by eexists _, _.
  - split; [|auto]. intros Hhas.
    apply (re_search_complete (unicode E)) in Hhas as [m' Hm']. congruence.
Qed.

End AgentFacts.

(** *** The feedback handler *)

Section FeedbackFacts.
Context (E : Env).

Lemma handle_positive_run (fuel : nat) (text customer response : str)
    (ms : Z) (w w1 : World) :
  BaseAgent.call_llm E (py "Feedback: '" ++ text ++ py "'")
    (Some (thanks_system_msg customer)) w = Returned (response, ms) w1 →
  FeedbackHandlerAgent.process E fuel text (py "positive_feedback") customer w
  = Returned {| h_success := true;
                h_response := response;
                h_action := Some (py "thanked_customer");
                h_ticket_number := None;
                h_ticket_details := None;
                h_processing_time_ms := Some ms |}
      match sqlite_fault E (sqlite_calls w1) with
      | None =>
          with_log
            (BMCDatabase.new_log_row (ai_logs_seq w1 + 1)
               (CURRENT_TIMESTAMP E (sqlite_calls w1)) text
               (py "positive_feedback") (py "FeedbackHandler") response
               None true)
            (tick_sqlite w1)
      | Some _ => tick_sqlite w1
      end.
Proof.
  intros Hrun. unfold FeedbackHandlerAgent.process.
  change (bool_decide (py "positive_feedback" = py "positive_feedback"))
    with true.
  cbv iota. unfold FeedbackHandlerAgent._handle_positive.
  fold (thanks_system_msg customer).
  unfold bind. rewrite Hrun. cbn beta iota zeta.
  by rewrite log_interaction_run.
Qed.

(** X9.  On the label positive_feedback the feedback handler always returns
    success True with action thanked_customer and no ticket number.  It
    creates no ticket, sends exactly one request (the prompt is Feedback:
    followed by the text in single quotes, the system message names the
    customer), and logs at most one row, which carries the text, the label,
    the agent FeedbackHandler, the reply given to the customer, no ticket and
    success 1. *)
Theorem positive_feedback_thanks (fuel : nat) (text customer : str)
    (w : World) :
  ∃ response ms w2,
    FeedbackHandlerAgent.process E fuel text (py "positive_feedback")
      customer w =
    Returned {| h_success := true;
                h_response := response;
                h_action := Some (py "thanked_customer");
                h_ticket_number := None;
                h_ticket_details := None;
                h_processing_time_ms := Some ms |} w2
    ∧ tickets w2 = tickets w
    ∧ llm_requests w2 =
      llm_requests w ++
      [llm_request (py "Feedback: '" ++ text ++ py "'")
         (Some (thanks_system_msg customer))]
    ∧ (ai_logs w2 = ai_logs w
       ∨ ∃ entry,
           ai_logs w2 = ai_logs w ++ [entry]
           ∧ log_user_message entry = Some text
           ∧ log_classification entry = Some (py "positive_feedback")
           ∧ log_agent_used entry = Some (py "FeedbackHandler")
           ∧ log_response entry = Some response
           ∧ log_ticket_number entry = None
           ∧ log_success entry = Some 1%Z).
Proof.
  destruct (call_llm_returns E (py "Feedback: '" ++ text ++ py "'")
              (Some (thanks_system_msg customer)) w)
    as (response & ms & w1 & Hrun & Ht & Hl & Hr).
  exists response, ms. eexists.
  split; [exact (handle_positive_run fuel _ _ _ _ _ _ Hrun)|].
  destruct (sqlite_fault E (sqlite_calls w1)); cbn;
    rewrite ?Ht, ?Hl, ?Hr; repeat split; auto.
  right. eexists. repeat split.
Qed.

(** X10.  When the completion service raises on the positive path, the handler
    still answers success True with action thanked_customer: the reply for
    the customer is Error: followed by the text of the exception, and, when
    the log write does not fail, that text is logged as a successful
    interaction. *)
Theorem positive_feedback_service_down (fuel : nat) (text customer : str)
    (w : World) (e : exn) :
  completions_create E (length (llm_requests w))
    (llm_request (py "Feedback: '" ++ text ++ py "'")
       (Some (thanks_system_msg customer))) = Failed e →
  ∃ w2,
    FeedbackHandlerAgent.process E fuel text (py "positive_feedback")
      customer w =
    Returned {| h_success := true;
                h_response := py "Error: " ++ exn_str e;
                h_action := Some (py "thanked_customer");
                h_ticket_number := None;
                h_ticket_details := None;
                h_processing_time_ms := Some (llm_elapsed E w) |} w2
    ∧ (sqlite_fault E (sqlite_calls w) = None →
       ∃ entry,
         ai_logs w2 = ai_logs w ++ [entry]
         ∧ log_response entry = Some (py "Error: " ++ exn_str e)
         ∧ log_success entry = Some 1%Z).
Proof.
  intros Hfail. pose proof (call_llm_failed E _ _ w e Hfail) as Hrun.
  eexists. split; [exact (handle_positive_run fuel _ _ _ _ _ _ Hrun)|].
  intros Hok. cbn [sqlite_calls after_llm tick_clock sent]. rewrite Hok.
  eexists. repeat split.
Qed.

(** The first round trip of the negative path is outside every [try]. *)
Lemma handle_negative_fault_run (fuel : nat)
    (text customer : str) (w : World) (e : exn) :
  sqlite_fault E (sqlite_calls w) = Some e →
  FeedbackHandlerAgent.process E (S fuel) text (py "negative_feedback")
    customer w = Raised e (tick_sqlite (tick_random w)).
Proof.
  intros Hfault. unfold FeedbackHandlerAgent.process.
  change (bool_decide (py "negative_feedback" = py "positive_feedback"))
    with false.
  change (bool_decide (py "negative_feedback" = py "negative_feedback"))
    with true.
  cbv iota. unfold FeedbackHandlerAgent._handle_negative.
  unfold bind at 1. unfold BMCDatabase.create_ticket. unfold bind at 1.
  cbn [BMCDatabase.generate_ticket_number].
  unfold bind at 1. unfold randint. unfold bind at 1.
  unfold BMCDatabase.ticket_exists. unfold bind at 1. unfold sqlite_connect.
  cbn [sqlite_calls tick_random]. rewrite Hfault. reflexivity.
Qed.

(** X11.  The first database round trip of the negative path, [ticket_exists]
    called from [generate_ticket_number], is outside every try block: when it
    raises, the exception leaves [FeedbackHandlerAgent.process] after one
    draw of the generator and that one round trip; no reply is built, no
    ticket is created and nothing is logged. *)
Theorem negative_feedback_store_fault_propagates (fuel : nat)
    (text customer : str) (w : World) (e : exn) :
  sqlite_fault E (sqlite_calls w) = Some e →
  FeedbackHandlerAgent.process E (S fuel) text (py "negative_feedback")
    customer w = Raised e (tick_sqlite (tick_random w)).
Proof. exact (handle_negative_fault_run fuel text customer w e). Qed.

(** What a returned negative-feedback run went through. *)
Lemma handle_negative_returned (fuel : nat) (text customer : str)
    (w w' : World) (r : HandlerResult) :
  FeedbackHandlerAgent.process E fuel text (py "negative_feedback")
    customer w = Returned r w' →
  ∃ w1,
    BMCDatabase.create_ticket E fuel (py "INC") (py "Customer Complaint")
      text customer (py "High") w = Returned (default None (h_ticket_number r)) w1
    ∧ is_Some (h_ticket_number r)
    ∧ tickets w' = tickets w1.
Proof.
  unfold FeedbackHandlerAgent.process.
  change (bool_decide (py "negative_feedback" = py "positive_feedback"))
    with false.
  change (bool_decide (py "negative_feedback" = py "negative_feedback"))
    with true.
  cbv iota. unfold FeedbackHandlerAgent._handle_negative.
  unfold bind at 1.
  destruct (BMCDatabase.create_ticket E fuel (py "INC")
              (py "Customer Complaint") text customer (py "High") w)
    as [res w1|e w1|]; try discriminate.
  unfold bind. rewrite log_interaction_run. intros [= <- <-].
  exists w1. split; [reflexivity|]. split; [by eexists|].
  destruct (sqlite_fault E (sqlite_calls w1)); reflexivity.
Qed.

(** X12.  Nothing deduplicates complaints: two runs of the negative path, one
    after the other, that both report a ticket number report two different
    numbers, the first of which was free at the start, and both tickets are
    in the store afterwards -- also when text and customer are the same. *)
Theorem negative_feedback_twice_two_tickets (fuel fuel' : nat)
    (text text' customer customer' n1 n2 : str)
    (w w1 w2 : World) (r1 r2 : HandlerResult) :
  FeedbackHandlerAgent.process E fuel text (py "negative_feedback")
    customer w = Returned r1 w1 →
  FeedbackHandlerAgent.process E fuel' text' (py "negative_feedback")
    customer' w1 = Returned r2 w2 →
  h_ticket_number r1 = Some (Some n1) →
  h_ticket_number r2 = Some (Some n2) →
  n1 ≠ n2
  ∧ tickets w !! n1 = None
  ∧ is_Some (tickets w2 !! n1) ∧ is_Some (tickets w2 !! n2).
Proof.
  intros H1 H2 Hn1 Hn2.
  apply handle_negative_returned in H1 as (wa & Hc1 & _ & Ht1).
  apply handle_negative_returned in H2 as (wb & Hc2 & _ & Ht2).
  rewrite Hn1 in Hc1. rewrite Hn2 in Hc2. cbn [default from_option] in *.
  apply create_ticket_Some in Hc1 as (Hfree1 & now1 & Hins1 & _).
  apply create_ticket_Some in Hc2 as (Hfree2 & now2 & Hins2 & _).
  assert (Hstored : is_Some (tickets w1 !! n1)).
  { rewrite Ht1, Hins1, lookup_insert_eq. by eexists. }
  assert (Hne : n1 ≠ n2).
  { intros ->. rewrite Hfree2 in Hstored. by destruct Hstored. }
  split; [assumption|]. split; [assumption|].
  rewrite Ht2, Hins2. split.
  - by rewrite lookup_insert_ne.
  - rewrite lookup_insert_eq. by eexists.
Qed.

End FeedbackFacts.

(** *** The query handler *)

Section SearchOrder.
Context (U : UnicodeData).

Lemma search_from_leftmost (pat : Pattern) (i : nat) (s : str) (m : Match) :
  search_from U pat i s = Some m →
  ∀ g j, ticket_shaped U pat g → occurs_at g s j → (m_start m ≤ i + j)%nat.
Proof.
  revert i; induction s as [|c s IH]; intros i; simpl.
  - destruct (match_here U pat []) as [g0|]; [|discriminate].
    intros [= <-] g j _ _. simpl. lia.
  - destruct (match_here U pat (c :: s)) as [g0|] eqn:Hhere.
    + intros [= <-] g j _ _. simpl. lia.
    + intros Hm g j Hshape (pre & post & Hs & Hlen).
      destruct pre as [|x pre].
      * exfalso. destruct Hshape as (p & ds & -> & Hp & Hl & Hall).
        simpl in Hs. rewrite <- app_assoc in Hs.
        destruct (match_alternatives_complete U (alternatives pat)
                    (digit_count pat) p ds post Hp Hl Hall) as [g' Hg'].
        unfold match_here in Hhere. rewrite Hs in Hhere. congruence.
      * simpl in Hs. injection Hs as -> ->. simpl in Hlen. subst j.
        assert (occurs_at g (pre ++ g ++ post) (length pre))
          as Hocc by (by exists pre, post).
        specialize (IH (S i) Hm g (length pre) Hshape Hocc). lia.
Qed.

Lemma re_search_leftmost (pat : Pattern) (s : str) (m : Match) :
  re_search U pat s = Some m →
  ∀ g j, ticket_shaped U pat g → occurs_at g s j → (m_start m ≤ j)%nat.
Proof. intros Hm g j Hshape Hocc. exact (search_from_leftmost pat 0 s m Hm g j Hshape Hocc). Qed.

(** A ticket-shaped text is found in itself, at offset 0. *)
Lemma re_search_self (pat : Pattern) (g : str) :
  ticket_shaped U pat g →
  ∃ g', re_search U pat g = Some {| m_start := 0; group0 := g' |}
        ∧ ticket_shaped U pat g'.
Proof.
  intros Hshape.
  assert (Hhas : has_ticket U pat g).
  { exists g, 0%nat. split; [assumption|]. exists [], [].
    split; [by rewrite app_nil_r|reflexivity]. }
  destruct (re_search_complete U pat g Hhas) as [m Hm].
  pose proof (re_search_leftmost pat g m Hm g 0%nat Hshape) as Hle.
  destruct (re_search_sound U pat g m Hm) as [Hs _].
  destruct m as [st g']. exists g'. cbn in *.
  assert (st = 0%nat) as ->.
  { assert (st ≤ 0)%nat; [|lia]. apply Hle. exists [], [].
    split; [by rewrite app_nil_r|reflexivity]. }
  auto.
Qed.

End SearchOrder.

Section QueryFacts.
Context (E : Env).

(** X13.  On a text without a ticket reference the query handler returns
    success False, the fixed request for a valid ticket number and time 5,
    with no ticket number, and leaves the whole world as it is: no lookup and
    no log row. *)
Theorem query_without_reference (w : World) (text : str) :
  ¬ has_ticket (unicode E) QueryHandlerAgent.ticket_pattern
      (upper (unicode E) text) →
  QueryHandlerAgent.process E text w =
  Returned {| h_success := false;
              h_response :=
                py "Please provide a valid ticket number (INC/REQ/CRQ/PBI/RLM + 10 digits)";
              h_action := None;
              h_ticket_number := None;
              h_ticket_details := None;
              h_processing_time_ms := Some 5%Z |} w.
Proof.
  intros Hno. unfold QueryHandlerAgent.process.
  destruct (re_search (unicode E) QueryHandlerAgent.ticket_pattern
              (upper (unicode E) text)) as [m|] eqn:Hm; [|reflexivity].
  exfalso. apply Hno. apply re_search_sound in Hm as [Hshape Hocc].
  by eexists _, _.
Qed.

(** X14.  When the referenced ticket is not in the store, or the lookup fails
    (which [get_ticket] swallows, returning None), the query handler returns
    success False, the not-found reply naming the number, and time 50.  The
    tickets are unchanged, and the interaction is logged with the number and
    success 0 unless the log write fails. *)
Theorem query_ticket_not_found (w : World) (text : str) (m : Match) :
  re_search (unicode E) QueryHandlerAgent.ticket_pattern
    (upper (unicode E) text) = Some m →
  tickets w !! group0 m = None
  ∨ is_Some (sqlite_fault E (sqlite_calls w)) →
  ∃ w',
    QueryHandlerAgent.process E text w =
    Returned {| h_success := false;
                h_response :=
                  py "Ticket " ++ group0 m
                  ++ py " not found. Please verify the number.";
                h_action := None;
                h_ticket_number := Some (Some (group0 m));
                h_ticket_details := None;
                h_processing_time_ms := Some 50%Z |} w'
    ∧ tickets w' = tickets w
    ∧ ai_logs w' =
      match sqlite_fault E (S (sqlite_calls w)) with
      | None =>
          ai_logs w ++
          [BMCDatabase.new_log_row (ai_logs_seq w + 1)
             (CURRENT_TIMESTAMP E (S (sqlite_calls w))) text (py "query")
             (py "QueryHandler")
             (py "Ticket " ++ group0 m
              ++ py " not found. Please verify the number.")
             (Some (group0 m)) false]
      | Some _ => ai_logs w
      end.
Proof.
  intros Hm Hmiss. unfold QueryHandlerAgent.process. rewrite Hm.
  unfold bind at 1. rewrite get_ticket_run.
  assert (match sqlite_fault E (sqlite_calls w) with
          | Some _ => None
          | None => BMCDatabase.row_dict (group0 m) <$> tickets w !! group0 m
          end = None) as ->.
  { destruct (sqlite_fault E (sqlite_calls w)) as [e|]; [reflexivity|].
    destruct Hmiss as [->|[e He]]; [reflexivity | discriminate He]. }
  unfold bind. rewrite log_interaction_run.
  eexists. split; [reflexivity|]. cbn [sqlite_calls tick_sqlite].
  destruct (sqlite_fault E (S (sqlite_calls w))); split; reflexivity.
Qed.

(** What every run of the query handler does and does not touch. *)
Lemma query_process_effects (w : World) (text : str) :
  ∃ r w',
    QueryHandlerAgent.process E text w = Returned r w'
    ∧ tickets w' = tickets w
    ∧ llm_requests w' = llm_requests w
    ∧ clock_reads w' = clock_reads w
    ∧ h_action r = None
    ∧ (ai_logs w' = ai_logs w
       ∨ ∃ entry, ai_logs w' = ai_logs w ++ [entry]
                  ∧ log_classification entry = Some (py "query")
                  ∧ log_agent_used entry = Some (py "QueryHandler")
                  ∧ log_success entry
                    = Some (if h_success r then 1 else 0)%Z).
Proof.
  unfold QueryHandlerAgent.process.
  destruct (re_search (unicode E) QueryHandlerAgent.ticket_pattern
              (upper (unicode E) text)) as [m|].
  - unfold bind at 1. rewrite get_ticket_run.
    destruct (match sqlite_fault E (sqlite_calls w) with
              | Some _ => None
              | None =>
                  BMCDatabase.row_dict (group0 m) <$> tickets w !! group0 m
              end) as [d|] eqn:Hd.
    + assert (∃ row, d = BMCDatabase.row_dict (group0 m) row) as [row ->].
      { destruct (sqlite_fault E (sqlite_calls w)); [discriminate|].
        destruct (tickets w !! group0 m) as [row|]; [|discriminate].
        injection Hd as <-. by exists row. }
      unfold bind. rewrite generate_status_response_run, log_interaction_run.
      eexists _, _. split; [reflexivity|].
      destruct (sqlite_fault E (sqlite_calls (tick_sqlite w)));
        repeat split; auto.
      right. eexists. repeat split.
    + unfold bind. rewrite log_interaction_run.
      eexists _, _. split; [reflexivity|].
      destruct (sqlite_fault E (sqlite_calls (tick_sqlite w)));
        repeat split; auto.
      right. eexists. repeat split.
  - eexists _, _. split; [reflexivity|]. repeat split. by left.
Qed.

(** X15.  The query handler always returns; it never sends a request to the
    completion service, never reads the clock and never changes a ticket.  It
    logs at most one row, labelled query and QueryHandler, whose success flag
    is the success of the result. *)
Theorem query_never_calls_service (w : World) (text : str) :
  ∃ r w',
    QueryHandlerAgent.process E text w = Returned r w'
    ∧ tickets w' = tickets w
    ∧ llm_requests w' = llm_requests w
    ∧ clock_reads w' = clock_reads w
    ∧ (ai_logs w' = ai_logs w
       ∨ ∃ entry, ai_logs w' = ai_logs w ++ [entry]
                  ∧ log_classification entry = Some (py "query")
                  ∧ log_agent_used entry = Some (py "QueryHandler")
                  ∧ log_success entry
                    = Some (if h_success r then 1 else 0)%Z).
Proof.
  destruct (query_process_effects w text)
    as (r & w' & H1 & H2 & H3 & H4 & _ & H5).
  exists r, w'. auto.
Qed.

(** X16.  The number the query handler reports is ticket-shaped and is the
    leftmost reference of the upper-cased text: no ticket-shaped text occurs
    at a smaller offset.  A text with several references is answered for the
    first one only. *)
Theorem query_uses_first_reference (w : World) (text : str) (r : HandlerResult)
    (w' : World) (number : str) :
  QueryHandlerAgent.process E text w = Returned r w' →
  h_ticket_number r = Some (Some number) →
  ticket_shaped (unicode E) QueryHandlerAgent.ticket_pattern number
  ∧ ∃ i, occurs_at number (upper (unicode E) text) i
         ∧ ∀ g j,
             ticket_shaped (unicode E) QueryHandlerAgent.ticket_pattern g →
             occurs_at g (upper (unicode E) text) j → (i ≤ j)%nat.
Proof.
  intros Hrun Hnum.
  destruct (re_search (unicode E) QueryHandlerAgent.ticket_pattern
              (upper (unicode E) text)) as [m|] eqn:Hm.
  - destruct (query_process_found E w text m Hm)
      as (r0 & w0 & Hrun0 & Hnum0 & _).
    rewrite Hrun in Hrun0. injection Hrun0 as <- <-.
    rewrite Hnum in Hnum0. injection Hnum0 as ->.
    destruct (re_search_sound _ _ _ _ Hm) as [Hshape Hocc].
    split; [assumption|]. exists (m_start m). split; [assumption|].
    exact (re_search_leftmost _ _ _ _ Hm).
  - exfalso. revert Hrun. unfold QueryHandlerAgent.process. rewrite Hm.
    intros [= <- _]. discriminate Hnum.
Qed.

Lemma create_ticket_generated (fuel : nat)
    (ticket_type title description customer_name priority number : str)
    (w w1 : World) :
  BMCDatabase.create_ticket E fuel ticket_type title description
    customer_name priority w = Returned (Some number) w1 →
  ∃ w0, BMCDatabase.generate_ticket_number E fuel ticket_type w
        = Returned number w0.
Proof.
  unfold BMCDatabase.create_ticket. unfold bind at 1.
  destruct (BMCDatabase.generate_ticket_number E fuel ticket_type w)
    as [n w0|e w0|]; try discriminate.
  unfold try_except, bind.
  destruct (BMCDatabase.insert_ticket E n ticket_type title description
              priority customer_name w0); try discriminate.
  intros [= <- _]. by exists w0.
Qed.

(** A generated number of an alternative of the pattern has the shape the
    pattern asks for, and the search finds exactly it. *)
Lemma generated_number_searchable (fuel : nat) (prefix number : str)
    (w w0 : World) :
  prefix ∈ alternatives QueryHandlerAgent.ticket_pattern →
  BMCDatabase.generate_ticket_number E fuel prefix w = Returned number w0 →
  ticket_shaped (unicode E) QueryHandlerAgent.ticket_pattern number
  ∧ re_search (unicode E) QueryHandlerAgent.ticket_pattern
      (upper (unicode E) number)
    = Some {| m_start := 0; group0 := number |}.
Proof.
  intros Hp Hgen.
  apply generate_ticket_number_returned in Hgen as (_ & _ & _ & z & Hz & ->).
  destruct (str_of_int_ten_digits z Hz) as [Hlen Hall].
  assert (Hshape : ticket_shaped (unicode E) QueryHandlerAgent.ticket_pattern
                     (prefix ++ str_of_int z)).
  { exists prefix, (str_of_int z). repeat split; try assumption.
    eapply Forall_impl; [exact Hall|]. intros c. apply ascii_digit_decimal. }
  split; [assumption|].
  rewrite (upper_ticket_shaped (unicode E) _ Hshape).
  destruct (re_search_self (unicode E) _ _ Hshape) as (g' & Hm & Hshape').
  rewrite Hm. do 2 f_equal.
  apply re_search_sound in Hm as [_ (pre & post & Heq & Hpre)].
  cbn in Heq, Hpre. destruct pre; [|discriminate Hpre]. cbn in Heq.
  assert (Hlen13 : ∀ g, ticket_shaped (unicode E)
                          QueryHandlerAgent.ticket_pattern g →
                        length g = 13%nat).
  { intros g (p & ds & -> & Hin & Hl & _). rewrite length_app, Hl.
    cbn in Hin. repeat (apply elem_of_cons in Hin as [->|Hin]; [reflexivity|]).
    by apply elem_of_nil in Hin. }
  pose proof (Hlen13 _ Hshape) as L1. pose proof (Hlen13 _ Hshape') as L2.
  rewrite Heq in L1. rewrite length_app in L1.
  destruct post; [by rewrite app_nil_r in Heq | cbn in L1; lia].
Qed.

(** X17.  The number the negative path reports is itself a valid query: handed
    to the query handler, with no database fault on the lookup, it finds the
    incident just created and is answered with success True, time 75, the
    reply that the Incident of that number, titled Customer Complaint, has
    been logged and is awaiting assignment, and details holding the complaint
    text, the customer and the priority High. *)
Theorem created_incident_can_be_queried (fuel : nat)
    (text customer number : str) (w w1 : World) (r : HandlerResult) :
  FeedbackHandlerAgent.process E fuel text (py "negative_feedback")
    customer w = Returned r w1 →
  h_ticket_number r = Some (Some number) →
  sqlite_fault E (sqlite_calls w1) = None →
  ∃ now w2,
    QueryHandlerAgent.process E number w1 =
    Returned {| h_success := true;
                h_response :=
                  py "Your Incident " ++ number
                  ++ py " 'Customer Complaint' has been logged and is awaiting assignment.";
                h_action := None;
                h_ticket_number := Some (Some number);
                h_ticket_details :=
                  Some (BMCDatabase.row_dict number
                          (BMCDatabase.new_ticket_row now (py "INC")
                             (py "Customer Complaint") text (py "High")
                             customer));
                h_processing_time_ms := Some 75%Z |} w2.
Proof.
  intros Hrun Hnum Hfault.
  apply handle_negative_returned in Hrun as (wa & Hcreate & _ & Ht).
  rewrite Hnum in Hcreate. cbn [default from_option] in Hcreate.
  destruct (create_ticket_generated _ _ _ _ _ _ _ _ _ Hcreate) as [w0 Hgen].
  destruct (generated_number_searchable fuel (py "INC") number w w0)
    as [_ Hm]; [left | assumption |].
  destruct (create_ticket_Some E _ _ _ _ _ _ _ _ _ Hcreate)
    as (_ & now & Hins & _).
  exists now. unfold QueryHandlerAgent.process. rewrite Hm.
  cbn [group0]. unfold bind. rewrite get_ticket_run, Hfault, Ht, Hins.
  rewrite lookup_insert_eq. cbn [fmap option_fmap option_map].
  rewrite generate_status_response_run, log_interaction_run.
  eexists. f_equal. f_equal.
  unfold BMCDatabase.new_ticket_row. cbn [status resolution andb].
  change (bool_decide (Some (py "New") = Some (py "Resolved"))) with false.
  cbn [andb]. unfold status_reply, reply_titled, reply_head, display_name.
  cbn [status ticket_type title fmt].
  change (bool_decide (Some (py "INC") = Some (py "INC"))) with true.
  change (bool_decide (Some (py "New") = Some (py "New"))) with true.
  cbv iota. rewrite <- !app_assoc. reflexivity.
Qed.

End QueryFacts.

(** *** The orchestrator *)

Section OrchestratorFacts.
Context (E : Env).

Lemma process_message_run (fuel : nat) (text customer : str) (w w1 : World)
    (cr : ClassificationResult) :
  ClassifierAgent.process E text (tick_clock w) = Returned cr w1 →
  MultiAgentOrchestrator.process_message E fuel text customer w =
  let t0 := time_time E (clock_reads w) in
  let finish (path : str) (o : outcome HandlerResult) :=
    match o with
    | Returned r w2 =>
        Returned {| o_result := r;
                    o_classification := Some (c_classification cr);
                    o_classification_confidence := Some (c_confidence cr);
                    o_agent_path := Some path;
                    o_total_processing_time_ms :=
                      BaseAgent.elapsed_ms t0 (time_time E (clock_reads w2)) |}
          (tick_clock w2)
    | Raised e w2 => Raised e w2
    | Unfinished => Unfinished
    end in
  if negb (c_success cr)
  then Returned
         (MultiAgentOrchestrator.turned_away
            (py "Unable to understand your message. Please try again.")
            (BaseAgent.elapsed_ms t0 (time_time E (clock_reads w1))))
         (tick_clock w1)
  else if bool_decide (c_classification cr ∈
                         [py "positive_feedback"; py "negative_feedback"])
  then finish feedback_path
         (FeedbackHandlerAgent.process E fuel text (c_classification cr)
            customer w1)
  else if bool_decide (c_classification cr = py "query")
  then finish query_path (QueryHandlerAgent.process E text w1)
  else Returned
         (MultiAgentOrchestrator.turned_away
            (py "Unable to process your request.")
            (BaseAgent.elapsed_ms t0 (time_time E (clock_reads w1))))
         (tick_clock w1).
Proof.
  intros Hc. unfold MultiAgentOrchestrator.process_message.
  unfold bind at 1. unfold time at 1. unfold bind at 1. rewrite Hc.
  cbv zeta. destruct (negb (c_success cr)); [reflexivity|].
  destruct (bool_decide (c_classification cr ∈ _)).
  - unfold bind at 1.
    destruct (FeedbackHandlerAgent.process E fuel text (c_classification cr)
                customer w1); reflexivity.
  - destruct (bool_decide (c_classification cr = py "query"));
      [|reflexivity].
    unfold bind at 1.
    destruct (QueryHandlerAgent.process E text w1); reflexivity.
Qed.

(** X18.  A message with a ticket reference goes to the query handler without
    any request to the completion service: [process_message] returns the
    query handler's result for the text, extended with the classification
    query, confidence 0.95, the path Classifier → QueryHandler and the time
    between its two clock reads; the tickets are unchanged. *)
Theorem orchestrator_routes_reference_to_query (fuel : nat)
    (text customer : str) (w : World) :
  has_ticket (unicode E) ClassifierAgent.ticket_pattern
    (upper (unicode E) text) →
  ∃ r w1,
    QueryHandlerAgent.process E text (tick_clock w) = Returned r w1
    ∧ MultiAgentOrchestrator.process_message E fuel text customer w =
      Returned {| o_result := r;
                  o_classification := Some (py "query");
                  o_classification_confidence := Some 0.95%Q;
                  o_agent_path := Some query_path;
                  o_total_processing_time_ms :=
                    BaseAgent.elapsed_ms (time_time E (clock_reads w))
                      (time_time E (S (clock_reads w))) |}
        (tick_clock w1)
    ∧ llm_requests w1 = llm_requests w
    ∧ tickets w1 = tickets w.
Proof.
  intros Hhas. apply (re_search_complete (unicode E)) in Hhas as [m Hm].
  pose proof (classifier_rule_run E (tick_clock w) text m Hm) as Hc.
  destruct (query_process_effects E (tick_clock w) text)
    as (r & w1 & Hq & Ht & Hr & Hclk & _).
  exists r, w1. split; [assumption|].
  rewrite (process_message_run fuel text customer w _ _ Hc).
  cbn [c_success c_classification c_confidence negb].
  change (bool_decide (py "query" ∈
            [py "positive_feedback"; py "negative_feedback"])) with false.
  change (bool_decide (py "query" = py "query")) with true.
  cbv iota zeta. rewrite Hq, Hclk. auto.
Qed.

(** X19.  When the classifier reports no success, [process_message] returns
    success False with the reply Unable to understand your message. Please
    try again. and the elapsed time, without classification or agent path; no
    handler runs, so tickets, log and database round trips are as before. *)
Theorem orchestrator_turns_unknown_away (fuel : nat) (text customer : str)
    (w w1 : World) (cr : ClassificationResult) :
  ClassifierAgent.process E text (tick_clock w) = Returned cr w1 →
  c_success cr = false →
  MultiAgentOrchestrator.process_message E fuel text customer w =
  Returned
    (MultiAgentOrchestrator.turned_away
       (py "Unable to understand your message. Please try again.")
       (BaseAgent.elapsed_ms (time_time E (clock_reads w))
          (time_time E (clock_reads w1))))
    (tick_clock w1)
  ∧ tickets (tick_clock w1) = tickets w
  ∧ ai_logs (tick_clock w1) = ai_logs w
  ∧ sqlite_calls (tick_clock w1) = sqlite_calls w.
Proof.
  intros Hc Hfail.
  rewrite (process_message_run fuel text customer w _ _ Hc), Hfail.
  split; [reflexivity|].
  destruct (classifier_returns E (tick_clock w) text)
    as (r & w' & Hrun & Ht & Hl & _ & Hs & _).
  rewrite Hc in Hrun. injection Hrun as <- <-. auto.
Qed.

(** The classifier's run when the completion call raises. *)
Lemma classifier_failure_run (w : World) (text : str) (e : exn) :
  re_search (unicode E) ClassifierAgent.ticket_pattern
    (upper (unicode E) text) = None →
  completions_create E (length (llm_requests w))
    (llm_request (py "Message: '" ++ text ++ py "'")
       (Some ClassifierAgent.system_msg)) = Failed e →
  ClassifierAgent.process E text w =
  Returned {| c_success := false;
              c_classification := py "unknown";
              c_confidence := 0.8%Q;
              c_method := py "llm_based";
              c_processing_time_ms := llm_elapsed E w |}
    (after_llm (py "Message: '" ++ text ++ py "'")
       (Some ClassifierAgent.system_msg) w).
Proof.
  intros Hnone Hfail.
  pose proof (call_llm_failed E _ _ w e Hfail) as Hrun.
  unfold ClassifierAgent.process. rewrite Hnone.
  unfold bind. rewrite Hrun. cbn beta iota zeta.
  rewrite (bool_decide_eq_false_2 _ (error_text_unknown (unicode E) (exn_str e))).
  reflexivity.
Qed.

(** X20.  When the text has no ticket reference and the completion service
    raises, [process_message] does not raise: it returns the
    unable-to-understand result, timed from the first to the fourth clock
    read, with one request sent and tickets and log unchanged. *)
Theorem orchestrator_service_down (fuel : nat) (text customer : str)
    (w : World) (e : exn) :
  re_search (unicode E) ClassifierAgent.ticket_pattern
    (upper (unicode E) text) = None →
  completions_create E (length (llm_requests w))
    (llm_request (py "Message: '" ++ text ++ py "'")
       (Some ClassifierAgent.system_msg)) = Failed e →
  ∃ w',
    MultiAgentOrchestrator.process_message E fuel text customer w =
    Returned
      (MultiAgentOrchestrator.turned_away
         (py "Unable to understand your message. Please try again.")
         (BaseAgent.elapsed_ms (time_time E (clock_reads w))
            (time_time E (S (S (S (clock_reads w)))))))
      w'
    ∧ tickets w' = tickets w ∧ ai_logs w' = ai_logs w
    ∧ length (llm_requests w') = S (length (llm_requests w)).
Proof.
  intros Hnone Hfail.
  pose proof (classifier_failure_run (tick_clock w) text e Hnone Hfail) as Hc.
  rewrite (process_message_run fuel text customer w _ _ Hc).
  eexists. split; [reflexivity|]. cbn. rewrite length_app. cbn.
  repeat split. lia.
Qed.

(** What a returned run of the feedback handler did, for the two labels it
    accepts. *)
Lemma feedback_process_returned (fuel : nat) (text label customer : str)
    (w w' : World) (r : HandlerResult) :
  label ∈ [py "positive_feedback"; py "negative_feedback"] →
  FeedbackHandlerAgent.process E fuel text label customer w = Returned r w' →
  h_success r = true
  ∧ h_action r = Some (if bool_decide (label = py "positive_feedback")
                       then py "thanked_customer"
                       else py "incident_created")
  ∧ appends_pair w w'.
Proof.
  intros Hlabel Hrun.
  apply elem_of_cons in Hlabel as [->|Hlabel];
    [|apply elem_of_cons in Hlabel as [->|Hlabel];
      [|by apply elem_of_nil in Hlabel]].
  - destruct (call_llm_returns E (py "Feedback: '" ++ text ++ py "'")
                (Some (thanks_system_msg customer)) w)
      as (response & ms & w1 & Hllm & _ & Hl & _).
    rewrite (handle_positive_run E fuel _ _ _ _ _ _ Hllm) in Hrun.
    injection Hrun as <- <-. split; [reflexivity|]. split; [reflexivity|].
    unfold appends_pair.
    destruct (sqlite_fault E (sqlite_calls w1)); cbn; rewrite ?Hl.
    + by left.
    + right. eexists. split; [reflexivity|]. left. by split.
  - revert Hrun. unfold FeedbackHandlerAgent.process.
    change (bool_decide (py "negative_feedback" = py "positive_feedback"))
      with false.
    change (bool_decide (py "negative_feedback" = py "negative_feedback"))
      with true.
    cbv iota. unfold FeedbackHandlerAgent._handle_negative.
    unfold bind at 1.
    destruct (BMCDatabase.create_ticket E fuel (py "INC")
                (py "Customer Complaint") text customer (py "High") w)
      as [res w1|e w1|] eqn:Hc; try discriminate.
    unfold bind. rewrite log_interaction_run. intros [= <- <-].
    split; [reflexivity|]. split; [reflexivity|].
    assert (Hl : ai_logs w1 = ai_logs w).
    { destruct res as [n|].
      - by destruct (create_ticket_Some E _ _ _ _ _ _ _ _ _ Hc)
          as (_ & now & _ & Hl & _).
      - by destruct (create_ticket_None E _ _ _ _ _ _ _ _ Hc) as (_ & Hl & _). }
    unfold appends_pair.
    destruct (sqlite_fault E (sqlite_calls w1)); cbn; rewrite ?Hl.
    + by left.
    + right. eexists. split; [reflexivity|]. right. left. by split.
Qed.

Lemma query_process_returned (text : str) (w w' : World) (r : HandlerResult) :
  QueryHandlerAgent.process E text w = Returned r w' →
  h_action r = None ∧ appends_pair w w'.
Proof.
  intros Hrun.
  destruct (query_process_effects E w text)
    as (r0 & w0 & Hrun0 & _ & _ & _ & Hact & Hlog).
  rewrite Hrun in Hrun0. injection Hrun0 as <- <-.
  split; [assumption|].
  destruct Hlog as [Hl|(entry & Hl & Hc & Ha & _)]; [by left|].
  right. exists entry. split; [assumption|]. right. right. by split.
Qed.

(** X21.  Every result [process_message] returns is of one of four kinds:
    turned away (no classification, no agent path, success False, the
    unable-to-understand reply, log and tickets unchanged);
    positive_feedback by the path Classifier → FeedbackHandler with action
    thanked_customer; negative_feedback by the same path with action
    incident_created; or query by the path Classifier → QueryHandler with no
    action.  So the final else branch is dead: a result without
    classification never carries its reply Unable to process your
    request. *)
Theorem orchestrator_routing (fuel : nat) (text customer : str)
    (w w' : World) (r : OrchestrationResult) :
  MultiAgentOrchestrator.process_message E fuel text customer w
    = Returned r w' →
  (o_classification r = None ∧ o_agent_path r = None
   ∧ h_success (o_result r) = false
   ∧ h_response (o_result r)
     = py "Unable to understand your message. Please try again."
   ∧ ai_logs w' = ai_logs w ∧ tickets w' = tickets w)
  ∨ (o_classification r = Some (py "positive_feedback")
     ∧ o_agent_path r = Some feedback_path
     ∧ h_action (o_result r) = Some (py "thanked_customer"))
  ∨ (o_classification r = Some (py "negative_feedback")
     ∧ o_agent_path r = Some feedback_path
     ∧ h_action (o_result r) = Some (py "incident_created"))
  ∨ (o_classification r = Some (py "query")
     ∧ o_agent_path r = Some query_path
     ∧ h_action (o_result r) = None).
Proof.
  destruct (classifier_returns E (tick_clock w) text)
    as (cr & w1 & Hc & Ht & Hl & _ & _ & _ & Hlab & _).
  rewrite (process_message_run fuel text customer w _ _ Hc). cbv zeta.
  destruct (c_success cr) eqn:Hs; cbn [negb].
  - specialize (Hlab eq_refl). unfold ClassifierAgent.labels in Hlab.
    case_bool_decide as Hfb.
    + destruct (FeedbackHandlerAgent.process E fuel text
                  (c_classification cr) customer w1) as [hr w2| |] eqn:Hh;
        try discriminate.
      intros [= <- <-]. cbn.
      destruct (feedback_process_returned _ _ _ _ _ _ _ Hfb Hh)
        as (_ & Hact & _).
      apply elem_of_cons in Hfb as [Heq|Hfb].
      * right. left. rewrite Heq in *. auto.
      * apply elem_of_cons in Hfb as [Heq|Hfb];
          [|by apply elem_of_nil in Hfb].
        right. right. left. rewrite Heq in *. auto.
    + assert (c_classification cr = py "query") as Hq.
      { rewrite !elem_of_cons in Hlab. rewrite !elem_of_cons in Hfb.
        rewrite elem_of_nil in Hlab. tauto. }
      rewrite bool_decide_eq_true_2 by assumption.
      destruct (QueryHandlerAgent.process E text w1) as [hr w2| |] eqn:Hh;
        try discriminate.
      intros [= <- <-]. cbn.
      destruct (query_process_returned _ _ _ _ Hh) as [Hact _].
      right. right. right. rewrite Hq. auto.
  - intros [= <- <-]. left. cbn. repeat split; assumption.
Qed.

(** X22.  [process_message] keeps every row of the log and appends at most
    one: the log afterwards is the log before, or the log before followed by
    one row, and that row pairs a label with its handler -- positive_feedback
    or negative_feedback with FeedbackHandler, query with QueryHandler.  So a
    log made of such rows stays one. *)
Theorem orchestrator_logs_handler_pairs (fuel : nat) (text customer : str)
    (w w' : World) (r : OrchestrationResult) :
  MultiAgentOrchestrator.process_message E fuel text customer w
    = Returned r w' →
  appends_pair w w'
  ∧ (Forall handler_pair (ai_logs w) → Forall handler_pair (ai_logs w')).
Proof.
  intros Hrun.
  assert (Happ : appends_pair w w').
  { revert Hrun.
    destruct (classifier_returns E (tick_clock w) text)
      as (cr & w1 & Hc & _ & Hl & _ & _ & _ & Hlab & _).
    cbn in Hl.
    rewrite (process_message_run fuel text customer w _ _ Hc). cbv zeta.
    destruct (c_success cr) eqn:Hs; cbn [negb].
    - specialize (Hlab eq_refl). case_bool_decide as Hfb.
      + destruct (FeedbackHandlerAgent.process E fuel text
                    (c_classification cr) customer w1) as [hr w2| |] eqn:Hh;
          try discriminate.
        intros [= _ <-].
        destruct (feedback_process_returned _ _ _ _ _ _ _ Hfb Hh)
          as (_ & _ & Happ).
        unfold appends_pair in *. cbn [ai_logs tick_clock]. by rewrite <- Hl.
      + case_bool_decide as Hq.
        * destruct (QueryHandlerAgent.process E text w1) as [hr w2| |] eqn:Hh;
            try discriminate.
          intros [= _ <-].
          destruct (query_process_returned _ _ _ _ Hh) as [_ Happ].
          unfold appends_pair in *. cbn [ai_logs tick_clock]. by rewrite <- Hl.
        * intros [= _ <-]. left. exact Hl.
    - intros [= _ <-]. left. exact Hl. }
  split; [exact Happ|]. intros Hall.
  destruct Happ as [->|(entry & -> & Hpair)]; [assumption|].
  apply Forall_app. split; [assumption|]. by apply Forall_singleton.
Qed.

(** X23.  [process_message] has no try block of its own: when the classifier
    answers negative_feedback and the first database round trip of the
    negative path raises, the exception leaves [process_message] and no
    result dict is returned. *)
Theorem orchestrator_store_fault_propagates (fuel : nat)
    (text customer : str) (w w1 : World) (cr : ClassificationResult)
    (e : exn) :
  ClassifierAgent.process E text (tick_clock w) = Returned cr w1 →
  c_success cr = true →
  c_classification cr = py "negative_feedback" →
  sqlite_fault E (sqlite_calls w1) = Some e →
  MultiAgentOrchestrator.process_message E (S fuel) text customer w
  = Raised e (tick_sqlite (tick_random w1)).
Proof.
  intros Hc Hs Hlabel Hfault.
  rewrite (process_message_run (S fuel) text customer w _ _ Hc).
  rewrite Hs, Hlabel. cbn [negb].
  change (bool_decide (py "negative_feedback" ∈
            [py "positive_feedback"; py "negative_feedback"])) with true.
  cbv iota zeta.
  by rewrite (handle_negative_fault_run E fuel text customer
                w1 e Hfault).
Qed.

End OrchestratorFacts.

(** *** The evaluator *)

Section EvaluatorFacts.
Context (E : Env).

(** X24.  [evaluate_response_quality] never returns a report, whatever the log
    holds: its query names the column response_generated, which the table
    ai_logs does not have, so its one database round trip raises -- the
    OperationalError no such column: response_generated when the database
    itself is sound. *)
Theorem response_quality_never_returns (w : World) :
  ∃ e,
    ModelEvaluator.evaluate_response_quality E w = Raised e (tick_sqlite w)
    ∧ (sqlite_fault E (sqlite_calls w) = None →
       e = Exception "OperationalError"
             (py "no such column: response_generated")).
Proof.
  unfold ModelEvaluator.evaluate_response_quality, bind, sqlite_connect.
  destruct (sqlite_fault E (sqlite_calls w)) as [e|].
  - exists e. split; [reflexivity | discriminate].
  - eexists. split; [reflexivity|]. reflexivity.
Qed.

Lemma select_routing_columns (rows : list LogRow) (w : World) :
  select_columns ["classification"; "agent_used"; "success"]%string rows w
  = Returned (map routing_tuple rows) w.
Proof. reflexivity. Qed.

Lemma routing_loop (rows : list LogRow)
    (matrix : list (sqlval * list (sqlval * (Z * Z)))) (correct : Z)
    (w : World) :
  Forall (fun r => is_Some (log_classification r)
                   ∧ is_Some (log_agent_used r)) rows →
  ∃ matrix',
    for_each (map routing_tuple rows) routing_body (matrix, correct) w =
    Returned
      (matrix',
       (correct
        + Z.of_nat (length (filter (fun r => routed_correctly r = true) rows)))%Z)
      w.
Proof.
  intros Hall. revert matrix correct.
  induction Hall as [|r rows [[c Hc] [a Ha]] _ IH]; intros matrix correct.
  - exists matrix. cbn. by rewrite Z.add_0_r.
  - cbn [map for_each]. unfold bind.
    unfold routing_body at 1, routing_tuple at 1. rewrite Hc, Ha.
    cbn [sql_of_text]. rewrite filter_cons.
    assert (Hrc : routed_correctly r =
                  match ModelEvaluator.expected_routing (SqlText c) with
                  | Some ex => str_contains ex a
                  | None => false
                  end) by (unfold routed_correctly; by rewrite Hc, Ha).
    destruct (ModelEvaluator.expected_routing (SqlText c)) as [ex|].
    + unfold ret at 1. destruct (IH
        (dict_upsert (SqlText c) []
           (dict_upsert (SqlText a) (0, 0)%Z
              (fun '(c0, s) =>
                 (c0 + 1,
                  s + ModelEvaluator.count (sql_truthy (sql_of_int (log_success r))))%Z))
           matrix)
        (correct + ModelEvaluator.count (str_contains ex a))%Z)
        as [matrix' Hrun].
      exists matrix'. rewrite Hrun. do 2 f_equal.
      case_decide as Hd; rewrite Hrc in Hd; destruct (str_contains ex a);
        try congruence; cbn [ModelEvaluator.count length]; lia.
    + unfold ret at 1. destruct (IH
        (dict_upsert (SqlText c) []
           (dict_upsert (SqlText a) (0, 0)%Z
              (fun '(c0, s) =>
                 (c0 + 1,
                  s + ModelEvaluator.count (sql_truthy (sql_of_int (log_success r))))%Z))
           matrix) correct) as [matrix' Hrun].
      exists matrix'. rewrite Hrun. do 2 f_equal.
      case_decide as Hd; rewrite Hrc in Hd; [discriminate | reflexivity].
Qed.

Lemma Qeq_bool_positive (z : Z) :
  (0 < z)%Z → Qeq_bool (inject_Z z) 0 = false.
Proof. destruct z; [lia | reflexivity | lia]. Qed.

(** Rounding depends on the number, not on the fraction that denotes it. *)
Lemma binary64_Qeq (x y : Q) : (x == y)%Q → binary64 x = binary64 y.
Proof. intros H. unfold binary64. by rewrite (Qred_complete x y H). Qed.

(** A part divided by the whole does not overflow. *)
Lemma true_div_counts (c t : Z) (w : World) :
  (0 ≤ c ≤ t)%Z → (0 < t)%Z →
  true_div (inject_Z c) (inject_Z t) w
  = Returned (binary64 (inject_Z c / inject_Z t)) w.
Proof.
  intros Hc Ht. unfold true_div. rewrite Qeq_bool_positive by assumption.
  set (largest := (2 ^ 1024 - 2 ^ 970)%Q).
  assert (Hone : (1 < largest)%Q) by (unfold Qlt; vm_compute; reflexivity).
  assert (Hpos : (0 < inject_Z t)%Q) by (unfold Qlt; cbn [Qnum Qden inject_Z]; lia).
  assert (Hlo : (0 <= inject_Z c / inject_Z t)%Q).
  { apply Qle_shift_div_l; [exact Hpos|]. rewrite Qmult_0_l.
    unfold Qle; cbn [Qnum Qden inject_Z]; lia. }
  assert (Hhi : (inject_Z c / inject_Z t <= 1)%Q).
  { apply Qle_shift_div_r; [exact Hpos|]. rewrite Qmult_1_l.
    unfold Qle; cbn [Qnum Qden inject_Z]; lia. }
  destruct (Qle_bool largest (Qabs (inject_Z c / inject_Z t))) eqn:Hover;
    [|reflexivity].
  exfalso. apply Qle_bool_imp_le in Hover.
  rewrite (Qabs_pos _ Hlo) in Hover.
  apply (Qlt_irrefl 1). eapply Qlt_le_trans; [exact Hone|].
  eapply Qle_trans; [exact Hover | exact Hhi].
Qed.

(** What the routing measurement returns for any log. *)
Lemma routing_success_run (w : World) :
  sqlite_fault E (sqlite_calls w) = None →
  let rows := routed_rows (ai_logs w) in
  let total := Z.of_nat (length rows) in
  let correct :=
    Z.of_nat (length (filter (fun r => routed_correctly r = true) rows)) in
  ∃ report,
    ModelEvaluator.evaluate_agent_routing_success E w
      = Returned report (tick_sqlite w)
    ∧ (0 ≤ correct ≤ total)%Z
    ∧ match rows with
      | [] => report = RoutingNoData (py "No routing data available")
      | _ :: _ =>
          ∃ matrix,
            report =
            RoutingResults total correct
              (float_mul (binary64 (inject_Z correct / inject_Z total)) 100)
              matrix
      end.
Proof.
  intros Hfault rows total correct.
  assert (Hbound : (0 ≤ correct ≤ total)%Z).
  { subst correct total. split; [lia|].
    apply Nat2Z.inj_le. apply length_filter. }
  unfold ModelEvaluator.evaluate_agent_routing_success.
  unfold bind at 1. unfold sqlite_connect. rewrite Hfault.
  unfold bind at 1. unfold get_world. unfold bind at 1.
  cbn [ai_logs tick_sqlite]. fold (routed_rows (ai_logs w)). fold rows.
  rewrite select_routing_columns.
  assert (Hrows : Forall (fun r => is_Some (log_classification r)
                                   ∧ is_Some (log_agent_used r)) rows).
  { subst rows. unfold routed_rows. apply Forall_forall. intros r Hr.
    by apply list_elem_of_filter in Hr as [Hr _]. }
  destruct rows as [|r0 rows'] eqn:Hr.
  - eexists. split; [reflexivity|]. split; [assumption|reflexivity].
  - change (map routing_tuple (r0 :: rows'))
      with (routing_tuple r0 :: map routing_tuple rows').
    cbv iota.
    change (routing_tuple r0 :: map routing_tuple rows')
      with (map routing_tuple (r0 :: rows')).
    unfold bind at 1.
    destruct (routing_loop (r0 :: rows') [] 0%Z (tick_sqlite w) Hrows)
      as [matrix Hloop].
    change (for_each (map routing_tuple (r0 :: rows')) _ ([], 0%Z)
              (tick_sqlite w))
      with (for_each (map routing_tuple (r0 :: rows')) routing_body
              ([], 0%Z) (tick_sqlite w)).
    rewrite Hloop. cbv iota beta. rewrite Z.add_0_l.
    unfold bind at 1. rewrite length_map.
    rewrite true_div_counts by (try exact Hbound; cbn [length]; lia).
    eexists. split; [reflexivity|]. split; [assumption|].
    exists matrix. reflexivity.
Qed.

(** Roundings as Python computes them: 1 / 3, 1 / 10 and 7 / 10 * 100; a
    tie between two floats, which goes to the even significand; a tie
    between zero and the least positive float; and the largest quotient
    that does not overflow. *)
Lemma binary64_samples (w : World) :
  binary64 (1 # 3) = (6004799503160661 # 18014398509481984)%Q
  ∧ binary64 (1 # 10) = (3602879701896397 # 36028797018963968)%Q
  ∧ float_mul (binary64 (7 # 10)) 100 = 70%Q
  ∧ binary64 (inject_Z (2 ^ 53 + 1)) = inject_Z (2 ^ 53)
  ∧ binary64 (inject_Z (2 ^ 53 + 3)) = inject_Z (2 ^ 53 + 4)
  ∧ binary64 (1 / 2 ^ 1075) = 0%Q
  ∧ binary64 (3 / 2 ^ 1075) = Qred (1 / 2 ^ 1073)
  ∧ true_div (inject_Z (2 ^ 1024 - 2 ^ 970 - 1)) 1 w
    = Returned (inject_Z (2 ^ 1024 - 2 ^ 971)) w
  ∧ true_div (inject_Z (2 ^ 1024 - 2 ^ 970)) 1 w
    = Raised (Exception "OverflowError"
                (py "integer division result too large for a float")) w.
Proof.
  repeat split; vm_compute; reflexivity.
Qed.

(** X25.  With a sound database [evaluate_agent_routing_success] always
    returns.  Of the log rows that have both a label and an agent, it reports
    No routing data available when there are none, and otherwise their number
    as total_routings, the number of those whose agent name contains the
    handler expected for the label as correct_routings (between 0 and the
    total), and as routing_accuracy the float that correct / total * 100
    gives: the quotient rounded to a binary64 number, and its product with
    100 rounded again. *)
Theorem routing_accuracy_counts (w : World) :
  sqlite_fault E (sqlite_calls w) = None →
  let rows := routed_rows (ai_logs w) in
  let total := Z.of_nat (length rows) in
  let correct :=
    Z.of_nat (length (filter (fun r => routed_correctly r = true) rows)) in
  ∃ report,
    ModelEvaluator.evaluate_agent_routing_success E w
      = Returned report (tick_sqlite w)
    ∧ (0 ≤ correct ≤ total)%Z
    ∧ match rows with
      | [] => report = RoutingNoData (py "No routing data available")
      | _ :: _ =>
          ∃ matrix,
            report =
            RoutingResults total correct
              (float_mul (binary64 (inject_Z correct / inject_Z total)) 100)
              matrix
      end.
Proof. exact (routing_success_run w). Qed.

(** One row of three routed correctly: the accuracy is the float that
    prints as 33.33333333333333, not the third of a hundred. *)
Lemma one_of_three_routed (answer : str) :
  ∃ matrix,
    ModelEvaluator.evaluate_agent_routing_success (calm_env answer)
      misrouted_world =
    Returned
      (RoutingResults 3 1 (2345624805922133 # 70368744177664) matrix)
      (tick_sqlite misrouted_world)
    ∧ ¬ (2345624805922133 # 70368744177664 == 100 / 3)%Q.
Proof.
  eexists. split; [vm_compute; reflexivity | discriminate].
Qed.

Lemma handler_pair_routed (r : LogRow) :
  handler_pair r →
  (is_Some (log_classification r) ∧ is_Some (log_agent_used r))
  ∧ routed_correctly r = true.
Proof.
  unfold routed_correctly.
  intros [[-> ->]|[[-> ->]|[-> ->]]]; (split; [split; by eexists|]);
    reflexivity.
Qed.

(** X26.  On a non-empty log in which every row pairs a label with its handler
    (the three pairs the handlers write), the routing measurement counts
    every row as routed correctly and reports an accuracy equal to 100. *)
Theorem routing_accuracy_of_handler_logs (w : World) :
  sqlite_fault E (sqlite_calls w) = None →
  ai_logs w ≠ [] →
  Forall handler_pair (ai_logs w) →
  ∃ accuracy matrix,
    ModelEvaluator.evaluate_agent_routing_success E w =
    Returned
      (RoutingResults (Z.of_nat (length (ai_logs w)))
         (Z.of_nat (length (ai_logs w))) accuracy matrix)
      (tick_sqlite w)
    ∧ (accuracy == 100)%Q.
Proof.
  intros Hfault Hne Hall.
  destruct (routing_success_run w Hfault) as (report & Hrun & _ & Hrep).
  assert (Hrows : routed_rows (ai_logs w) = ai_logs w).
  { unfold routed_rows. clear -Hall.
    induction Hall as [|r l Hr _ IH]; [reflexivity|].
    rewrite filter_cons, IH. apply handler_pair_routed in Hr as [Hr _].
    by rewrite decide_True. }
  assert (Hcorrect : filter (fun r => routed_correctly r = true) (ai_logs w)
                     = ai_logs w).
  { clear -Hall. induction Hall as [|r l Hr _ IH]; [reflexivity|].
    rewrite filter_cons, IH. apply handler_pair_routed in Hr as [_ Hr].
    by rewrite decide_True. }
  rewrite Hrows, Hcorrect in Hrep.
  destruct (ai_logs w) as [|r0 l] eqn:Hlogs; [congruence|].
  destruct Hrep as [matrix ->].
  eexists _, matrix. split; [exact Hrun|].
  set (n := inject_Z (Z.of_nat (length (r0 :: l)))).
  assert (Hn : ¬ (n == 0)%Q).
  { subst n. unfold Qeq. cbn. lia. }
  assert (Hone : (n / n == 1)%Q).
  { unfold Qdiv. by rewrite Qmult_inv_r. }
  rewrite (binary64_Qeq _ _ Hone). reflexivity.
Qed.

End EvaluatorFacts.

Section AccuracyFacts.
Context (E : Env).

Lemma dict_upsert_stats_ok (category : str) (b : bool)
    (stats : list (str * (Z * Z))) :
  stats_ok stats →
  stats_ok (dict_upsert category (0, 0)%Z
              (fun '(t, c) => (t + 1, c + ModelEvaluator.count b)%Z) stats).
Proof.
  unfold stats_ok. induction 1 as [|[k [t c]] stats Hk Hrest IH]; cbn.
  - apply Forall_singleton. destruct b; cbn; lia.
  - case_bool_decide.
    + apply Forall_cons. split; [destruct b; cbn; lia | exact Hrest].
    + apply Forall_cons. split; [assumption | exact IH].
Qed.

Lemma accuracy_loop (test_cases : list TestCase) (correct : Z)
    (detailed : list DetailedResult) (stats : list (str * (Z * Z)))
    (w : World) :
  stats_ok stats →
  ∃ correct' detailed' stats' w',
    for_each test_cases (accuracy_body E) (correct, detailed, stats) w
      = Returned (correct', detailed', stats') w'
    ∧ (correct' - correct = marked_correct detailed' - marked_correct detailed)%Z
    ∧ map d_message detailed'
      = map d_message detailed ++ map tc_message test_cases
    ∧ map d_expected detailed'
      = map d_expected detailed ++ map tc_expected test_cases
    ∧ stats_ok stats'
    ∧ tickets w' = tickets w ∧ ai_logs w' = ai_logs w
    ∧ sqlite_calls w' = sqlite_calls w.
Proof.
  revert correct detailed stats w.
  induction test_cases as [|tc tcs IH]; intros correct detailed stats w Hok.
  - exists correct, detailed, stats, w. cbn. rewrite !app_nil_r.
    repeat split; try assumption. lia.
  - cbn [for_each]. unfold bind at 1. unfold accuracy_body at 1.
    unfold bind at 1.
    destruct (classifier_returns E w (tc_message tc))
      as (cr & w1 & Hrun & Ht & Hl & _ & Hs & _).
    rewrite Hrun. unfold ret at 1.
    set (is_correct := bool_decide (c_classification cr = tc_expected tc)).
    destruct (IH (correct + ModelEvaluator.count is_correct)%Z
                (detailed ++
                   [ {| d_message := tc_message tc;
                        d_expected := tc_expected tc;
                        d_actual := c_classification cr;
                        d_correct := is_correct;
                        d_category := tc_category tc;
                        d_confidence := c_confidence cr |} ])
                (dict_upsert (tc_category tc) (0, 0)%Z
                   (fun '(t, c) =>
                      (t + 1, c + ModelEvaluator.count is_correct)%Z) stats)
                w1 (dict_upsert_stats_ok _ _ _ Hok))
      as (correct' & detailed' & stats' & w' & Hloop & Hc & Hm & He & Hok'
          & Ht' & Hl' & Hs').
    exists correct', detailed', stats', w'.
    split; [exact Hloop|].
    split.
    { assert (marked_correct
                (detailed ++
                   [ {| d_message := tc_message tc;
                        d_expected := tc_expected tc;
                        d_actual := c_classification cr;
                        d_correct := is_correct;
                        d_category := tc_category tc;
                        d_confidence := c_confidence cr |} ])
              = (marked_correct detailed + ModelEvaluator.count is_correct)%Z)
        as Hstep.
      { unfold marked_correct. rewrite filter_app, length_app.
        rewrite filter_cons, filter_nil. cbn [d_correct].
        destruct is_correct; [rewrite decide_True by reflexivity
                             |rewrite decide_False by discriminate];
          cbn [length ModelEvaluator.count]; lia. }
      lia. }
    split; [rewrite Hm, map_app, <- app_assoc; reflexivity|].
    split; [rewrite He, map_app, <- app_assoc; reflexivity|].
    split; [assumption|]. rewrite Ht', Hl', Hs'. auto.
Qed.

Lemma performance_loop (stats : list (str * (Z * Z)))
    (acc : list (str * (Q * Z * Z))) (w : World) :
  stats_ok stats →
  ∃ performance,
    for_each stats performance_body acc w = Returned performance w
    ∧ map fst performance = map fst acc ++ map fst stats.
Proof.
  unfold stats_ok. intros Hok. revert acc.
  induction Hok as [|[k [t c]] stats Hk _ IH]; intros acc.
  - exists acc. cbn. by rewrite app_nil_r.
  - cbn [for_each]. unfold bind at 1. unfold performance_body at 1.
    unfold bind at 1. rewrite true_div_counts by lia. unfold ret at 1.
    destruct (IH (acc ++ [(k, (float_mul (binary64 (inject_Z c / inject_Z t))
                                 100, c, t))]))
      as [performance [Hrun Hkeys]].
    exists performance. split; [exact Hrun|].
    rewrite Hkeys, map_app, <- app_assoc. reflexivity.
Qed.

(** X27.  On a non-empty corpus [evaluate_classification_accuracy] always
    returns, whatever the completion service does: total_tests is the size of
    the corpus, the detailed results list the messages and expected labels in
    corpus order, correct_classifications is the number of detailed results
    marked correct (between 0 and total_tests), accuracy_percentage is the
    float that correct / total * 100 gives (the quotient rounded to a
    binary64 number, and its product with 100 rounded again), which for a
    corpus of ten messages, as [__init__] sets it, is exactly that number;
    and tickets and log are untouched. *)
Theorem classification_accuracy_returns (test_cases : list TestCase)
    (w : World) :
  test_cases ≠ [] →
  ∃ report w',
    ModelEvaluator.evaluate_classification_accuracy E test_cases w
      = Returned report w'
    ∧ total_tests report = Z.of_nat (length test_cases)
    ∧ correct_classifications report
      = marked_correct (detailed_results report)
    ∧ (0 ≤ correct_classifications report ≤ total_tests report)%Z
    ∧ map d_message (detailed_results report) = map tc_message test_cases
    ∧ map d_expected (detailed_results report) = map tc_expected test_cases
    ∧ accuracy_percentage report
      = float_mul
          (binary64 (inject_Z (correct_classifications report)
                     / inject_Z (total_tests report))) 100
    ∧ (length test_cases = 10%nat →
       (accuracy_percentage report
        == inject_Z (correct_classifications report)
           / inject_Z (total_tests report) * 100)%Q)
    ∧ tickets w' = tickets w ∧ ai_logs w' = ai_logs w.
Proof.
  intros Hne.
  unfold ModelEvaluator.evaluate_classification_accuracy.
  destruct (accuracy_loop test_cases 0%Z [] [] w) as
    (correct & detailed & stats & w' & Hloop & Hc & Hm & He & Hok & Ht & Hl & _);
    [by apply Forall_nil_2|].
  unfold bind at 1.
  change (for_each test_cases _ (0%Z, [], []) w)
    with (for_each test_cases (accuracy_body E) (0%Z, [], []) w).
  rewrite Hloop. cbv iota beta.
  assert (Hlen : length detailed = length test_cases).
  { rewrite <- (length_map d_message detailed), Hm. cbn. apply length_map. }
  assert (Hcorrect : correct = marked_correct detailed).
  { assert (marked_correct [] = 0%Z) as H0 by reflexivity.
    rewrite H0, !Z.sub_0_r in Hc. exact Hc. }
  assert (Hpos : (0 < Z.of_nat (length test_cases))%Z).
  { destruct test_cases; [congruence | cbn; lia]. }
  assert (Hbound : (0 ≤ correct ≤ Z.of_nat (length test_cases))%Z).
  { rewrite Hcorrect. unfold marked_correct. split; [lia|].
    apply Nat2Z.inj_le. rewrite <- Hlen. apply length_filter. }
  unfold bind at 1. rewrite true_div_counts by assumption.
  unfold bind at 1.
  destruct (performance_loop stats [] w' Hok) as [performance [Hperf _]].
  change (for_each stats _ [] w')
    with (for_each stats performance_body [] w').
  rewrite Hperf. eexists _, _. split; [reflexivity|].
  cbn [total_tests correct_classifications detailed_results
       accuracy_percentage].
  split; [reflexivity|]. split; [exact Hcorrect|].
  split; [exact Hbound|].
  split; [exact Hm|]. split; [exact He|]. split; [reflexivity|].
  split; [|split; assumption].
  intros Hten. rewrite Hten in Hbound |- *. clear -Hbound.
  assert (Hcases : In correct [0; 1; 2; 3; 4; 5; 6; 7; 8; 9; 10]%Z).
  { cbn [In]. change (Z.of_nat 10) with 10%Z in Hbound. lia. }
  cbn [In] in Hcases.
  repeat (destruct Hcases as [<-|Hcases]; [vm_compute; reflexivity|]).
  destruct Hcases.
Qed.

End AccuracyFacts.

(** *** Concrete runs of the further properties *)

Lemma generated_number_shape_witness :
  ∃ number w1 ds,
    BMCDatabase.generate_ticket_number (calm_env (py "query")) 5 (py "REQ")
      scenario_C_world = Returned number w1
    ∧ number = py "REQ" ++ ds ∧ length ds = 10%nat
    ∧ tickets w1 = tickets scenario_C_world.
Proof.
  destruct (BMCDatabase.generate_ticket_number (calm_env (py "query")) 5
              (py "REQ") scenario_C_world) as [number w1|e w1|] eqn:Hrun;
    [|exfalso; vm_compute in Hrun; discriminate Hrun ..].
  destruct (generated_number_shape _ _ _ _ _ _ Hrun)
    as (ds & H1 & H2 & _ & _ & H3 & _).
  exists number, w1, ds. auto.
Defined.

Lemma create_then_get_witness :
  ∃ number w1 d,
    BMCDatabase.create_ticket (calm_env (py "query")) 5 (py "REQ")
      (py "New Debit Card") (py "Request new debit card") (py "Jane Doe")
      (py "Medium") scenario_C_world = Returned (Some number) w1
    ∧ BMCDatabase.get_ticket (calm_env (py "query")) number w1
      = Returned (Some d) (tick_sqlite w1).
Proof.
  destruct (BMCDatabase.create_ticket (calm_env (py "query")) 5 (py "REQ")
              (py "New Debit Card") (py "Request new debit card")
              (py "Jane Doe") (py "Medium") scenario_C_world)
    as [[number|] w1|e w1|] eqn:Hrun;
    [|exfalso; vm_compute in Hrun; discriminate Hrun ..].
  destruct (create_then_get _ _ _ _ _ _ _ _ _ _ Hrun eq_refl) as [now Hget].
  exists number, w1. eexists. split; [reflexivity | exact Hget].
Defined.

Lemma create_keeps_other_tickets_witness :
  ∃ result w1,
    BMCDatabase.create_ticket (calm_env (py "query")) 5 (py "REQ")
      (py "New Debit Card") (py "Request new debit card") (py "Jane Doe")
      (py "Medium") scenario_C_world = Returned result w1
    ∧ tickets w1 !! py "INC1234567890" = Some scenario_C_row.
Proof.
  destruct (BMCDatabase.create_ticket (calm_env (py "query")) 5 (py "REQ")
              (py "New Debit Card") (py "Request new debit card")
              (py "Jane Doe") (py "Medium") scenario_C_world)
    as [result w1|e w1|] eqn:Hrun;
    [|exfalso; vm_compute in Hrun; discriminate Hrun ..].
  exists result, w1. split; [reflexivity|].
  apply (proj1 (create_keeps_other_tickets _ _ _ _ _ _ _ _ _ _ Hrun)).
  reflexivity.
Defined.

Lemma update_status_then_get_witness :
  ∃ w1 (d : gmap string (option str)),
    BMCDatabase.update_status (calm_env (py "query")) (py "INC1234567890")
      (py "Closed") None scenario_C_world = Returned true w1
    ∧ d !! "status"%string = Some (Some (py "Closed"))
    ∧ d !! "resolution"%string = Some None
    ∧ d !! "title"%string = Some (Some (py "Credit Card Blocked")).
Proof.
  destruct (update_status_then_get (calm_env (py "query"))
              (py "INC1234567890") (py "Closed") None scenario_C_row
              scenario_C_world eq_refl eq_refl eq_refl)
    as (w1 & d & H1 & _ & H2 & H3 & _ & H4 & _).
  exists w1, d. auto.
Defined.

Lemma update_status_refused_witness :
  BMCDatabase.update_status (calm_env (py "query")) (py "INC0000000000")
    (py "Resolved") (Some (py "Done")) scenario_C_world
  = Returned false (tick_sqlite scenario_C_world).
Proof.
  apply update_status_refused. left. reflexivity.
Defined.

Lemma positive_feedback_service_down_witness :
  ∃ w2,
    FeedbackHandlerAgent.process offline_env 5
      (py "Thanks for resolving my issue quickly!") (py "positive_feedback")
      (py "John Smith") empty_world =
    Returned {| h_success := true;
                h_response := py "Error: " ++ py "Connection error.";
                h_action := Some (py "thanked_customer");
                h_ticket_number := None;
                h_ticket_details := None;
                h_processing_time_ms := Some (llm_elapsed offline_env empty_world) |}
      w2.
Proof.
  destruct (positive_feedback_service_down offline_env 5
              (py "Thanks for resolving my issue quickly!") (py "John Smith")
              empty_world
              (Exception "APIConnectionError" (py "Connection error."))
              eq_refl) as (w2 & Hrun & _).
  exists w2. exact Hrun.
Defined.

Lemma negative_feedback_store_fault_propagates_witness :
  FeedbackHandlerAgent.process (faulty_env 0) 5
    (py "My credit card is still not working") (py "negative_feedback")
    (py "Jane Doe") empty_world =
  Raised (Exception "OperationalError" (py "database is locked"))
    (tick_sqlite (tick_random empty_world)).
Proof.
  apply (negative_feedback_store_fault_propagates (faulty_env 0) 4).
  reflexivity.
Defined.

Lemma negative_feedback_twice_two_tickets_witness :
  ∃ r1 w1 r2 w2 n1 n2,
    FeedbackHandlerAgent.process counting_env 5 (py "My card does not work")
      (py "negative_feedback") (py "Jane Doe") empty_world = Returned r1 w1
    ∧ FeedbackHandlerAgent.process counting_env 5
        (py "My card does not work") (py "negative_feedback")
        (py "Jane Doe") w1 = Returned r2 w2
    ∧ h_ticket_number r1 = Some (Some n1)
    ∧ h_ticket_number r2 = Some (Some n2)
    ∧ n1 ≠ n2.
Proof.
  destruct (FeedbackHandlerAgent.process counting_env 5
              (py "My card does not work") (py "negative_feedback")
              (py "Jane Doe") empty_world) as [r1 w1|e w1|] eqn:H1;
    [|exfalso; vm_compute in H1; discriminate H1 ..].
  pose proof H1 as H1'. vm_compute in H1'. injection H1' as Hr1 Hw1.
  destruct (FeedbackHandlerAgent.process counting_env 5
              (py "My card does not work") (py "negative_feedback")
              (py "Jane Doe") w1) as [r2 w2|e w2|] eqn:H2;
    [|exfalso; rewrite <- Hw1 in H2; vm_compute in H2; discriminate H2 ..].
  pose proof H2 as H2'. rewrite <- Hw1 in H2'. vm_compute in H2'.
  injection H2' as Hr2 _.
  exists r1, w1, r2, w2, (py "INC1234567890"), (py "INC1234567891").
  assert (Hn1 : h_ticket_number r1 = Some (Some (py "INC1234567890")))
    by (rewrite <- Hr1; reflexivity).
  assert (Hn2 : h_ticket_number r2 = Some (Some (py "INC1234567891")))
    by (rewrite <- Hr2; reflexivity).
  repeat split; try assumption.
  exact (proj1 (negative_feedback_twice_two_tickets counting_env 5 5 _ _ _ _
                  _ _ _ _ _ _ _ H1 H2 Hn1 Hn2)).
Defined.

Lemma query_without_reference_witness :
  QueryHandlerAgent.process offline_env (py "Where is my card?")
    scenario_C_world =
  Returned {| h_success := false;
              h_response :=
                py "Please provide a valid ticket number (INC/REQ/CRQ/PBI/RLM + 10 digits)";
              h_action := None;
              h_ticket_number := None;
              h_ticket_details := None;
              h_processing_time_ms := Some 5%Z |} scenario_C_world.
Proof.
  apply query_without_reference. apply re_search_None. reflexivity.
Defined.

Lemma query_ticket_not_found_witness :
  ∃ w',
    QueryHandlerAgent.process offline_env (py "Can you check REQ0000000000?")
      scenario_C_world =
    Returned {| h_success := false;
                h_response :=
                  py "Ticket " ++ py "REQ0000000000"
                  ++ py " not found. Please verify the number.";
                h_action := None;
                h_ticket_number := Some (Some (py "REQ0000000000"));
                h_ticket_details := None;
                h_processing_time_ms := Some 50%Z |} w'
    ∧ length (ai_logs w') = 1%nat.
Proof.
  destruct (query_ticket_not_found offline_env scenario_C_world
              (py "Can you check REQ0000000000?")
              {| m_start := 14; group0 := py "REQ0000000000" |}
              eq_refl (or_introl eq_refl)) as (w' & Hrun & _ & Hlog).
  exists w'. split; [exact Hrun|]. rewrite Hlog. reflexivity.
Defined.

Lemma query_uses_first_reference_witness :
  ∃ r w',
    QueryHandlerAgent.process offline_env
      (py "inc1234567890 or REQ0000000000?") scenario_C_world = Returned r w'
    ∧ h_ticket_number r = Some (Some (py "INC1234567890"))
    ∧ ticket_shaped (unicode offline_env) QueryHandlerAgent.ticket_pattern
        (py "INC1234567890").
Proof.
  destruct (QueryHandlerAgent.process offline_env
              (py "inc1234567890 or REQ0000000000?") scenario_C_world)
    as [r w'|e w'|] eqn:Hrun;
    [|exfalso; vm_compute in Hrun; discriminate Hrun ..].
  pose proof Hrun as Hrun'. vm_compute in Hrun'. injection Hrun' as Hr _.
  assert (Hn : h_ticket_number r = Some (Some (py "INC1234567890")))
    by (rewrite <- Hr; reflexivity).
  exists r, w'. split; [reflexivity|]. split; [exact Hn|].
  exact (proj1 (query_uses_first_reference offline_env _ _ _ _ _ Hrun Hn)).
Defined.

Lemma created_incident_can_be_queried_witness :
  ∃ r w1 number q w2,
    FeedbackHandlerAgent.process (calm_env (py "query")) 5
      (py "My credit card is still not working") (py "negative_feedback")
      (py "Jane Doe") empty_world = Returned r w1
    ∧ h_ticket_number r = Some (Some number)
    ∧ QueryHandlerAgent.process (calm_env (py "query")) number w1
      = Returned q w2
    ∧ h_success q = true.
Proof.
  destruct (FeedbackHandlerAgent.process (calm_env (py "query")) 5
              (py "My credit card is still not working")
              (py "negative_feedback") (py "Jane Doe") empty_world)
    as [r w1|e w1|] eqn:Hrun;
    [|exfalso; vm_compute in Hrun; discriminate Hrun ..].
  pose proof Hrun as Hrun'. vm_compute in Hrun'. injection Hrun' as Hr _.
  assert (Hn : h_ticket_number r = Some (Some (py "INC1234567890")))
    by (rewrite <- Hr; reflexivity).
  destruct (created_incident_can_be_queried (calm_env (py "query")) _ _ _ _
              _ _ _ Hrun Hn eq_refl) as (now & w2 & Hq).
  exists r, w1, (py "INC1234567890"). eexists _, w2.
  split; [reflexivity|]. split; [exact Hn|]. split; [exact Hq | reflexivity].
Defined.

Lemma orchestrator_routes_reference_to_query_witness :
  ∃ r w1,
    MultiAgentOrchestrator.process_message offline_env 5
      (py "What's the status of INC1234567890?") (py "Mike Johnson")
      scenario_C_world =
    Returned {| o_result := r;
                o_classification := Some (py "query");
                o_classification_confidence := Some 0.95%Q;
                o_agent_path := Some query_path;
                o_total_processing_time_ms := 250 |} (tick_clock w1)
    ∧ llm_requests w1 = llm_requests scenario_C_world.
Proof.
  assert (H : has_ticket (unicode offline_env) ClassifierAgent.ticket_pattern
                (upper (unicode offline_env)
                   (py "What's the status of INC1234567890?"))).
  { exists (py "INC1234567890"), 21%nat. split.
    - exists (py "INC"), (py "1234567890").
      split; [reflexivity|]. split; [left|].
      split; [reflexivity|]. repeat (constructor; [reflexivity|]). constructor.
    - exists (py "WHAT'S THE STATUS OF "), (py "?"). split; reflexivity. }
  destruct (orchestrator_routes_reference_to_query offline_env 5 _
              (py "Mike Johnson") scenario_C_world H)
    as (r & w1 & _ & Hrun & Hreq & _).
  exists r, w1. split; [exact Hrun | exact Hreq].
Defined.

Lemma orchestrator_turns_unknown_away_witness :
  MultiAgentOrchestrator.process_message (calm_env (py "I am not sure")) 5
    (py "asdf qwer") (py "Valued Customer") scenario_C_world =
  Returned
    (MultiAgentOrchestrator.turned_away
       (py "Unable to understand your message. Please try again.") 750)
    (tick_clock
       (after_llm (py "Message: 'asdf qwer'")
          (Some ClassifierAgent.system_msg) (tick_clock scenario_C_world))).
Proof.
  exact (proj1 (orchestrator_turns_unknown_away
                  (calm_env (py "I am not sure")) 5 (py "asdf qwer")
                  (py "Valued Customer") scenario_C_world _
                  {| c_success := false;
                     c_classification := py "unknown";
                     c_confidence := 0.8%Q;
                     c_method := py "llm_based";
                     c_processing_time_ms := 250 |}
                  eq_refl eq_refl)).
Defined.

Lemma orchestrator_service_down_witness :
  ∃ w',
    MultiAgentOrchestrator.process_message offline_env 5 (py "hello")
      (py "Valued Customer") scenario_C_world =
    Returned
      (MultiAgentOrchestrator.turned_away
         (py "Unable to understand your message. Please try again.") 750)
      w'
    ∧ tickets w' = tickets scenario_C_world
    ∧ ai_logs w' = ai_logs scenario_C_world.
Proof.
  destruct (orchestrator_service_down offline_env 5 (py "hello")
              (py "Valued Customer") scenario_C_world
              (Exception "APIConnectionError" (py "Connection error."))
              eq_refl eq_refl) as (w' & Hrun & Ht & Hl & _).
  exists w'. auto.
Defined.

Lemma orchestrator_routing_witness :
  ∃ r w',
    MultiAgentOrchestrator.process_message
      (calm_env (py "negative_feedback")) 5
      (py "My credit card is still not working") (py "Jane Doe")
      empty_world = Returned r w'
    ∧ o_classification r = Some (py "negative_feedback")
    ∧ o_agent_path r = Some feedback_path.
Proof.
  destruct (MultiAgentOrchestrator.process_message
              (calm_env (py "negative_feedback")) 5
              (py "My credit card is still not working") (py "Jane Doe")
              empty_world) as [r w'|e w'|] eqn:Hrun;
    [|exfalso; vm_compute in Hrun; discriminate Hrun ..].
  pose proof Hrun as Hrun'. vm_compute in Hrun'. injection Hrun' as Hr _.
  exists r, w'. split; [reflexivity|].
  destruct (orchestrator_routing _ _ _ _ _ _ _ Hrun)
    as [(Hc & _)|[(Hc & _)|[(Hc & Hp & _)|(Hc & _)]]];
    try (exfalso; rewrite <- Hr in Hc; vm_compute in Hc; discriminate Hc).
  auto.
Defined.

Lemma orchestrator_logs_handler_pairs_witness :
  ∃ r w',
    MultiAgentOrchestrator.process_message
      (calm_env (py "negative_feedback")) 5
      (py "My credit card is still not working") (py "Jane Doe")
      empty_world = Returned r w'
    ∧ appends_pair empty_world w'.
Proof.
  destruct (MultiAgentOrchestrator.process_message
              (calm_env (py "negative_feedback")) 5
              (py "My credit card is still not working") (py "Jane Doe")
              empty_world) as [r w'|e w'|] eqn:Hrun;
    [|exfalso; vm_compute in Hrun; discriminate Hrun ..].
  exists r, w'. split; [reflexivity|].
  exact (proj1 (orchestrator_logs_handler_pairs _ _ _ _ _ _ _ Hrun)).
Defined.

Lemma orchestrator_store_fault_propagates_witness :
  ∃ w',
    MultiAgentOrchestrator.process_message complaint_down_env 5
      (py "My credit card is still not working") (py "Jane Doe")
      empty_world =
    Raised (Exception "OperationalError" (py "database is locked")) w'.
Proof.
  eexists.
  exact (orchestrator_store_fault_propagates complaint_down_env 4
           (py "My credit card is still not working") (py "Jane Doe")
           empty_world _
           {| c_success := true;
              c_classification := py "negative_feedback";
              c_confidence := 0.8%Q;
              c_method := py "llm_based";
              c_processing_time_ms := 250 |}
           (Exception "OperationalError" (py "database is locked"))
           eq_refl eq_refl eq_refl eq_refl).
Defined.

Lemma routing_accuracy_counts_witness :
  ∃ matrix,
    ModelEvaluator.evaluate_agent_routing_success (calm_env (py "query"))
      misrouted_world =
    Returned
      (RoutingResults 3 1 (float_mul (binary64 (inject_Z 1 / inject_Z 3)) 100)
         matrix)
      (tick_sqlite misrouted_world).
Proof.
  destruct (routing_accuracy_counts (calm_env (py "query")) misrouted_world
              eq_refl) as (report & Hrun & _ & matrix & ->).
  exists matrix. exact Hrun.
Defined.

Lemma routing_accuracy_of_handler_logs_witness :
  ∃ accuracy matrix,
    ModelEvaluator.evaluate_agent_routing_success (calm_env (py "query"))
      (with_log
         (BMCDatabase.new_log_row 1 (py "2024-05-01 10:00:00")
            (py "Thanks!") (py "positive_feedback") (py "FeedbackHandler")
            (py "You are welcome.") None true) empty_world) =
    Returned (RoutingResults 1 1 accuracy matrix)
      (tick_sqlite
         (with_log
            (BMCDatabase.new_log_row 1 (py "2024-05-01 10:00:00")
               (py "Thanks!") (py "positive_feedback") (py "FeedbackHandler")
               (py "You are welcome.") None true) empty_world))
    ∧ (accuracy == 100)%Q.
Proof.
  apply (routing_accuracy_of_handler_logs (calm_env (py "query"))).
  - reflexivity.
  - discriminate.
  - apply Forall_singleton. left. split; reflexivity.
Defined.

Lemma classification_accuracy_returns_witness :
  ∃ report w',
    ModelEvaluator.evaluate_classification_accuracy (calm_env (py "query"))
      ModelEvaluator.initial_test_cases empty_world = Returned report w'
    ∧ total_tests report = 10%Z
    ∧ (0 ≤ correct_classifications report ≤ 10)%Z
    ∧ (accuracy_percentage report
       == inject_Z (correct_classifications report)
          / inject_Z (total_tests report) * 100)%Q.
Proof.
  destruct (classification_accuracy_returns (calm_env (py "query"))
              ModelEvaluator.initial_test_cases empty_world)
    as (report & w' & Hrun & Htot & _ & Hb & _ & _ & _ & Hten & _);
    [discriminate|].
  exists report, w'. split; [exact Hrun|]. split; [exact Htot|].
  split; [rewrite Htot in Hb; exact Hb|]. exact (Hten eq_refl).
Defined.
